(** * The Task Computer of golem (golem/task/taskcomputer.py)

    A shallow embedding of class [TaskComputer]: the registry of assigned
    subtasks, the request / wait timers, the compute step that spawns
    workers, the outcome dispatcher [task_computed] and the tick [run].

    Conventions of the embedding.
    - Python dictionaries are [gmap]s with string keys; ids are strings.
    - Epoch seconds, deadlines and time-to-live values are Python numbers;
      they are integers here (one unit = one clock tick).
    - Attributes that Python tests for truth keep the values the code
      stores in them: [counting_task] is [False], [None] or a task id,
      [waiting_for_task] is [None] or the handle a request returned.
      [use_waiting_ttl], which starts as [None] and is a boolean later,
      is a boolean that starts false.
    - Calls that leave the object (task server, monitor, directory and
      container managers, worker threads) are recorded, in order, in a
      trace of [event]s; what such a call returns is read from [Env].
    - A method is a computation in the monad [M]: it takes the object's
      state and yields a returned value or a raised exception, the new
      state and the trace.  Logging is not modelled. *)

From Stdlib Require Import ZArith String List Bool Lia.
From stdpp Require Import base option gmap strings list fin_maps.

Open Scope string_scope.
Open Scope Z_scope.
Open Scope list_scope.
Open Scope stdpp_scope.

(** ** Python values used as conditions *)

(** [self.counting_task]: [False] after [reset()], [None] after an outcome,
    the task id while a subtask is computed. *)
Inductive pyflag : Type :=
| PyFalse
| PyNone
| PyStr (s : string).

Definition str_truthy (s : string) : bool :=
  match s with EmptyString => false | String _ _ => true end.

Definition flag_truthy (f : pyflag) : bool :=
  match f with
  | PyFalse | PyNone => false
  | PyStr s => str_truthy s
  end.

(** Truth value of [None] or a string handle. *)
Definition handle_truthy (h : option string) : bool :=
  match h with
  | None => false
  | Some s => str_truthy s
  end.

(** [sub in s] on Python strings. *)
Fixpoint str_contains (sub s : string) : bool :=
  String.prefix sub s ||
  match s with
  | EmptyString => false
  | String _ s' => str_contains sub s'
  end.

(** ** Data *)

(** The descriptor handed to [task_given] (ctd). *)
Record ComputeTaskDef : Type := mkCTD {
  subtask_id : string;
  task_id : string;
  src_code : string;
  extra_data : string;
  short_description : string;
  working_directory : string;
  deadline : Z;
  docker_images : list string;
  return_address : string;
  return_port : Z;
  key_id : string;
  task_owner : string
}.

(** What [task_server.task_keeper.task_headers] holds for a task id. *)
Record TaskHeader : Type := mkTaskHeader {
  th_deadline : Z;
  th_subtask_timeout : Z
}.

Inductive thread_kind : Type := DockerTaskThread | PyTaskThread.

(** A worker thread object.  [tt_ref] is the identity of the object;
    the first block of fields are the constructor arguments of
    [__compute_task], the second the attributes [task_computed] reads. *)
Record TaskThread : Type := mkTaskThread {
  tt_ref : nat;
  tt_kind : thread_kind;
  tt_subtask_id : string;
  tt_docker_images : list string;
  tt_working_directory : string;
  tt_src_code : string;
  tt_extra_data : string;
  tt_short_desc : string;
  tt_res_path : string;
  tt_tmp_path : string;
  tt_timeout : Z;
  start_time : Z;
  end_time : option Z;
  error : bool;
  error_msg : string;
  result : option (gmap string string)
}.

(** Truth value of [task_thread.result]: [None] and the empty dict are
    false. *)
Definition result_truthy (r : option (gmap string string)) : bool :=
  match r with
  | None => false
  | Some m => negb (bool_decide (m = ∅))
  end.

Record CompStats : Type := mkCompStats {
  computed_tasks : Z;
  tasks_with_timeout : Z;
  tasks_with_errors : Z;
  tasks_requested : Z
}.

Inductive stat_name : Type :=
| st_computed_tasks
| st_tasks_with_timeout
| st_tasks_with_errors
| st_tasks_requested.

(** Modelled from the spec: [IntStatsKeeper.increase_stat] of
    golem/core/statskeeper.py, which is not part of the sources at hand;
    the Stats Counter is a tally, one step per call. *)
Definition increase_stat (n : stat_name) (s : CompStats) : CompStats :=
  match n with
  | st_computed_tasks =>
      mkCompStats (computed_tasks s + 1) (tasks_with_timeout s)
                  (tasks_with_errors s) (tasks_requested s)
  | st_tasks_with_timeout =>
      mkCompStats (computed_tasks s) (tasks_with_timeout s + 1)
                  (tasks_with_errors s) (tasks_requested s)
  | st_tasks_with_errors =>
      mkCompStats (computed_tasks s) (tasks_with_timeout s)
                  (tasks_with_errors s + 1) (tasks_requested s)
  | st_tasks_requested =>
      mkCompStats (computed_tasks s) (tasks_with_timeout s)
                  (tasks_with_errors s) (tasks_requested s + 1)
  end.

(** The fields of [config_desc] that [change_config] copies. *)
Record ConfigDesc : Type := mkConfigDesc {
  task_request_interval : Z;
  cfg_waiting_for_task_timeout : Z;
  cfg_waiting_for_task_session_timeout : Z;
  accept_tasks : bool
}.

(** ** The object state: the attributes set by [__init__] *)

Record TaskComputer : Type := mkTaskComputer {
  node_name : string;
  waiting_for_task : option string;
  counting_task : pyflag;
  task_requested : bool;
  runnable : bool;
  listeners : list nat;
  current_computations : list TaskThread;
  last_task_request : Z;
  waiting_ttl : Z;
  last_checking : Z;
  task_request_frequency : Z;
  use_waiting_ttl : bool;
  waiting_for_task_timeout : Z;
  waiting_for_task_session_timeout : Z;
  use_docker_machine_manager : bool;
  stats : CompStats;
  assigned_subtasks : gmap string ComputeTaskDef;
  task_to_subtask_mapping : gmap string string;
  max_assigned_tasks : nat;
  delta : option string;
  last_task_timeout_checking : option Z;
  support_direct_computation : bool;
  compute_tasks : bool
}.

(** Attribute assignments [self.x = v]. *)

Definition set_waiting_for_task (v : option string) (tc : TaskComputer) :
    TaskComputer :=
  {| node_name := node_name tc; waiting_for_task := v;
     counting_task := counting_task tc; task_requested := task_requested tc;
     runnable := runnable tc; listeners := listeners tc;
     current_computations := current_computations tc;
     last_task_request := last_task_request tc;
     waiting_ttl := waiting_ttl tc; last_checking := last_checking tc;
     task_request_frequency := task_request_frequency tc;
     use_waiting_ttl := use_waiting_ttl tc;
     waiting_for_task_timeout := waiting_for_task_timeout tc;
     waiting_for_task_session_timeout := waiting_for_task_session_timeout tc;
     use_docker_machine_manager := use_docker_machine_manager tc;
     stats := stats tc; assigned_subtasks := assigned_subtasks tc;
     task_to_subtask_mapping := task_to_subtask_mapping tc;
     max_assigned_tasks := max_assigned_tasks tc; delta := delta tc;
     last_task_timeout_checking := last_task_timeout_checking tc;
     support_direct_computation := support_direct_computation tc;
     compute_tasks := compute_tasks tc |}.

Definition set_counting_task (v : pyflag) (tc : TaskComputer) :
    TaskComputer :=
  {| node_name := node_name tc; waiting_for_task := waiting_for_task tc;
     counting_task := v; task_requested := task_requested tc;
     runnable := runnable tc; listeners := listeners tc;
     current_computations := current_computations tc;
     last_task_request := last_task_request tc;
     waiting_ttl := waiting_ttl tc; last_checking := last_checking tc;
     task_request_frequency := task_request_frequency tc;
     use_waiting_ttl := use_waiting_ttl tc;
     waiting_for_task_timeout := waiting_for_task_timeout tc;
     waiting_for_task_session_timeout := waiting_for_task_session_timeout tc;
     use_docker_machine_manager := use_docker_machine_manager tc;
     stats := stats tc; assigned_subtasks := assigned_subtasks tc;
     task_to_subtask_mapping := task_to_subtask_mapping tc;
     max_assigned_tasks := max_assigned_tasks tc; delta := delta tc;
     last_task_timeout_checking := last_task_timeout_checking tc;
     support_direct_computation := support_direct_computation tc;
     compute_tasks := compute_tasks tc |}.

Definition set_task_requested (v : bool) (tc : TaskComputer) :
    TaskComputer :=
  {| node_name := node_name tc; waiting_for_task := waiting_for_task tc;
     counting_task := counting_task tc; task_requested := v;
     runnable := runnable tc; listeners := listeners tc;
     current_computations := current_computations tc;
     last_task_request := last_task_request tc;
     waiting_ttl := waiting_ttl tc; last_checking := last_checking tc;
     task_request_frequency := task_request_frequency tc;
     use_waiting_ttl := use_waiting_ttl tc;
     waiting_for_task_timeout := waiting_for_task_timeout tc;
     waiting_for_task_session_timeout := waiting_for_task_session_timeout tc;
     use_docker_machine_manager := use_docker_machine_manager tc;
     stats := stats tc; assigned_subtasks := assigned_subtasks tc;
     task_to_subtask_mapping := task_to_subtask_mapping tc;
     max_assigned_tasks := max_assigned_tasks tc; delta := delta tc;
     last_task_timeout_checking := last_task_timeout_checking tc;
     support_direct_computation := support_direct_computation tc;
     compute_tasks := compute_tasks tc |}.

Definition set_runnable (v : bool) (tc : TaskComputer) :
    TaskComputer :=
  {| node_name := node_name tc; waiting_for_task := waiting_for_task tc;
     counting_task := counting_task tc; task_requested := task_requested tc;
     runnable := v; listeners := listeners tc;
     current_computations := current_computations tc;
     last_task_request := last_task_request tc;
     waiting_ttl := waiting_ttl tc; last_checking := last_checking tc;
     task_request_frequency := task_request_frequency tc;
     use_waiting_ttl := use_waiting_ttl tc;
     waiting_for_task_timeout := waiting_for_task_timeout tc;
     waiting_for_task_session_timeout := waiting_for_task_session_timeout tc;
     use_docker_machine_manager := use_docker_machine_manager tc;
     stats := stats tc; assigned_subtasks := assigned_subtasks tc;
     task_to_subtask_mapping := task_to_subtask_mapping tc;
     max_assigned_tasks := max_assigned_tasks tc; delta := delta tc;
     last_task_timeout_checking := last_task_timeout_checking tc;
     support_direct_computation := support_direct_computation tc;
     compute_tasks := compute_tasks tc |}.

Definition set_listeners (v : list nat) (tc : TaskComputer) :
    TaskComputer :=
  {| node_name := node_name tc; waiting_for_task := waiting_for_task tc;
     counting_task := counting_task tc; task_requested := task_requested tc;
     runnable := runnable tc; listeners := v;
     current_computations := current_computations tc;
     last_task_request := last_task_request tc;
     waiting_ttl := waiting_ttl tc; last_checking := last_checking tc;
     task_request_frequency := task_request_frequency tc;
     use_waiting_ttl := use_waiting_ttl tc;
     waiting_for_task_timeout := waiting_for_task_timeout tc;
     waiting_for_task_session_timeout := waiting_for_task_session_timeout tc;
     use_docker_machine_manager := use_docker_machine_manager tc;
     stats := stats tc; assigned_subtasks := assigned_subtasks tc;
     task_to_subtask_mapping := task_to_subtask_mapping tc;
     max_assigned_tasks := max_assigned_tasks tc; delta := delta tc;
     last_task_timeout_checking := last_task_timeout_checking tc;
     support_direct_computation := support_direct_computation tc;
     compute_tasks := compute_tasks tc |}.

Definition set_current_computations (v : list TaskThread) (tc : TaskComputer) :
    TaskComputer :=
  {| node_name := node_name tc; waiting_for_task := waiting_for_task tc;
     counting_task := counting_task tc; task_requested := task_requested tc;
     runnable := runnable tc; listeners := listeners tc;
     current_computations := v; last_task_request := last_task_request tc;
     waiting_ttl := waiting_ttl tc; last_checking := last_checking tc;
     task_request_frequency := task_request_frequency tc;
     use_waiting_ttl := use_waiting_ttl tc;
     waiting_for_task_timeout := waiting_for_task_timeout tc;
     waiting_for_task_session_timeout := waiting_for_task_session_timeout tc;
     use_docker_machine_manager := use_docker_machine_manager tc;
     stats := stats tc; assigned_subtasks := assigned_subtasks tc;
     task_to_subtask_mapping := task_to_subtask_mapping tc;
     max_assigned_tasks := max_assigned_tasks tc; delta := delta tc;
     last_task_timeout_checking := last_task_timeout_checking tc;
     support_direct_computation := support_direct_computation tc;
     compute_tasks := compute_tasks tc |}.

Definition set_last_task_request (v : Z) (tc : TaskComputer) :
    TaskComputer :=
  {| node_name := node_name tc; waiting_for_task := waiting_for_task tc;
     counting_task := counting_task tc; task_requested := task_requested tc;
     runnable := runnable tc; listeners := listeners tc;
     current_computations := current_computations tc; last_task_request := v;
     waiting_ttl := waiting_ttl tc; last_checking := last_checking tc;
     task_request_frequency := task_request_frequency tc;
     use_waiting_ttl := use_waiting_ttl tc;
     waiting_for_task_timeout := waiting_for_task_timeout tc;
     waiting_for_task_session_timeout := waiting_for_task_session_timeout tc;
     use_docker_machine_manager := use_docker_machine_manager tc;
     stats := stats tc; assigned_subtasks := assigned_subtasks tc;
     task_to_subtask_mapping := task_to_subtask_mapping tc;
     max_assigned_tasks := max_assigned_tasks tc; delta := delta tc;
     last_task_timeout_checking := last_task_timeout_checking tc;
     support_direct_computation := support_direct_computation tc;
     compute_tasks := compute_tasks tc |}.

Definition set_waiting_ttl (v : Z) (tc : TaskComputer) :
    TaskComputer :=
  {| node_name := node_name tc; waiting_for_task := waiting_for_task tc;
     counting_task := counting_task tc; task_requested := task_requested tc;
     runnable := runnable tc; listeners := listeners tc;
     current_computations := current_computations tc;
     last_task_request := last_task_request tc; waiting_ttl := v;
     last_checking := last_checking tc;
     task_request_frequency := task_request_frequency tc;
     use_waiting_ttl := use_waiting_ttl tc;
     waiting_for_task_timeout := waiting_for_task_timeout tc;
     waiting_for_task_session_timeout := waiting_for_task_session_timeout tc;
     use_docker_machine_manager := use_docker_machine_manager tc;
     stats := stats tc; assigned_subtasks := assigned_subtasks tc;
     task_to_subtask_mapping := task_to_subtask_mapping tc;
     max_assigned_tasks := max_assigned_tasks tc; delta := delta tc;
     last_task_timeout_checking := last_task_timeout_checking tc;
     support_direct_computation := support_direct_computation tc;
     compute_tasks := compute_tasks tc |}.

Definition set_last_checking (v : Z) (tc : TaskComputer) :
    TaskComputer :=
  {| node_name := node_name tc; waiting_for_task := waiting_for_task tc;
     counting_task := counting_task tc; task_requested := task_requested tc;
     runnable := runnable tc; listeners := listeners tc;
     current_computations := current_computations tc;
     last_task_request := last_task_request tc;
     waiting_ttl := waiting_ttl tc; last_checking := v;
     task_request_frequency := task_request_frequency tc;
     use_waiting_ttl := use_waiting_ttl tc;
     waiting_for_task_timeout := waiting_for_task_timeout tc;
     waiting_for_task_session_timeout := waiting_for_task_session_timeout tc;
     use_docker_machine_manager := use_docker_machine_manager tc;
     stats := stats tc; assigned_subtasks := assigned_subtasks tc;
     task_to_subtask_mapping := task_to_subtask_mapping tc;
     max_assigned_tasks := max_assigned_tasks tc; delta := delta tc;
     last_task_timeout_checking := last_task_timeout_checking tc;
     support_direct_computation := support_direct_computation tc;
     compute_tasks := compute_tasks tc |}.

Definition set_task_request_frequency (v : Z) (tc : TaskComputer) :
    TaskComputer :=
  {| node_name := node_name tc; waiting_for_task := waiting_for_task tc;
     counting_task := counting_task tc; task_requested := task_requested tc;
     runnable := runnable tc; listeners := listeners tc;
     current_computations := current_computations tc;
     last_task_request := last_task_request tc;
     waiting_ttl := waiting_ttl tc; last_checking := last_checking tc;
     task_request_frequency := v; use_waiting_ttl := use_waiting_ttl tc;
     waiting_for_task_timeout := waiting_for_task_timeout tc;
     waiting_for_task_session_timeout := waiting_for_task_session_timeout tc;
     use_docker_machine_manager := use_docker_machine_manager tc;
     stats := stats tc; assigned_subtasks := assigned_subtasks tc;
     task_to_subtask_mapping := task_to_subtask_mapping tc;
     max_assigned_tasks := max_assigned_tasks tc; delta := delta tc;
     last_task_timeout_checking := last_task_timeout_checking tc;
     support_direct_computation := support_direct_computation tc;
     compute_tasks := compute_tasks tc |}.

Definition set_use_waiting_ttl (v : bool) (tc : TaskComputer) :
    TaskComputer :=
  {| node_name := node_name tc; waiting_for_task := waiting_for_task tc;
     counting_task := counting_task tc; task_requested := task_requested tc;
     runnable := runnable tc; listeners := listeners tc;
     current_computations := current_computations tc;
     last_task_request := last_task_request tc;
     waiting_ttl := waiting_ttl tc; last_checking := last_checking tc;
     task_request_frequency := task_request_frequency tc;
     use_waiting_ttl := v;
     waiting_for_task_timeout := waiting_for_task_timeout tc;
     waiting_for_task_session_timeout := waiting_for_task_session_timeout tc;
     use_docker_machine_manager := use_docker_machine_manager tc;
     stats := stats tc; assigned_subtasks := assigned_subtasks tc;
     task_to_subtask_mapping := task_to_subtask_mapping tc;
     max_assigned_tasks := max_assigned_tasks tc; delta := delta tc;
     last_task_timeout_checking := last_task_timeout_checking tc;
     support_direct_computation := support_direct_computation tc;
     compute_tasks := compute_tasks tc |}.

Definition set_waiting_for_task_timeout (v : Z) (tc : TaskComputer) :
    TaskComputer :=
  {| node_name := node_name tc; waiting_for_task := waiting_for_task tc;
     counting_task := counting_task tc; task_requested := task_requested tc;
     runnable := runnable tc; listeners := listeners tc;
     current_computations := current_computations tc;
     last_task_request := last_task_request tc;
     waiting_ttl := waiting_ttl tc; last_checking := last_checking tc;
     task_request_frequency := task_request_frequency tc;
     use_waiting_ttl := use_waiting_ttl tc; waiting_for_task_timeout := v;
     waiting_for_task_session_timeout := waiting_for_task_session_timeout tc;
     use_docker_machine_manager := use_docker_machine_manager tc;
     stats := stats tc; assigned_subtasks := assigned_subtasks tc;
     task_to_subtask_mapping := task_to_subtask_mapping tc;
     max_assigned_tasks := max_assigned_tasks tc; delta := delta tc;
     last_task_timeout_checking := last_task_timeout_checking tc;
     support_direct_computation := support_direct_computation tc;
     compute_tasks := compute_tasks tc |}.

Definition set_waiting_for_task_session_timeout (v : Z) (tc : TaskComputer) :
    TaskComputer :=
  {| node_name := node_name tc; waiting_for_task := waiting_for_task tc;
     counting_task := counting_task tc; task_requested := task_requested tc;
     runnable := runnable tc; listeners := listeners tc;
     current_computations := current_computations tc;
     last_task_request := last_task_request tc;
     waiting_ttl := waiting_ttl tc; last_checking := last_checking tc;
     task_request_frequency := task_request_frequency tc;
     use_waiting_ttl := use_waiting_ttl tc;
     waiting_for_task_timeout := waiting_for_task_timeout tc;
     waiting_for_task_session_timeout := v;
     use_docker_machine_manager := use_docker_machine_manager tc;
     stats := stats tc; assigned_subtasks := assigned_subtasks tc;
     task_to_subtask_mapping := task_to_subtask_mapping tc;
     max_assigned_tasks := max_assigned_tasks tc; delta := delta tc;
     last_task_timeout_checking := last_task_timeout_checking tc;
     support_direct_computation := support_direct_computation tc;
     compute_tasks := compute_tasks tc |}.

Definition set_stats (v : CompStats) (tc : TaskComputer) :
    TaskComputer :=
  {| node_name := node_name tc; waiting_for_task := waiting_for_task tc;
     counting_task := counting_task tc; task_requested := task_requested tc;
     runnable := runnable tc; listeners := listeners tc;
     current_computations := current_computations tc;
     last_task_request := last_task_request tc;
     waiting_ttl := waiting_ttl tc; last_checking := last_checking tc;
     task_request_frequency := task_request_frequency tc;
     use_waiting_ttl := use_waiting_ttl tc;
     waiting_for_task_timeout := waiting_for_task_timeout tc;
     waiting_for_task_session_timeout := waiting_for_task_session_timeout tc;
     use_docker_machine_manager := use_docker_machine_manager tc; stats := v;
     assigned_subtasks := assigned_subtasks tc;
     task_to_subtask_mapping := task_to_subtask_mapping tc;
     max_assigned_tasks := max_assigned_tasks tc; delta := delta tc;
     last_task_timeout_checking := last_task_timeout_checking tc;
     support_direct_computation := support_direct_computation tc;
     compute_tasks := compute_tasks tc |}.

Definition set_assigned_subtasks (v : gmap string ComputeTaskDef) (tc : TaskComputer) :
    TaskComputer :=
  {| node_name := node_name tc; waiting_for_task := waiting_for_task tc;
     counting_task := counting_task tc; task_requested := task_requested tc;
     runnable := runnable tc; listeners := listeners tc;
     current_computations := current_computations tc;
     last_task_request := last_task_request tc;
     waiting_ttl := waiting_ttl tc; last_checking := last_checking tc;
     task_request_frequency := task_request_frequency tc;
     use_waiting_ttl := use_waiting_ttl tc;
     waiting_for_task_timeout := waiting_for_task_timeout tc;
     waiting_for_task_session_timeout := waiting_for_task_session_timeout tc;
     use_docker_machine_manager := use_docker_machine_manager tc;
     stats := stats tc; assigned_subtasks := v;
     task_to_subtask_mapping := task_to_subtask_mapping tc;
     max_assigned_tasks := max_assigned_tasks tc; delta := delta tc;
     last_task_timeout_checking := last_task_timeout_checking tc;
     support_direct_computation := support_direct_computation tc;
     compute_tasks := compute_tasks tc |}.

Definition set_task_to_subtask_mapping (v : gmap string string) (tc : TaskComputer) :
    TaskComputer :=
  {| node_name := node_name tc; waiting_for_task := waiting_for_task tc;
     counting_task := counting_task tc; task_requested := task_requested tc;
     runnable := runnable tc; listeners := listeners tc;
     current_computations := current_computations tc;
     last_task_request := last_task_request tc;
     waiting_ttl := waiting_ttl tc; last_checking := last_checking tc;
     task_request_frequency := task_request_frequency tc;
     use_waiting_ttl := use_waiting_ttl tc;
     waiting_for_task_timeout := waiting_for_task_timeout tc;
     waiting_for_task_session_timeout := waiting_for_task_session_timeout tc;
     use_docker_machine_manager := use_docker_machine_manager tc;
     stats := stats tc; assigned_subtasks := assigned_subtasks tc;
     task_to_subtask_mapping := v;
     max_assigned_tasks := max_assigned_tasks tc; delta := delta tc;
     last_task_timeout_checking := last_task_timeout_checking tc;
     support_direct_computation := support_direct_computation tc;
     compute_tasks := compute_tasks tc |}.

Definition set_delta (v : option string) (tc : TaskComputer) :
    TaskComputer :=
  {| node_name := node_name tc; waiting_for_task := waiting_for_task tc;
     counting_task := counting_task tc; task_requested := task_requested tc;
     runnable := runnable tc; listeners := listeners tc;
     current_computations := current_computations tc;
     last_task_request := last_task_request tc;
     waiting_ttl := waiting_ttl tc; last_checking := last_checking tc;
     task_request_frequency := task_request_frequency tc;
     use_waiting_ttl := use_waiting_ttl tc;
     waiting_for_task_timeout := waiting_for_task_timeout tc;
     waiting_for_task_session_timeout := waiting_for_task_session_timeout tc;
     use_docker_machine_manager := use_docker_machine_manager tc;
     stats := stats tc; assigned_subtasks := assigned_subtasks tc;
     task_to_subtask_mapping := task_to_subtask_mapping tc;
     max_assigned_tasks := max_assigned_tasks tc; delta := v;
     last_task_timeout_checking := last_task_timeout_checking tc;
     support_direct_computation := support_direct_computation tc;
     compute_tasks := compute_tasks tc |}.

Definition set_last_task_timeout_checking (v : option Z) (tc : TaskComputer) :
    TaskComputer :=
  {| node_name := node_name tc; waiting_for_task := waiting_for_task tc;
     counting_task := counting_task tc; task_requested := task_requested tc;
     runnable := runnable tc; listeners := listeners tc;
     current_computations := current_computations tc;
     last_task_request := last_task_request tc;
     waiting_ttl := waiting_ttl tc; last_checking := last_checking tc;
     task_request_frequency := task_request_frequency tc;
     use_waiting_ttl := use_waiting_ttl tc;
     waiting_for_task_timeout := waiting_for_task_timeout tc;
     waiting_for_task_session_timeout := waiting_for_task_session_timeout tc;
     use_docker_machine_manager := use_docker_machine_manager tc;
     stats := stats tc; assigned_subtasks := assigned_subtasks tc;
     task_to_subtask_mapping := task_to_subtask_mapping tc;
     max_assigned_tasks := max_assigned_tasks tc; delta := delta tc;
     last_task_timeout_checking := v;
     support_direct_computation := support_direct_computation tc;
     compute_tasks := compute_tasks tc |}.

Definition set_compute_tasks (v : bool) (tc : TaskComputer) :
    TaskComputer :=
  {| node_name := node_name tc; waiting_for_task := waiting_for_task tc;
     counting_task := counting_task tc; task_requested := task_requested tc;
     runnable := runnable tc; listeners := listeners tc;
     current_computations := current_computations tc;
     last_task_request := last_task_request tc;
     waiting_ttl := waiting_ttl tc; last_checking := last_checking tc;
     task_request_frequency := task_request_frequency tc;
     use_waiting_ttl := use_waiting_ttl tc;
     waiting_for_task_timeout := waiting_for_task_timeout tc;
     waiting_for_task_session_timeout := waiting_for_task_session_timeout tc;
     use_docker_machine_manager := use_docker_machine_manager tc;
     stats := stats tc; assigned_subtasks := assigned_subtasks tc;
     task_to_subtask_mapping := task_to_subtask_mapping tc;
     max_assigned_tasks := max_assigned_tasks tc; delta := delta tc;
     last_task_timeout_checking := last_task_timeout_checking tc;
     support_direct_computation := support_direct_computation tc;
     compute_tasks := v |}.

(** ** The world outside the object *)

(** What the collaborators answer during one method call.  [time_time]
    is the first reading of [time.time()] in the call and [time_time2]
    the reading [__request_task] takes afterwards; [fresh_ref] is the
    identity of the next thread object.  [deadline_to_timeout] stands
    for the function of that name in golem/core/common.py, which is not
    among the sources at hand and is left open here. *)
Record Env : Type := mkEnv {
  time_time : Z;
  time_time2 : Z;
  task_headers : gmap string TaskHeader;
  request_task_answer : option string;
  request_resource_answer : option string;
  deadline_to_timeout : Z → Z;
  get_resource_header : string → string;
  get_resource_dir : string → string;
  get_temporary_dir : string → string;
  get_task_resource_dir : string → string;
  os_path_join : string → string → string;
  os_path_exists : string → bool;
  uuid4 : string;
  docker_machine : bool;
  fresh_ref : nat
}.

(** Calls that leave the object, with their arguments. *)
Inductive event : Type :=
| EvRequestTask
| EvRequestResource (task resource_header address : string) (port : Z)
                    (key owner : string)
| EvUnpackDelta (dir : string) (delta : option string) (task : string)
| EvSendTaskFailed (subtask task reason address : string) (port : Z)
                   (key owner node : string)
| EvSendResults (subtask task : string) (res : gmap string string)
                (paid : Z) (address : string) (port : Z)
                (key owner node : string)
| EvMonitor (success : bool) (value : Z)
| EvMakeDirs (path : string)
| EvThreadCreated (tt : TaskThread)
| EvThreadStart (ref : nat)
| EvCheckTimeout (ref : nat)
| EvLockConfig (listener : nat) (on : bool)
| EvBuildConfig
| EvUpdateConfig (in_background : bool)
| EvRunAllBenchmarks
| EvConfigChanged (listener : nat)
| EvEndComp (ref : nat).

(** ** The monad of methods *)

Inductive exn : Type := KeyError.

Inductive outcome (A : Type) : Type :=
| Returned (a : A)
| Raised (e : exn).
Arguments Returned {A} a.
Arguments Raised {A} e.

Definition M (A : Type) : Type :=
  TaskComputer → outcome A * TaskComputer * list event.

Definition m_ret {A} (a : A) : M A := λ tc, (Returned a, tc, []).

Definition m_bind {A B} (m : M A) (k : A → M B) : M B := λ tc,
  match m tc with
  | (Returned a, tc1, t1) =>
      match k a tc1 with
      | (o, tc2, t2) => (o, tc2, t1 ++ t2)
      end
  | (Raised e, tc1, t1) => (Raised e, tc1, t1)
  end.

#[export] Instance M_ret : MRet M := @m_ret.
#[export] Instance M_bind : MBind M := λ A B k m, m_bind m k.

Definition get_self : M TaskComputer := λ tc, (Returned tc, tc, []).
Definition modify (f : TaskComputer → TaskComputer) : M unit :=
  λ tc, (Returned tt, f tc, []).
Definition emit (e : event) : M unit := λ tc, (Returned tt, tc, [e]).
Definition raise {A} (e : exn) : M A := λ tc, (Raised e, tc, []).

(** [try: body except KeyError: handler]: the handler starts from the
    state the body left. *)
Definition try_except {A} (body : M A) (handler : exn → M A) : M A := λ tc,
  match body tc with
  | (Returned a, tc1, t1) => (Returned a, tc1, t1)
  | (Raised e, tc1, t1) =>
      match handler e tc1 with
      | (o, tc2, t2) => (o, tc2, t1 ++ t2)
      end
  end.

(** [d[k]]: the value, or [KeyError]. *)
Definition subscript {V} (d : gmap string V) (k : string) : M V :=
  match d !! k with
  | Some v => mret v
  | None => raise KeyError
  end.

Definition when (b : bool) (m : M unit) : M unit :=
  if b then m else mret tt.

Fixpoint for_each {A} (l : list A) (body : A → M unit) : M unit :=
  match l with
  | [] => mret tt
  | x :: l' => body x ;; for_each l' body
  end.

(** State, value and trace of a call. *)
Definition state_of {A} (r : outcome A * TaskComputer * list event) :
  TaskComputer := snd (fst r).
Definition value_of {A} (r : outcome A * TaskComputer * list event) :
  outcome A := fst (fst r).
Definition trace_of {A} (r : outcome A * TaskComputer * list event) :
  list event := snd r.

(** ** Methods of [TaskComputer] *)

(** [wait(wait=True, ttl=None)] *)
Definition wait (w : bool) (ttl : option Z) : M unit :=
  modify (set_use_waiting_ttl w) ;;
  match ttl with
  | None =>
      self ← get_self;
      modify (set_waiting_ttl (waiting_for_task_session_timeout self))
  | Some t => modify (set_waiting_ttl t)
  end.

(** [reset(computing_task=False)] *)
Definition reset (computing_task : pyflag) : M unit :=
  modify (set_counting_task computing_task) ;;
  modify (set_use_waiting_ttl false) ;;
  modify (set_task_requested false) ;;
  modify (set_waiting_for_task None) ;;
  modify (set_waiting_ttl 0).

(** [session_closed()] *)
Definition session_closed : M unit :=
  self ← get_self;
  if negb (flag_truthy (counting_task self)) then reset PyFalse else mret tt.

(** [session_timeout()] *)
Definition session_timeout : M unit := session_closed.

(** [lock_config(on=True)] *)
Definition lock_config (on : bool) : M unit :=
  self ← get_self;
  for_each (listeners self) (λ l, emit (EvLockConfig l on)).

(** [register_listener(listener)] *)
Definition register_listener (l : nat) : M unit :=
  self ← get_self;
  modify (set_listeners (listeners self ++ [l])).

(** [__request_task()] *)
Definition __request_task (env : Env) : M unit :=
  self ← get_self;
  let perform_request :=
    negb (handle_truthy (waiting_for_task self))
    && negb (flag_truthy (counting_task self)) in
  if negb perform_request then mret tt
  else
    let now := time_time2 env in
    wait true None ;;
    modify (set_last_checking now) ;;
    modify (set_last_task_request now) ;;
    emit EvRequestTask ;;
    modify (set_waiting_for_task (request_task_answer env)) ;;
    match request_task_answer env with
    | Some _ =>
        self ← get_self;
        modify (set_stats (increase_stat st_tasks_requested (stats self)))
    | None => mret tt
    end.

(** [__request_resource(task_id, resource_header, return_address,
    return_port, key_id, task_owner)] *)
Definition __request_resource (env : Env) (task resource_header address : string)
    (port : Z) (key owner : string) : M unit :=
  modify (set_last_checking (time_time env)) ;;
  self ← get_self;
  wait true (Some (waiting_for_task_timeout self)) ;;
  emit (EvRequestResource task resource_header address port key owner) ;;
  modify (set_waiting_for_task (request_resource_answer env)).

(** [task_given(ctd)] *)
Definition task_given (env : Env) (ctd : ComputeTaskDef) : M bool :=
  self ← get_self;
  match assigned_subtasks self !! subtask_id ctd with
  | None =>
      wait true (Some (waiting_for_task_timeout self)) ;;
      self ← get_self;
      modify (set_assigned_subtasks
                (<[subtask_id ctd := ctd]> (assigned_subtasks self))) ;;
      self ← get_self;
      modify (set_task_to_subtask_mapping
                (<[task_id ctd := subtask_id ctd]>
                   (task_to_subtask_mapping self))) ;;
      __request_resource env (task_id ctd)
        (get_resource_header env (task_id ctd))
        (return_address ctd) (return_port ctd) (key_id ctd)
        (task_owner ctd) ;;
      mret true
  | Some _ => mret false
  end.

(** [dict.pop(k)]: remove and return the value, or [KeyError]. *)
Definition pop_assigned (subtask : string) : M ComputeTaskDef :=
  self ← get_self;
  match assigned_subtasks self !! subtask with
  | Some d =>
      modify (set_assigned_subtasks (delete subtask (assigned_subtasks self))) ;;
      mret d
  | None => raise KeyError
  end.

(** The thread object [DockerTaskThread(...)] or [PyTaskThread(...)] as
    its constructor leaves it. *)
Definition new_thread (env : Env) (kind : thread_kind) (subtask : string)
    (images : list string) (working_dir src extra short_desc : string)
    (resource_dir temp_dir : string) (task_timeout : Z) : TaskThread :=
  {| tt_ref := fresh_ref env; tt_kind := kind; tt_subtask_id := subtask;
     tt_docker_images := images; tt_working_directory := working_dir;
     tt_src_code := src; tt_extra_data := extra; tt_short_desc := short_desc;
     tt_res_path := resource_dir; tt_tmp_path := temp_dir;
     tt_timeout := task_timeout; start_time := time_time env;
     end_time := None; error := false; error_msg := ""; result := None |}.

(** [__compute_task(subtask_id, docker_images, src_code, extra_data,
    short_desc, subtask_deadline)] *)
Definition __compute_task (env : Env) (subtask : string) (images : list string)
    (src extra short_desc : string) (subtask_deadline : Z) : M unit :=
  self ← get_self;
  d ← subscript (assigned_subtasks self) subtask;
  let task := task_id d in
  task_header ← subscript (task_headers env) task;
  let deadline := Z.min (th_deadline task_header) subtask_deadline in
  let task_timeout := deadline_to_timeout env deadline in
  d' ← subscript (assigned_subtasks self) subtask;
  let working_dir := working_directory d' in
  let unique_str := uuid4 env in
  reset (PyStr task) ;;
  let resource_dir := get_resource_dir env task in
  let temp_dir := os_path_join env (get_temporary_dir env task) unique_str in
  when (negb (os_path_exists env temp_dir)) (emit (EvMakeDirs temp_dir)) ;;
  self ← get_self;
  let spawn (thread : TaskThread) : M unit :=
    emit (EvThreadCreated thread) ;;
    self ← get_self;
    modify (set_current_computations (current_computations self ++ [thread])) ;;
    emit (EvThreadStart (tt_ref thread)) in
  match images with
  | _ :: _ =>
      spawn (new_thread env DockerTaskThread subtask images working_dir src
               extra short_desc resource_dir temp_dir task_timeout)
  | [] =>
      if support_direct_computation self then
        spawn (new_thread env PyTaskThread subtask [] working_dir src
                 extra short_desc resource_dir temp_dir task_timeout)
      else
        st ← pop_assigned subtask;
        self ← get_self;
        emit (EvSendTaskFailed subtask (task_id st)
                "Host direct task not supported"
                (return_address st) (return_port st) (key_id st)
                (task_owner st) (node_name self)) ;;
        modify (set_counting_task PyNone)
  end.

(** [resource_given(task_id)]; the result is [None] when the method falls
    off its end. *)
Definition resource_given (env : Env) (task : string) : M (option bool) :=
  self ← get_self;
  match task_to_subtask_mapping self !! task with
  | Some subtask =>
      match assigned_subtasks self !! subtask with
      | Some st =>
          __compute_task env subtask (docker_images st) (src_code st)
            (extra_data st) (short_description st) (deadline st) ;;
          modify (set_waiting_for_task None) ;;
          mret (Some true)
      | None => mret (Some false)
      end
  | None => mret None
  end.

(** [task_resource_collected(task_id, unpack_delta=True)] *)
Definition task_resource_collected (env : Env) (task : string)
    (unpack_delta : bool) : M (option bool) :=
  self ← get_self;
  match task_to_subtask_mapping self !! task with
  | Some subtask =>
      match assigned_subtasks self !! subtask with
      | Some st =>
          when unpack_delta
            (emit (EvUnpackDelta (get_task_resource_dir env task)
                     (delta self) task)) ;;
          modify (set_delta None) ;;
          modify (set_last_task_timeout_checking (Some (time_time env))) ;;
          __compute_task env subtask (docker_images st) (src_code st)
            (extra_data st) (short_description st) (deadline st) ;;
          mret (Some true)
      | None => mret (Some false)
      end
  | None => mret None
  end.

(** [task_resource_failure(task_id, reason)] *)
Definition task_resource_failure (task reason : string) : M unit :=
  self ← get_self;
  match task_to_subtask_mapping self !! task with
  | Some subtask =>
      modify (set_task_to_subtask_mapping
                (delete task (task_to_subtask_mapping self))) ;;
      match assigned_subtasks self !! subtask with
      | Some _ =>
          st ← pop_assigned subtask;
          emit (EvSendTaskFailed subtask (task_id st)
                  ("Error downloading resources: " +:+ reason)
                  (return_address st) (return_port st) (key_id st)
                  (task_owner st) (node_name self))
      | None => mret tt
      end ;;
      session_closed
  | None => mret tt
  end.

(** [wait_for_resources(task_id, delta)] *)
Definition wait_for_resources (task : string) (dl : string) : M unit :=
  self ← get_self;
  match task_to_subtask_mapping self !! task with
  | Some subtask =>
      match assigned_subtasks self !! subtask with
      | Some _ => modify (set_delta (Some dl))
      | None => mret tt
      end
  | None => mret tt
  end.

(** [task_request_rejected(task_id, reason)]: a log line only. *)
Definition task_request_rejected (task reason : string) : M unit := mret tt.

(** [resource_request_rejected(subtask_id, reason)] *)
Definition resource_request_rejected (subtask reason : string) : M unit :=
  self ← get_self;
  modify (set_assigned_subtasks (delete subtask (assigned_subtasks self))) ;;
  reset PyFalse.

(** [self.current_computations.remove(task_thread)]: the first entry that
    is this thread object; [ValueError] (absent) is swallowed. *)
Fixpoint remove_thread (ref : nat) (l : list TaskThread) : list TaskThread :=
  match l with
  | [] => []
  | t :: l' =>
      if bool_decide (tt_ref t = ref) then l' else t :: remove_thread ref l'
  end.

Definition has_key (k : string) (m : gmap string string) : bool :=
  bool_decide (is_Some (m !! k)).

(** [task_computed(task_thread)] *)
Definition task_computed (env : Env) (task_thread : TaskThread) : M unit :=
  let end_time_ :=
    match end_time task_thread with
    | None => time_time env
    | Some e => e
    end in
  self ← get_self;
  modify (set_current_computations
            (remove_thread (tt_ref task_thread) (current_computations self))) ;;
  let work_wall_clock_time := end_time_ - start_time task_thread in
  let subtask := tt_subtask_id task_thread in
  popped ← try_except
    (st ← pop_assigned subtask;
     task_header ← subscript (task_headers env) (task_id st);
     mret (Some (st, th_subtask_timeout task_header)))
    (λ _, mret None);
  match popped with
  | None => mret tt
  | Some (st, work_time_to_be_paid) =>
      let wrong_format : M unit :=
        self ← get_self;
        modify (set_stats (increase_stat st_tasks_with_errors (stats self))) ;;
        emit (EvSendTaskFailed subtask (task_id st) "Wrong result format"
                (return_address st) (return_port st) (key_id st)
                (task_owner st) (node_name self)) ;;
        emit (EvMonitor false work_time_to_be_paid) in
      (if error task_thread || str_truthy (error_msg task_thread) then
         self ← get_self;
         (if str_contains "Task timed out" (error_msg task_thread) then
            modify (set_stats
                      (increase_stat st_tasks_with_timeout (stats self)))
          else
            modify (set_stats
                      (increase_stat st_tasks_with_errors (stats self)))) ;;
         emit (EvSendTaskFailed subtask (task_id st) (error_msg task_thread)
                 (return_address st) (return_port st) (key_id st)
                 (task_owner st) (node_name self)) ;;
         emit (EvMonitor false work_time_to_be_paid)
       else
         match result task_thread with
         | Some res =>
             if result_truthy (Some res) && has_key "data" res
                && has_key "result_type" res then
               self ← get_self;
               modify (set_stats
                         (increase_stat st_computed_tasks (stats self))) ;;
               emit (EvSendResults subtask (task_id st) res
                       work_time_to_be_paid
                       (return_address st) (return_port st) (key_id st)
                       (task_owner st) (node_name self)) ;;
               emit (EvMonitor true work_time_to_be_paid)
             else wrong_format
         | None => wrong_format
         end) ;;
      modify (set_counting_task PyNone)
  end.

(** [run()] *)
Definition run (env : Env) : M unit :=
  self ← get_self;
  if flag_truthy (counting_task self) then
    for_each (current_computations self)
      (λ task_thread, emit (EvCheckTimeout (tt_ref task_thread)))
  else if compute_tasks self && runnable self then
    if negb (handle_truthy (waiting_for_task self)) then
      if task_request_frequency self <? time_time env - last_task_request self
      then
        if (length (current_computations self) =? 0)%nat
        then __request_task env
        else mret tt
      else mret tt
    else if use_waiting_ttl self then
      let time_ := time_time env in
      modify (set_waiting_ttl
                (waiting_ttl self - (time_ - last_checking self))) ;;
      modify (set_last_checking time_) ;;
      self ← get_self;
      if waiting_ttl self <? 0 then reset PyFalse else mret tt
    else mret tt
  else mret tt.

(** [config_changed()] *)
Definition config_changed : M unit :=
  self ← get_self;
  for_each (listeners self) (λ l, emit (EvConfigChanged l)).

(** [quit()] *)
Definition quit : M unit :=
  self ← get_self;
  for_each (current_computations self) (λ t, emit (EvEndComp (tt_ref t))).

(** [change_docker_config(config_desc, run_benchmarks, in_background)].
    The container manager keeps [status_callback] and [done_callback] and
    calls them from its own thread; [done_callback] below is that call. *)
Definition change_docker_config (env : Env) (config_desc : ConfigDesc)
    (run_benchmarks in_background : bool) : M unit :=
  emit EvBuildConfig ;;
  self ← get_self;
  if negb (docker_machine env) && run_benchmarks then
    emit EvRunAllBenchmarks
  else if docker_machine env && use_docker_machine_manager self then
    lock_config true ;;
    modify (set_runnable false) ;;
    emit (EvUpdateConfig in_background)
  else mret tt.

Definition status_callback : M pyflag :=
  self ← get_self; mret (counting_task self).

Definition done_callback (run_benchmarks : bool) : M unit :=
  when run_benchmarks (emit EvRunAllBenchmarks) ;;
  lock_config false ;;
  modify (set_runnable true).

(** [change_config(config_desc, in_background=True, run_benchmarks=False)] *)
Definition change_config (env : Env) (config_desc : ConfigDesc)
    (in_background run_benchmarks : bool) : M unit :=
  modify (set_task_request_frequency (task_request_interval config_desc)) ;;
  modify (set_waiting_for_task_timeout
            (cfg_waiting_for_task_timeout config_desc)) ;;
  modify (set_waiting_for_task_session_timeout
            (cfg_waiting_for_task_session_timeout config_desc)) ;;
  modify (set_compute_tasks (accept_tasks config_desc)) ;;
  change_docker_config env config_desc run_benchmarks in_background.

(** [__init__(node_name, task_server, use_docker_machine_manager)]: the
    attributes as the constructor assigns them, with [change_config]
    (not in the background) run in between; [benchmarks_needed] is the
    answer of [benchmark_manager.benchmarks_needed()]. *)
Definition TaskComputer_init (env : Env) (name : string)
    (config_desc : ConfigDesc) (use_dmm benchmarks_needed : bool) :
    TaskComputer :=
  let fresh :=
    {| node_name := name; waiting_for_task := None;
       counting_task := PyFalse; task_requested := false; runnable := true;
       listeners := []; current_computations := [];
       last_task_request := time_time env; waiting_ttl := 0;
       last_checking := time_time env; task_request_frequency := 0;
       use_waiting_ttl := false; waiting_for_task_timeout := 0;
       waiting_for_task_session_timeout := 0;
       use_docker_machine_manager := use_dmm;
       stats := mkCompStats 0 0 0 0; assigned_subtasks := ∅;
       task_to_subtask_mapping := ∅; max_assigned_tasks := 1%nat;
       delta := None; last_task_timeout_checking := None;
       support_direct_computation := false;
       compute_tasks := accept_tasks config_desc |} in
  state_of (change_config env config_desc false benchmarks_needed fresh).

(** ** Sequences of calls *)

(** The public operations, as the task server, the transport, the worker
    threads, the container manager and the enclosing application invoke
    them.  [get_progresses()], which only reads, is defined further
    down. *)
Inductive op : Type :=
| OpTaskGiven (ctd : ComputeTaskDef)
| OpResourceGiven (task : string)
| OpTaskResourceCollected (task : string) (unpack_delta : bool)
| OpTaskResourceFailure (task reason : string)
| OpWaitForResources (task dl : string)
| OpTaskRequestRejected (task reason : string)
| OpResourceRequestRejected (subtask reason : string)
| OpTaskComputed (task_thread : TaskThread)
| OpRun
| OpReset (computing_task : pyflag)
| OpSessionTimeout
| OpChangeConfig (config_desc : ConfigDesc) (in_background run_benchmarks : bool)
| OpDoneCallback (run_benchmarks : bool)
| OpChangeDockerConfig (config_desc : ConfigDesc)
                       (run_benchmarks in_background : bool)
| OpRegisterListener (listener : nat)
| OpLockConfig (on : bool)
| OpConfigChanged
| OpSessionClosed
| OpWait (w : bool) (ttl : option Z)
| OpQuit.

Definition discard {A} (m : M A) : M unit := m ;; mret tt.

Definition call (env : Env) (o : op) : M unit :=
  match o with
  | OpTaskGiven ctd => discard (task_given env ctd)
  | OpResourceGiven task => discard (resource_given env task)
  | OpTaskResourceCollected task u =>
      discard (task_resource_collected env task u)
  | OpTaskResourceFailure task reason => task_resource_failure task reason
  | OpWaitForResources task dl => wait_for_resources task dl
  | OpTaskRequestRejected task reason => task_request_rejected task reason
  | OpResourceRequestRejected subtask reason =>
      resource_request_rejected subtask reason
  | OpTaskComputed task_thread => task_computed env task_thread
  | OpRun => run env
  | OpReset c => reset c
  | OpSessionTimeout => session_timeout
  | OpChangeConfig c bg rb => change_config env c bg rb
  | OpDoneCallback rb => done_callback rb
  | OpChangeDockerConfig c rb bg => change_docker_config env c rb bg
  | OpRegisterListener l => register_listener l
  | OpLockConfig on => lock_config on
  | OpConfigChanged => config_changed
  | OpSessionClosed => session_closed
  | OpWait w ttl => wait w ttl
  | OpQuit => quit
  end.

(** The state after a sequence of calls; a call that raises leaves the
    state it had reached, and the caller goes on. *)
Fixpoint exec (ops : list (Env * op)) (tc : TaskComputer) : TaskComputer :=
  match ops with
  | [] => tc
  | (env, o) :: ops' => exec ops' (state_of (call env o tc))
  end.

(** The whole trace of a sequence of calls. *)
Fixpoint exec_trace (ops : list (Env * op)) (tc : TaskComputer) : list event :=
  match ops with
  | [] => []
  | (env, o) :: ops' =>
      trace_of (call env o tc) ++ exec_trace ops' (state_of (call env o tc))
  end.

(** States the object can be in: built by [__init__], then any calls. *)
Definition reachable (tc : TaskComputer) : Prop :=
  ∃ env name config_desc use_dmm bn ops,
    tc = exec ops (TaskComputer_init env name config_desc use_dmm bn).

(** ** Properties stated about the object *)

(** The registry maps in lockstep: an assigned subtask is the one its task
    id maps to, and every mapped task id leads to an assigned subtask of
    that task. *)
Definition assigned_is_mapped (tc : TaskComputer) : Prop :=
  ∀ s d, assigned_subtasks tc !! s = Some d →
         task_to_subtask_mapping tc !! task_id d = Some s.

Definition mapped_is_assigned (tc : TaskComputer) : Prop :=
  ∀ t s, task_to_subtask_mapping tc !! t = Some s →
         ∃ d, assigned_subtasks tc !! s = Some d ∧ task_id d = t.

Definition registry_lockstep (tc : TaskComputer) : Prop :=
  assigned_is_mapped tc ∧ mapped_is_assigned tc.

(** Every key of [assigned_subtasks] is the subtask id of its descriptor. *)
Definition keys_are_subtask_ids (tc : TaskComputer) : Prop :=
  ∀ s d, assigned_subtasks tc !! s = Some d → subtask_id d = s.

(** Along a sequence of calls, [task_given] never brings a second subtask
    of a task that still has one assigned. *)
Fixpoint one_subtask_per_task (ops : list (Env * op)) (tc : TaskComputer) :
    Prop :=
  match ops with
  | [] => True
  | (env, o) :: ops' =>
      match o with
      | OpTaskGiven ctd =>
          ∀ s d, assigned_subtasks tc !! s = Some d →
                 task_id d = task_id ctd → s = subtask_id ctd
      | _ => True
      end ∧ one_subtask_per_task ops' (state_of (call env o tc))
  end.

(** Outbound outcome calls on the task server. *)
Definition is_outcome_call (e : event) : bool :=
  match e with
  | EvSendTaskFailed _ _ _ _ _ _ _ _ => true
  | EvSendResults _ _ _ _ _ _ _ _ _ => true
  | _ => false
  end.

Definition outcome_calls (tr : list event) : nat :=
  length (filter (λ e, is_outcome_call e = true) tr).

Definition sends_task_failed (tr : list event) (subtask reason : string) :
    Prop :=
  ∃ task address port key owner node,
    EvSendTaskFailed subtask task reason address port key owner node ∈ tr.

Definition sends_results (tr : list event) (subtask : string) : Prop :=
  ∃ task res paid address port key owner node,
    EvSendResults subtask task res paid address port key owner node ∈ tr.

Definition monitors (tr : list event) (success : bool) : Prop :=
  ∃ value, EvMonitor success value ∈ tr.

Definition creates_thread (tr : list event) : Prop :=
  ∃ thread, EvThreadCreated thread ∈ tr.

(** The four verdicts of the outcome dispatcher, read off the worker. *)
Inductive verdict : Type :=
| TimedOut
| Failed
| Computed (res : gmap string string)
| WrongFormat.

Definition reports_error (w : TaskThread) : bool :=
  error w || str_truthy (error_msg w).

Definition verdict_of (w : TaskThread) : verdict :=
  if reports_error w then
    if str_contains "Task timed out" (error_msg w) then TimedOut else Failed
  else
    match result w with
    | Some res =>
        if has_key "data" res && has_key "result_type" res
        then Computed res else WrongFormat
    | None => WrongFormat
    end.

(** What the dispatcher owes to a worker with a given verdict: the stat
    that goes up, the call on the task server, the monitor event. *)
Definition dispatched_as (v : verdict) (w : TaskThread)
    (before after : TaskComputer) (tr : list event) : Prop :=
  match v with
  | TimedOut =>
      stats after = increase_stat st_tasks_with_timeout (stats before)
      ∧ sends_task_failed tr (tt_subtask_id w) (error_msg w)
      ∧ monitors tr false
  | Failed =>
      stats after = increase_stat st_tasks_with_errors (stats before)
      ∧ sends_task_failed tr (tt_subtask_id w) (error_msg w)
      ∧ monitors tr false
  | Computed res =>
      stats after = increase_stat st_computed_tasks (stats before)
      ∧ sends_results tr (tt_subtask_id w)
      ∧ monitors tr true
  | WrongFormat =>
      stats after = increase_stat st_tasks_with_errors (stats before)
      ∧ sends_task_failed tr (tt_subtask_id w) "Wrong result format"
      ∧ monitors tr false
  end.

Definition classified (env : Env) (w : TaskThread) (tc : TaskComputer) :
    Prop :=
  dispatched_as (verdict_of w) w tc
    (state_of (task_computed env w tc)) (trace_of (task_computed env w tc)).

(** The worker with other clock readings. *)
Definition with_times (s : Z) (e : option Z) (w : TaskThread) : TaskThread :=
  {| tt_ref := tt_ref w; tt_kind := tt_kind w;
     tt_subtask_id := tt_subtask_id w;
     tt_docker_images := tt_docker_images w;
     tt_working_directory := tt_working_directory w;
     tt_src_code := tt_src_code w; tt_extra_data := tt_extra_data w;
     tt_short_desc := tt_short_desc w; tt_res_path := tt_res_path w;
     tt_tmp_path := tt_tmp_path w; tt_timeout := tt_timeout w;
     start_time := s; end_time := e; error := error w;
     error_msg := error_msg w; result := result w |}.

(** The payment an event carries, if it carries one. *)
Definition paid_time (e : event) : option Z :=
  match e with
  | EvSendResults _ _ _ paid _ _ _ _ _ => Some paid
  | EvMonitor _ value => Some value
  | _ => None
  end.

(** A call that starts no worker: no thread object is made and the list
    of computations gets no new entry. *)
Definition spawns_nothing (env : Env) (o : op) (tc : TaskComputer) : Prop :=
  ¬ creates_thread (trace_of (call env o tc))
  ∧ (length (current_computations (state_of (call env o tc)))
     ≤ length (current_computations tc))%nat.

(** The tick's time-to-live step: the counter after the subtraction, and
    the state the tick must leave. *)
Definition ttl_after (env : Env) (tc : TaskComputer) : Z :=
  waiting_ttl tc - (time_time env - last_checking tc).

Definition ttl_ticked (env : Env) (tc after : TaskComputer) : Prop :=
  last_checking after = time_time env
  ∧ if ttl_after env tc <? 0
    then waiting_for_task after = None ∧ waiting_ttl after = 0
         ∧ use_waiting_ttl after = false ∧ counting_task after = PyFalse
         ∧ task_requested after = false
    else waiting_ttl after = ttl_after env tc
         ∧ waiting_for_task after = waiting_for_task tc.

(** The refusal of a subtask that has no image when direct computation is
    off. *)
Definition direct_refused (subtask : string) (d : ComputeTaskDef)
    (tc : TaskComputer) (r : outcome unit * TaskComputer * list event) :
    Prop :=
  ¬ creates_thread (trace_of r)
  ∧ current_computations (state_of r) = current_computations tc
  ∧ assigned_subtasks (state_of r) = delete subtask (assigned_subtasks tc)
  ∧ filter (λ e, is_outcome_call e = true) (trace_of r)
    = [EvSendTaskFailed subtask (task_id d) "Host direct task not supported"
         (return_address d) (return_port d) (key_id d) (task_owner d)
         (node_name tc)]
  ∧ counting_task (state_of r) = PyNone.

(** [task_given] of a descriptor whose subtask id is new: answers [True]
    and each registry map has one entry more. *)
Definition grows_both_maps (env : Env) (d : ComputeTaskDef)
    (tc : TaskComputer) : Prop :=
  value_of (task_given env d tc) = Returned true
  ∧ size (assigned_subtasks (state_of (task_given env d tc)))
    = S (size (assigned_subtasks tc))
  ∧ size (task_to_subtask_mapping (state_of (task_given env d tc)))
    = S (size (task_to_subtask_mapping tc)).

(** ** Sample data *)

Definition sample_header : TaskHeader :=
  {| th_deadline := 100; th_subtask_timeout := 30 |}.

Definition sample_env : Env :=
  {| time_time := 10; time_time2 := 11;
     task_headers := {[ "t1" := sample_header ]};
     request_task_answer := Some "h1";
     request_resource_answer := Some "s1";
     deadline_to_timeout := λ d, d - 10;
     get_resource_header := λ t, "header";
     get_resource_dir := λ t, "res";
     get_temporary_dir := λ t, "tmp";
     get_task_resource_dir := λ t, "res";
     os_path_join := λ a b, a +:+ "/" +:+ b;
     os_path_exists := λ p, false;
     uuid4 := "u";
     docker_machine := true;
     fresh_ref := 7%nat |}.

(** The same world after the task keeper dropped the header of [t1]. *)
Definition env_no_header : Env :=
  {| time_time := 20; time_time2 := 21;
     task_headers := ∅;
     request_task_answer := Some "h1";
     request_resource_answer := Some "s1";
     deadline_to_timeout := λ d, d - 20;
     get_resource_header := λ t, "header";
     get_resource_dir := λ t, "res";
     get_temporary_dir := λ t, "tmp";
     get_task_resource_dir := λ t, "res";
     os_path_join := λ a b, a +:+ "/" +:+ b;
     os_path_exists := λ p, false;
     uuid4 := "u";
     docker_machine := true;
     fresh_ref := 8%nat |}.

Definition sample_config : ConfigDesc :=
  {| task_request_interval := 5; cfg_waiting_for_task_timeout := 30;
     cfg_waiting_for_task_session_timeout := 20; accept_tasks := true |}.

Definition ctd_s1 : ComputeTaskDef :=
  {| subtask_id := "s1"; task_id := "t1"; src_code := "code";
     extra_data := "extra"; short_description := "desc";
     working_directory := "."; deadline := 70;
     docker_images := ["img:1"]; return_address := "10.0.0.1";
     return_port := 40102; key_id := "key"; task_owner := "owner" |}.

(** A second subtask of the same task. *)
Definition ctd_s2 : ComputeTaskDef :=
  {| subtask_id := "s2"; task_id := "t1"; src_code := "code";
     extra_data := "extra"; short_description := "desc";
     working_directory := "."; deadline := 150;
     docker_images := ["img:1"]; return_address := "10.0.0.1";
     return_port := 40102; key_id := "key"; task_owner := "owner" |}.

(** A subtask without an image. *)
Definition ctd_direct : ComputeTaskDef :=
  {| subtask_id := "s3"; task_id := "t1"; src_code := "code";
     extra_data := "extra"; short_description := "desc";
     working_directory := "."; deadline := 70;
     docker_images := []; return_address := "10.0.0.1";
     return_port := 40102; key_id := "key"; task_owner := "owner" |}.

(** A node without a container machine, and one that locked its
    configuration for the container manager. *)
Definition node_fresh : TaskComputer :=
  TaskComputer_init sample_env "node" sample_config false false.

Definition node_locked : TaskComputer :=
  TaskComputer_init sample_env "node" sample_config true false.

(** The worker of [s1] as it reports a result, a time-out, a result
    without [result_type]. *)
Definition worker_done : TaskThread :=
  {| tt_ref := 7%nat; tt_kind := DockerTaskThread; tt_subtask_id := "s1";
     tt_docker_images := ["img:1"]; tt_working_directory := ".";
     tt_src_code := "code"; tt_extra_data := "extra";
     tt_short_desc := "desc"; tt_res_path := "res"; tt_tmp_path := "tmp/u";
     tt_timeout := 60; start_time := 10; end_time := Some 15;
     error := false; error_msg := "";
     result := Some {[ "data" := "r"; "result_type" := "bin" ]} |}.

Definition worker_timed_out : TaskThread :=
  {| tt_ref := 7%nat; tt_kind := DockerTaskThread; tt_subtask_id := "s1";
     tt_docker_images := ["img:1"]; tt_working_directory := ".";
     tt_src_code := "code"; tt_extra_data := "extra";
     tt_short_desc := "desc"; tt_res_path := "res"; tt_tmp_path := "tmp/u";
     tt_timeout := 60; start_time := 10; end_time := Some 75;
     error := true; error_msg := "Task timed out after 60s";
     result := None |}.

(** ** The outcome of a dispatch, by verdict *)

Definition verdict_stat (v : verdict) : stat_name :=
  match v with
  | TimedOut => st_tasks_with_timeout
  | Failed | WrongFormat => st_tasks_with_errors
  | Computed _ => st_computed_tasks
  end.

Definition verdict_success (v : verdict) : bool :=
  match v with
  | Computed _ => true
  | _ => false
  end.

Definition verdict_call (v : verdict) (w : TaskThread) (d : ComputeTaskDef)
    (paid : Z) (node : string) : event :=
  match v with
  | TimedOut | Failed =>
      EvSendTaskFailed (tt_subtask_id w) (task_id d) (error_msg w)
        (return_address d) (return_port d) (key_id d) (task_owner d) node
  | Computed res =>
      EvSendResults (tt_subtask_id w) (task_id d) res paid
        (return_address d) (return_port d) (key_id d) (task_owner d) node
  | WrongFormat =>
      EvSendTaskFailed (tt_subtask_id w) (task_id d) "Wrong result format"
        (return_address d) (return_port d) (key_id d) (task_owner d) node
  end.

(** The registry and the list of computations once the worker [w] and its
    subtask are taken out. *)
Definition without_worker (w : TaskThread) (tc : TaskComputer) : TaskComputer :=
  set_current_computations
    (remove_thread (tt_ref w) (current_computations tc)) tc.

Definition without_subtask (w : TaskThread) (tc : TaskComputer) :
    TaskComputer :=
  set_assigned_subtasks
    (delete (tt_subtask_id w) (assigned_subtasks tc)) (without_worker w tc).

(** The node after [s1] was given and its resources collected: the worker
    of [s1] runs. *)
Definition node_computing : TaskComputer :=
  exec [(sample_env, OpTaskGiven ctd_s1);
        (sample_env, OpTaskResourceCollected "t1" true)] node_fresh.

(** ** The compute step, by case *)

Definition temp_dir_of (env : Env) (task : string) : string :=
  os_path_join env (get_temporary_dir env task) (uuid4 env).

Definition make_temp_dir (env : Env) (task : string) : list event :=
  if os_path_exists env (temp_dir_of env task) then []
  else [EvMakeDirs (temp_dir_of env task)].

(** The state after [reset(computing_task=task)]. *)
Definition computing (task : string) (tc : TaskComputer) : TaskComputer :=
  state_of (reset (PyStr task) tc).

Definition thread_kind_for (images : list string) : thread_kind :=
  match images with
  | [] => PyTaskThread
  | _ :: _ => DockerTaskThread
  end.

(** The thread the compute step makes for subtask [s] with descriptor [d]
    and task header [h]. *)
Definition worker_for (env : Env) (s : string) (images : list string)
    (d : ComputeTaskDef) (h : TaskHeader) (src extra short_desc : string)
    (subtask_deadline : Z) : TaskThread :=
  new_thread env (thread_kind_for images) s images (working_directory d)
    src extra short_desc (get_resource_dir env (task_id d))
    (temp_dir_of env (task_id d))
    (deadline_to_timeout env (Z.min (th_deadline h) subtask_deadline)).

(** The compute step as the two callers invoke it for descriptor [d]. *)
Definition compute_step (env : Env) (s : string) (d : ComputeTaskDef) : M unit :=
  __compute_task env s (docker_images d) (src_code d) (extra_data d)
    (short_description d) (deadline d).

(** The node after the subtask without image was given. *)
Definition node_direct : TaskComputer :=
  exec [(sample_env, OpTaskGiven ctd_direct)] node_fresh.

(** ** The tick, by case *)

(** The timer fields after the tick's subtraction. *)
Definition ticked (env : Env) (tc : TaskComputer) : TaskComputer :=
  set_last_checking (time_time env) (set_waiting_ttl (ttl_after env tc) tc).

(** The state after [reset()]. *)
Definition after_reset (tc : TaskComputer) : TaskComputer :=
  state_of (reset PyFalse tc).

(** The two callers of the compute step. *)
Definition collected_pre (env : Env) (tc : TaskComputer) : TaskComputer :=
  set_last_task_timeout_checking (Some (time_time env)) (set_delta None tc).

Definition unpack_events (env : Env) (task : string) (unpack_delta : bool)
    (tc : TaskComputer) : list event :=
  if unpack_delta
  then [EvUnpackDelta (get_task_resource_dir env task) (delta tc) task]
  else [].

(** The operations that reach the compute step. *)
Definition calls_compute_step (o : op) : bool :=
  match o with
  | OpResourceGiven _ | OpTaskResourceCollected _ _ => true
  | _ => false
  end.

(** No worker starts while the configuration is locked. *)
Definition no_spawn_while_locked : Prop :=
  ∀ tc, reachable tc → runnable tc = false →
        ∀ env o, spawns_nothing env o tc.

(** The tick of a waiting node counts the time-to-live down. *)
Definition ttl_tick (env : Env) (tc : TaskComputer) : Prop :=
  flag_truthy (counting_task tc) = false →
  handle_truthy (waiting_for_task tc) = true →
  use_waiting_ttl tc = true →
  ttl_ticked env tc (state_of (run env tc)).

(** The world at another time. *)
Definition at_time (t : Z) (env : Env) : Env :=
  {| time_time := t; time_time2 := t;
     task_headers := task_headers env;
     request_task_answer := request_task_answer env;
     request_resource_answer := request_resource_answer env;
     deadline_to_timeout := deadline_to_timeout env;
     get_resource_header := get_resource_header env;
     get_resource_dir := get_resource_dir env;
     get_temporary_dir := get_temporary_dir env;
     get_task_resource_dir := get_task_resource_dir env;
     os_path_join := os_path_join env;
     os_path_exists := os_path_exists env;
     uuid4 := uuid4 env;
     docker_machine := docker_machine env;
     fresh_ref := fresh_ref env |}.

(** Nodes that were given [s1], resp. [s2]: fresh, or locked for the
    container manager. *)
Definition node_given : TaskComputer :=
  exec [(sample_env, OpTaskGiven ctd_s1)] node_fresh.

Definition node_given_late : TaskComputer :=
  exec [(sample_env, OpTaskGiven ctd_s2)] node_fresh.

Definition node_locked_given : TaskComputer :=
  exec [(sample_env, OpTaskGiven ctd_s1)] node_locked.

(** What one call does to the two registry maps. *)
Inductive registry_effect (o : op) (tc tc' : TaskComputer) : Prop :=
| RegistryKept :
    assigned_subtasks tc' = assigned_subtasks tc →
    task_to_subtask_mapping tc' = task_to_subtask_mapping tc →
    registry_effect o tc tc'
| RegistryPopped (s : string) :
    assigned_subtasks tc' = delete s (assigned_subtasks tc) →
    task_to_subtask_mapping tc' = task_to_subtask_mapping tc →
    registry_effect o tc tc'
| RegistryGiven (d : ComputeTaskDef) :
    o = OpTaskGiven d →
    assigned_subtasks tc !! subtask_id d = None →
    assigned_subtasks tc' = <[subtask_id d := d]> (assigned_subtasks tc) →
    task_to_subtask_mapping tc'
    = <[task_id d := subtask_id d]> (task_to_subtask_mapping tc) →
    registry_effect o tc tc'
| RegistryFailed (t s : string) :
    task_to_subtask_mapping tc !! t = Some s →
    assigned_subtasks tc' = delete s (assigned_subtasks tc) →
    task_to_subtask_mapping tc' = delete t (task_to_subtask_mapping tc) →
    registry_effect o tc tc'.

(** The node after [s1] was given and its resource request rejected. *)
Definition node_rejected : TaskComputer :=
  exec [(sample_env, OpTaskGiven ctd_s1);
        (sample_env, OpResourceRequestRejected "s1" "refused")] node_fresh.

(** A whole life of [s1]: given, resources collected, computed. *)
Definition life_of_s1 : list (Env * op) :=
  [(sample_env, OpTaskGiven ctd_s1);
   (sample_env, OpTaskResourceCollected "t1" true);
   (at_time 15 sample_env, OpTaskComputed worker_done)].

(** ... and then the next subtask of the same task is given. *)
Definition two_subtasks : list (Env * op) :=
  life_of_s1 ++ [(at_time 16 sample_env, OpTaskGiven ctd_s2)].

(** ** Further notions: counting, configuration, progress *)

Definition is_config_op (o : op) : bool :=
  match o with
  | OpChangeConfig _ _ _ | OpChangeDockerConfig _ _ _ | OpDoneCallback _ =>
      true
  | _ => false
  end.

Definition registers_listener (o : op) : bool :=
  match o with
  | OpRegisterListener _ => true
  | _ => false
  end.

Definition is_monitor (e : event) : bool :=
  match e with
  | EvMonitor _ _ => true
  | _ => false
  end.

Definition is_send_results (e : event) : bool :=
  match e with
  | EvSendResults _ _ _ _ _ _ _ _ _ => true
  | _ => false
  end.

Definition count_events (p : event → bool) (tr : list event) : nat :=
  length (filter (λ e, p e = true) tr).

(** The outcomes counted so far. *)
Definition outcome_total (s : CompStats) : Z :=
  computed_tasks s + tasks_with_timeout s + tasks_with_errors s.

Definition stats_le (s s' : CompStats) : Prop :=
  computed_tasks s ≤ computed_tasks s'
  ∧ tasks_with_timeout s ≤ tasks_with_timeout s'
  ∧ tasks_with_errors s ≤ tasks_with_errors s'
  ∧ tasks_requested s ≤ tasks_requested s'.

(** What [task_resource_collected] and [resource_given] answer. *)
Definition callback_answer (env : Env) (task : string) (tc : TaskComputer) :
    outcome (option bool) :=
  match task_to_subtask_mapping tc !! task with
  | None => Returned None
  | Some s =>
      match assigned_subtasks tc !! s with
      | None => Returned (Some false)
      | Some d =>
          match task_headers env !! task_id d with
          | None => Raised KeyError
          | Some _ => Returned (Some true)
          end
      end
  end.

(** The state in which the tick asks the task server for a task. *)
Definition tick_requests (env : Env) (tc : TaskComputer) : Prop :=
  flag_truthy (counting_task tc) = false
  ∧ compute_tasks tc = true
  ∧ runnable tc = true
  ∧ handle_truthy (waiting_for_task tc) = false
  ∧ task_request_frequency tc < time_time env - last_task_request tc
  ∧ current_computations tc = [].

(** The attributes no method assigns after [__init__]. *)
Definition same_constants (tc tc' : TaskComputer) : Prop :=
  node_name tc' = node_name tc
  ∧ support_direct_computation tc' = support_direct_computation tc
  ∧ max_assigned_tasks tc' = max_assigned_tasks tc
  ∧ use_docker_machine_manager tc' = use_docker_machine_manager tc.

(** The attributes only [change_config], [change_docker_config] and its
    [done_callback] assign. *)
Definition same_configuration (tc tc' : TaskComputer) : Prop :=
  runnable tc' = runnable tc
  ∧ compute_tasks tc' = compute_tasks tc
  ∧ task_request_frequency tc' = task_request_frequency tc
  ∧ waiting_for_task_timeout tc' = waiting_for_task_timeout tc
  ∧ waiting_for_task_session_timeout tc'
    = waiting_for_task_session_timeout tc.

Definition no_config_ops (ops : list (Env * op)) : Prop :=
  Forall (λ eo, is_config_op (snd eo) = false) ops.

Definition no_register_ops (ops : list (Env * op)) : Prop :=
  Forall (λ eo, registers_listener (snd eo) = false) ops.

(** [get_progresses()].  The snapshot class and the worker's
    [get_progress()] are outside the sources at hand: the floating-point
    values stay abstract ([zero] is the literal [0.0]), and
    [get_subtask_id()] and [get_task_short_desc()] read the attributes
    the constructor stored. *)
Section Progress.
Context {F : Type} (zero : F) (get_progress : TaskThread → F).

Record TaskChunkStateSnapshot : Type := mkSnapshot {
  chunk_id : string;
  cpu_power : F;
  est_time_to_compute : F;
  progress : F;
  chunk_short_desc : string
}.

Definition snapshot_of (c : TaskThread) : TaskChunkStateSnapshot :=
  {| chunk_id := tt_subtask_id c; cpu_power := zero;
     est_time_to_compute := zero; progress := get_progress c;
     chunk_short_desc := tt_short_desc c |}.

Definition get_progresses (tc : TaskComputer) :
    gmap string TaskChunkStateSnapshot :=
  foldl (λ ret c, <[tt_subtask_id c := snapshot_of c]> ret) ∅
    (current_computations tc).
End Progress.

(** Whether the compute step has a worker for the descriptor. *)
Definition can_spawn (d : ComputeTaskDef) (tc : TaskComputer) : bool :=
  match docker_images d with
  | [] => support_direct_computation tc
  | _ :: _ => true
  end.

(** The wait state a successful compute step leaves. *)
Definition wait_cleared (tc : TaskComputer) : Prop :=
  waiting_for_task tc = None
  ∧ waiting_ttl tc = 0
  ∧ use_waiting_ttl tc = false
  ∧ task_requested tc = false.

(** The state after [task_given] accepted the descriptor. *)
Definition accepted (env : Env) (d : ComputeTaskDef) (tc : TaskComputer) :
    TaskComputer :=
  set_waiting_for_task (request_resource_answer env)
    (set_waiting_ttl (waiting_for_task_timeout tc)
       (set_use_waiting_ttl true
          (set_last_checking (time_time env)
             (set_task_to_subtask_mapping
                (<[task_id d := subtask_id d]> (task_to_subtask_mapping tc))
                (set_assigned_subtasks
                   (<[subtask_id d := d]> (assigned_subtasks tc))
                   (set_waiting_ttl (waiting_for_task_timeout tc)
                      (set_use_waiting_ttl true tc))))))).

(** The counters against the trace of a call: every [send_results] is a
    computed task, every monitor event a counted outcome. *)
Definition stats_accounted (s s' : CompStats) (tr : list event) : Prop :=
  computed_tasks s'
  = computed_tasks s + Z.of_nat (count_events is_send_results tr)
  ∧ outcome_total s' = outcome_total s + Z.of_nat (count_events is_monitor tr)
  ∧ stats_le s s'.

Definition call_framed (o : op) (tc tc' : TaskComputer) (tr : list event) :
    Prop :=
  same_constants tc tc'
  ∧ (is_config_op o = false → same_configuration tc tc')
  ∧ (registers_listener o = false → listeners tc' = listeners tc)
  ∧ stats_accounted (stats tc) (stats tc') tr.

(** * Theorems *)

(** ** Evaluation of monadic code *)

Ltac step_m :=
  cbv beta iota zeta delta
    [mbind mret M_bind M_ret m_bind m_ret get_self modify emit raise when
     try_except subscript discard state_of value_of trace_of fst snd
     wait reset session_closed session_timeout pop_assigned
     __request_resource].

(** A membership of a thread creation in a trace without one. *)
Ltac no_thread H :=
  cbn in H;
  repeat (apply elem_of_cons in H as [H|H]; [discriminate|]);
  by apply elem_of_nil in H.

Lemma for_each_emit {A} (f : A → event) (l : list A) (tc : TaskComputer) :
  for_each l (λ x, emit (f x)) tc = (Returned tt, tc, map f l).
Proof.
  induction l as [|x l IH]; [reflexivity|].
  cbn [for_each]. step_m. fold (@for_each A).
  unfold emit in IH. rewrite IH. reflexivity.
Qed.

(** ** The registry under [task_given] *)

Lemma task_given_new (env : Env) (d : ComputeTaskDef) (tc : TaskComputer) :
  assigned_subtasks tc !! subtask_id d = None →
  value_of (task_given env d tc) = Returned true
  ∧ assigned_subtasks (state_of (task_given env d tc))
    = <[subtask_id d := d]> (assigned_subtasks tc)
  ∧ task_to_subtask_mapping (state_of (task_given env d tc))
    = <[task_id d := subtask_id d]> (task_to_subtask_mapping tc).
Proof.
  intros H. unfold task_given. step_m. rewrite H. cbn. done.
Qed.

Lemma task_given_known (env : Env) (d : ComputeTaskDef) (tc : TaskComputer) :
  is_Some (assigned_subtasks tc !! subtask_id d) →
  task_given env d tc = (Returned false, tc, []).
Proof.
  intros [x H]. unfold task_given. step_m. rewrite H. reflexivity.
Qed.

(** C5, as the claim has it, fails: a second subtask of a task that is
    already mapped is accepted, and [task_to_subtask_mapping] keeps its
    size, the entry of the task being overwritten. *)
Lemma task_given_same_task_overwrites :
  assigned_subtasks (state_of (task_given sample_env ctd_s1 node_fresh))
    !! subtask_id ctd_s2 = None
  ∧ ¬ grows_both_maps sample_env ctd_s2
        (state_of (task_given sample_env ctd_s1 node_fresh)).
Proof.
  split; [reflexivity|].
  intros (_ & _ & Hsize). vm_compute in Hsize. discriminate.
Qed.

(** C5, amended: [task_given(d)] with a subtask id that is not assigned
    answers [True], adds exactly one entry to [assigned_subtasks] and
    binds the task id to the subtask id in [task_to_subtask_mapping],
    which adds an entry only if the task id was not a key yet; a second
    [task_given] with the same subtask id answers [False] and changes
    nothing and calls nothing. *)
Theorem task_given_twice (env env' : Env) (d d' : ComputeTaskDef)
    (tc : TaskComputer) :
  assigned_subtasks tc !! subtask_id d = None →
  subtask_id d' = subtask_id d →
  let tc1 := state_of (task_given env d tc) in
  value_of (task_given env d tc) = Returned true
  ∧ assigned_subtasks tc1 = <[subtask_id d := d]> (assigned_subtasks tc)
  ∧ size (assigned_subtasks tc1) = S (size (assigned_subtasks tc))
  ∧ task_to_subtask_mapping tc1
    = <[task_id d := subtask_id d]> (task_to_subtask_mapping tc)
  ∧ size (task_to_subtask_mapping tc1)
    = match task_to_subtask_mapping tc !! task_id d with
      | Some _ => size (task_to_subtask_mapping tc)
      | None => S (size (task_to_subtask_mapping tc))
      end
  ∧ task_given env' d' tc1 = (Returned false, tc1, []).
Proof.
  intros Hnew Hsame tc1.
  destruct (task_given_new env d tc Hnew) as (Hv & Ha & Hm).
  subst tc1. repeat split; try assumption.
  - rewrite Ha. by apply map_size_insert_None.
  - rewrite Hm, map_size_insert.
    by destruct (task_to_subtask_mapping tc !! task_id d).
  - apply task_given_known. rewrite Hsame, Ha, lookup_insert_eq. by eexists.
Qed.

Lemma task_given_twice_witness :
  let tc1 := state_of (task_given sample_env ctd_s1 node_fresh) in
  value_of (task_given sample_env ctd_s1 node_fresh) = Returned true
  ∧ assigned_subtasks tc1 = <["s1" := ctd_s1]> (assigned_subtasks node_fresh)
  ∧ size (assigned_subtasks tc1) = S (size (assigned_subtasks node_fresh))
  ∧ task_to_subtask_mapping tc1
    = <["t1" := "s1"]> (task_to_subtask_mapping node_fresh)
  ∧ size (task_to_subtask_mapping tc1)
    = match task_to_subtask_mapping node_fresh !! "t1" with
      | Some _ => size (task_to_subtask_mapping node_fresh)
      | None => S (size (task_to_subtask_mapping node_fresh))
      end
  ∧ task_given env_no_header ctd_s1 tc1 = (Returned false, tc1, []).
Proof.
  apply (task_given_twice sample_env env_no_header ctd_s1 ctd_s1 node_fresh);
    reflexivity.
Defined.

(** ** Resource failure *)

Lemma task_resource_failure_forgets (task reason : string) (tc : TaskComputer) :
  task_to_subtask_mapping (state_of (task_resource_failure task reason tc))
    !! task = None.
Proof.
  unfold task_resource_failure. step_m.
  destruct (task_to_subtask_mapping tc !! task) as [s|] eqn:Hm; cbn; [|done].
  destruct (assigned_subtasks tc !! s) as [d|] eqn:Ha; cbn.
  - rewrite Ha. cbn. destruct (flag_truthy (counting_task tc)); cbn;
      apply lookup_delete_eq.
  - destruct (flag_truthy (counting_task tc)); cbn; apply lookup_delete_eq.
Qed.

(** C6: [task_resource_failure] with a task id that is not a key of
    [task_to_subtask_mapping] changes nothing and calls nothing; hence a
    second call with the same task id, right after a first, is such a
    no-op. *)
Theorem task_resource_failure_idempotent (task reason reason' : string)
    (tc : TaskComputer) :
  (task_to_subtask_mapping tc !! task = None →
   task_resource_failure task reason tc = (Returned tt, tc, []))
  ∧ let tc1 := state_of (task_resource_failure task reason tc) in
    task_resource_failure task reason' tc1 = (Returned tt, tc1, []).
Proof.
  assert (Hno : ∀ r tc0, task_to_subtask_mapping tc0 !! task = None →
                 task_resource_failure task r tc0 = (Returned tt, tc0, [])).
  { intros r tc0 H. unfold task_resource_failure. step_m. by rewrite H. }
  split; [apply Hno|].
  intros tc1. apply Hno. apply task_resource_failure_forgets.
Qed.

Lemma task_resource_failure_idempotent_witness :
  task_to_subtask_mapping node_fresh !! "t1" = None
  ∧ task_resource_failure "t1" "gone" node_fresh
    = (Returned tt, node_fresh, [])
  ∧ let tc1 := state_of (task_resource_failure "t1" "gone" node_fresh) in
    task_resource_failure "t1" "again" tc1 = (Returned tt, tc1, []).
Proof.
  split; [reflexivity|].
  destruct (task_resource_failure_idempotent "t1" "gone" "again" node_fresh)
    as [H1 H2].
  split; [apply H1; reflexivity | exact H2].
Defined.

(** ** The outcome dispatcher *)

Lemma has_key_truthy (k : string) (res : gmap string string) :
  has_key k res = true → result_truthy (Some res) = true.
Proof.
  unfold has_key, result_truthy. intros H.
  apply bool_decide_eq_true in H. destruct H as [x Hx].
  apply negb_true_iff, bool_decide_eq_false. intros ->.
  by rewrite lookup_empty in Hx.
Qed.

(** A completion for a subtask that is not assigned only drops the worker
    from the list. *)
Lemma task_computed_unregistered (env : Env) (w : TaskThread)
    (tc : TaskComputer) :
  assigned_subtasks tc !! tt_subtask_id w = None →
  task_computed env w tc = (Returned tt, without_worker w tc, []).
Proof.
  intros Ha. unfold task_computed. step_m. cbn. rewrite Ha. reflexivity.
Qed.

(** The subtask is assigned but the task keeper has no header of its
    task: the [KeyError] of the header lookup lands in the handler meant
    for the [pop], after the subtask was popped. *)
Lemma task_computed_no_header (env : Env) (w : TaskThread) (tc : TaskComputer)
    (d : ComputeTaskDef) :
  assigned_subtasks tc !! tt_subtask_id w = Some d →
  task_headers env !! task_id d = None →
  task_computed env w tc = (Returned tt, without_subtask w tc, []).
Proof.
  intros Ha Hh. unfold task_computed. step_m. cbn. rewrite Ha. cbn.
  rewrite Hh. reflexivity.
Qed.

(** The subtask is assigned and its task has a header: one stat, one call
    on the task server, one monitor event, [counting_task] cleared. *)
Lemma task_computed_dispatch (env : Env) (w : TaskThread) (tc : TaskComputer)
    (d : ComputeTaskDef) (h : TaskHeader) :
  assigned_subtasks tc !! tt_subtask_id w = Some d →
  task_headers env !! task_id d = Some h →
  task_computed env w tc
  = (Returned tt,
     set_counting_task PyNone
       (set_stats (increase_stat (verdict_stat (verdict_of w)) (stats tc))
          (without_subtask w tc)),
     [verdict_call (verdict_of w) w d (th_subtask_timeout h) (node_name tc);
      EvMonitor (verdict_success (verdict_of w)) (th_subtask_timeout h)]).
Proof.
  intros Ha Hh. unfold task_computed, verdict_of, reports_error. step_m. cbn.
  rewrite Ha. cbn. rewrite Hh. cbn.
  destruct (error w || str_truthy (error_msg w)) eqn:He; cbn.
  - destruct (str_contains "Task timed out" (error_msg w)); reflexivity.
  - destruct (result w) as [res|]; [|reflexivity].
    destruct (has_key "data" res) eqn:Hd; cbn.
    + pose proof (has_key_truthy _ _ Hd) as Ht. cbn in Ht. rewrite Ht. cbn.
      destruct (has_key "result_type" res); reflexivity.
    + rewrite andb_false_r. reflexivity.
Qed.

(** With a header at hand the dispatcher makes exactly one outcome call. *)
Lemma task_computed_one_outcome (env : Env) (w : TaskThread)
    (tc : TaskComputer) (d : ComputeTaskDef) (h : TaskHeader) :
  assigned_subtasks tc !! tt_subtask_id w = Some d →
  task_headers env !! task_id d = Some h →
  outcome_calls (trace_of (task_computed env w tc)) = 1%nat.
Proof.
  intros Ha Hh. rewrite (task_computed_dispatch env w tc d h Ha Hh).
  destruct (verdict_of w); reflexivity.
Qed.

(** C2: the worker of an assigned subtask completes with a well-formed
    result while the task keeper no longer has the header of its task.
    The subtask is popped, neither [send_results] nor [send_task_failed]
    is called, and [counting_task] still names the task. *)
Theorem task_computed_header_gone_reports_nothing :
  assigned_subtasks node_computing !! "s1" = Some ctd_s1
  ∧ verdict_of worker_done
    = Computed {[ "data" := "r"; "result_type" := "bin" ]}
  ∧ task_headers env_no_header !! "t1" = None
  ∧ outcome_calls
      (trace_of (task_computed env_no_header worker_done node_computing))
    = 0%nat
  ∧ assigned_subtasks
      (state_of (task_computed env_no_header worker_done node_computing))
      !! "s1" = None
  ∧ counting_task
      (state_of (task_computed env_no_header worker_done node_computing))
    = PyStr "t1".
Proof.
  assert (Ha : assigned_subtasks node_computing !! tt_subtask_id worker_done
               = Some ctd_s1) by reflexivity.
  rewrite (task_computed_no_header env_no_header worker_done node_computing
             ctd_s1 Ha eq_refl).
  repeat split; reflexivity.
Qed.

(** C3: the worker of the assigned subtask [s1] reports a time-out while
    the task keeper has no header of [t1].  [task_computed] pops the
    subtask, the [KeyError] of the header lookup lands in the handler
    written for the [pop], and the method returns: [tasks_with_timeout]
    is not incremented, [send_task_failed] is not called and no monitor
    event is made, against the classification of a reported time-out. *)
Lemma timeout_unclassified_without_header :
  is_Some (assigned_subtasks node_computing !! tt_subtask_id worker_timed_out)
  ∧ verdict_of worker_timed_out = TimedOut
  ∧ task_headers env_no_header !! "t1" = None
  ∧ task_computed env_no_header worker_timed_out node_computing
    = (Returned tt, without_subtask worker_timed_out node_computing, [])
  ∧ tasks_with_timeout
      (stats (state_of (task_computed env_no_header worker_timed_out
                          node_computing)))
    = tasks_with_timeout (stats node_computing)
  ∧ ¬ classified env_no_header worker_timed_out node_computing.
Proof.
  assert (Ha : assigned_subtasks node_computing
                 !! tt_subtask_id worker_timed_out = Some ctd_s1)
    by reflexivity.
  assert (Hrun : task_computed env_no_header worker_timed_out node_computing
                 = (Returned tt,
                    without_subtask worker_timed_out node_computing, []))
    by exact (task_computed_no_header env_no_header worker_timed_out
                node_computing ctd_s1 Ha eq_refl).
  split; [by eexists|]. split; [reflexivity|]. split; [reflexivity|].
  split; [exact Hrun|]. split; [rewrite Hrun; vm_compute; reflexivity|].
  unfold classified. rewrite Hrun.
  intros [Hstat _]. vm_compute in Hstat. discriminate.
Qed.

(** With the header of the task at hand, the dispatcher classifies the
    completion of an assigned subtask: a reported error with "Task timed
    out" in its message counts as a time-out, any other reported error
    and a result without [data] or [result_type] as an error (the
    latter sent as "Wrong result format"), a result with both keys as a
    computed task sent by [send_results]; the monitor event says
    success only for the last. *)
Theorem task_computed_classifies (env : Env) (w : TaskThread)
    (tc : TaskComputer) (d : ComputeTaskDef) (h : TaskHeader) :
  assigned_subtasks tc !! tt_subtask_id w = Some d →
  task_headers env !! task_id d = Some h →
  classified env w tc.
Proof.
  intros Ha Hh. unfold classified.
  rewrite (task_computed_dispatch env w tc d h Ha Hh).
  unfold dispatched_as, sends_task_failed, sends_results, monitors.
  destruct (verdict_of w); cbn;
    (split; [reflexivity|]); split;
    repeat eexists; first [apply list_elem_of_here
                          | apply list_elem_of_further, list_elem_of_here].
Qed.

Lemma task_computed_classifies_witness :
  classified sample_env worker_timed_out node_computing.
Proof.
  apply (task_computed_classifies sample_env worker_timed_out node_computing
           ctd_s1 sample_header); reflexivity.
Defined.

(** The dispatcher does not look at the worker's clock. *)
Lemma task_computed_ignores_clock (env : Env) (w : TaskThread)
    (tc : TaskComputer) (s : Z) (t : option Z) :
  task_computed env (with_times s t w) tc = task_computed env w tc.
Proof.
  destruct (assigned_subtasks tc !! tt_subtask_id w) as [d|] eqn:Ha.
  - destruct (task_headers env !! task_id d) as [h|] eqn:Hh.
    + rewrite (task_computed_dispatch env w tc d h Ha Hh).
      rewrite (task_computed_dispatch env (with_times s t w) tc d h Ha Hh).
      reflexivity.
    + rewrite (task_computed_no_header env w tc d Ha Hh).
      rewrite (task_computed_no_header env (with_times s t w) tc d Ha Hh).
      reflexivity.
  - rewrite (task_computed_unregistered env w tc Ha).
    rewrite (task_computed_unregistered env (with_times s t w) tc Ha).
    reflexivity.
Qed.

(** C4: whatever [task_computed] passes as paid time to [send_results]
    and as value to the monitor is the [subtask_timeout] of the header of
    the subtask's task; the worker's [start_time] and [end_time] have no
    influence on the dispatch. *)
Theorem task_computed_pays_ceiling (env : Env) (w : TaskThread)
    (tc : TaskComputer) :
  (∀ e v, e ∈ trace_of (task_computed env w tc) → paid_time e = Some v →
     ∃ d h, assigned_subtasks tc !! tt_subtask_id w = Some d
            ∧ task_headers env !! task_id d = Some h
            ∧ v = th_subtask_timeout h)
  ∧ (∀ d h, assigned_subtasks tc !! tt_subtask_id w = Some d →
            task_headers env !! task_id d = Some h →
            EvMonitor (verdict_success (verdict_of w)) (th_subtask_timeout h)
              ∈ trace_of (task_computed env w tc)
            ∧ ∀ res, verdict_of w = Computed res →
                EvSendResults (tt_subtask_id w) (task_id d) res
                  (th_subtask_timeout h) (return_address d) (return_port d)
                  (key_id d) (task_owner d) (node_name tc)
                ∈ trace_of (task_computed env w tc))
  ∧ (∀ s t, task_computed env (with_times s t w) tc = task_computed env w tc).
Proof.
  split; [|split].
  - intros e v He Hv.
    destruct (assigned_subtasks tc !! tt_subtask_id w) as [d|] eqn:Ha.
    + destruct (task_headers env !! task_id d) as [h|] eqn:Hh.
      * exists d, h. split; [done|]. split; [done|].
        rewrite (task_computed_dispatch env w tc d h Ha Hh) in He.
        cbn in He. apply elem_of_cons in He as [->|He].
        { destruct (verdict_of w); cbn in Hv; congruence. }
        apply list_elem_of_singleton in He as ->. cbn in Hv. congruence.
      * rewrite (task_computed_no_header env w tc d Ha Hh) in He.
        cbn in He. by apply elem_of_nil in He.
    + rewrite (task_computed_unregistered env w tc Ha) in He.
      cbn in He. by apply elem_of_nil in He.
  - intros d h Ha Hh.
    rewrite (task_computed_dispatch env w tc d h Ha Hh). cbn. split.
    + apply list_elem_of_further, list_elem_of_here.
    + intros res ->. apply list_elem_of_here.
  - intros s t. apply task_computed_ignores_clock.
Qed.

Lemma task_computed_pays_ceiling_witness :
  EvMonitor true 30
    ∈ trace_of (task_computed sample_env worker_done node_computing)
  ∧ ∃ d h, assigned_subtasks node_computing !! "s1" = Some d
           ∧ task_headers sample_env !! task_id d = Some h
           ∧ 30 = th_subtask_timeout h.
Proof.
  destruct (task_computed_pays_ceiling sample_env worker_done node_computing)
    as (Hpaid & Hsent & _).
  assert (Hin : EvMonitor true 30
            ∈ trace_of (task_computed sample_env worker_done node_computing)).
  { apply (Hsent ctd_s1 sample_header); reflexivity. }
  split; [exact Hin|].
  apply (Hpaid (EvMonitor true 30) 30 Hin). reflexivity.
Defined.

(** ** The compute step *)

Lemma compute_task_unassigned (env : Env) (s : string) (images : list string)
    (src extra sd : string) (dl : Z) (tc : TaskComputer) :
  assigned_subtasks tc !! s = None →
  __compute_task env s images src extra sd dl tc = (Raised KeyError, tc, []).
Proof.
  intros Ha. unfold __compute_task. step_m. rewrite Ha. reflexivity.
Qed.

Lemma compute_task_no_header (env : Env) (s : string) (images : list string)
    (src extra sd : string) (dl : Z) (tc : TaskComputer) (d : ComputeTaskDef) :
  assigned_subtasks tc !! s = Some d →
  task_headers env !! task_id d = None →
  __compute_task env s images src extra sd dl tc = (Raised KeyError, tc, []).
Proof.
  intros Ha Hh. unfold __compute_task. step_m. rewrite Ha. cbn. rewrite Hh.
  reflexivity.
Qed.

Lemma compute_task_spawns (env : Env) (s : string) (images : list string)
    (src extra sd : string) (dl : Z) (tc : TaskComputer)
    (d : ComputeTaskDef) (h : TaskHeader) :
  assigned_subtasks tc !! s = Some d →
  task_headers env !! task_id d = Some h →
  images ≠ [] ∨ support_direct_computation tc = true →
  let thread := worker_for env s images d h src extra sd dl in
  __compute_task env s images src extra sd dl tc
  = (Returned tt,
     set_current_computations (current_computations tc ++ [thread])
       (computing (task_id d) tc),
     make_temp_dir env (task_id d)
       ++ [EvThreadCreated thread; EvThreadStart (tt_ref thread)]).
Proof.
  intros Ha Hh Hrun thread. subst thread.
  unfold __compute_task, worker_for, make_temp_dir, temp_dir_of, computing.
  step_m. rewrite Ha. cbn. rewrite Hh. cbn.
  destruct (os_path_exists env _); cbn;
    (destruct images as [|i images]; cbn;
     [destruct Hrun as [Hrun|Hrun]; [done|]; rewrite Hrun; cbn; reflexivity
     |reflexivity]).
Qed.

Lemma compute_task_refuses (env : Env) (s : string)
    (src extra sd : string) (dl : Z) (tc : TaskComputer)
    (d : ComputeTaskDef) (h : TaskHeader) :
  assigned_subtasks tc !! s = Some d →
  task_headers env !! task_id d = Some h →
  support_direct_computation tc = false →
  __compute_task env s [] src extra sd dl tc
  = (Returned tt,
     set_counting_task PyNone
       (set_assigned_subtasks (delete s (assigned_subtasks tc))
          (computing (task_id d) tc)),
     make_temp_dir env (task_id d)
       ++ [EvSendTaskFailed s (task_id d) "Host direct task not supported"
             (return_address d) (return_port d) (key_id d) (task_owner d)
             (node_name tc)]).
Proof.
  intros Ha Hh Hno.
  unfold __compute_task, make_temp_dir, temp_dir_of, computing.
  step_m. rewrite Ha. cbn. rewrite Hh. cbn.
  destruct (os_path_exists env _); cbn; rewrite Hno; cbn; rewrite Ha; cbn;
    reflexivity.
Qed.

Lemma make_temp_dir_events (env : Env) (task : string) (e : event) :
  e ∈ make_temp_dir env task → e = EvMakeDirs (temp_dir_of env task).
Proof.
  unfold make_temp_dir. destruct (os_path_exists env _); intros H.
  - by apply elem_of_nil in H.
  - by apply list_elem_of_singleton in H.
Qed.

(** C9, as the claim has it, fails when the task keeper has no header of
    the subtask's task: the step raises [KeyError] at the header lookup,
    and the subtask stays assigned with nothing sent. *)
Lemma compute_step_without_header_raises :
  assigned_subtasks node_direct !! "s3" = Some ctd_direct
  ∧ docker_images ctd_direct = []
  ∧ support_direct_computation node_direct = false
  ∧ value_of (compute_step env_no_header "s3" ctd_direct node_direct)
    = Raised KeyError
  ∧ ¬ direct_refused "s3" ctd_direct node_direct
        (compute_step env_no_header "s3" ctd_direct node_direct).
Proof.
  assert (Ha : assigned_subtasks node_direct !! "s3" = Some ctd_direct)
    by reflexivity.
  unfold compute_step.
  rewrite (compute_task_no_header env_no_header "s3" _ _ _ _ _ node_direct
             ctd_direct Ha eq_refl).
  repeat split; try reflexivity.
  intros (_ & _ & _ & Hsent & _). cbn in Hsent. discriminate.
Qed.

(** C9, amended: for an assigned subtask whose [docker_images] is empty,
    with [support_direct_computation] false and a header of its task in
    [task_headers], the compute step makes no worker and appends nothing
    to [current_computations]; it pops the subtask, calls
    [send_task_failed] with "Host direct task not supported" and sets
    [counting_task] to [None].  Without the header the step raises
    [KeyError] and changes nothing. *)
Theorem compute_step_refuses_direct (env : Env) (s : string)
    (d : ComputeTaskDef) (tc : TaskComputer) :
  assigned_subtasks tc !! s = Some d →
  docker_images d = [] →
  support_direct_computation tc = false →
  (∀ h, task_headers env !! task_id d = Some h →
        value_of (compute_step env s d tc) = Returned tt
        ∧ direct_refused s d tc (compute_step env s d tc))
  ∧ (task_headers env !! task_id d = None →
     compute_step env s d tc = (Raised KeyError, tc, [])).
Proof.
  intros Ha Himg Hno. unfold compute_step. rewrite Himg. split.
  - intros h Hh.
    rewrite (compute_task_refuses env s _ _ _ _ tc d h Ha Hh Hno).
    split; [reflexivity|]. unfold direct_refused, creates_thread. cbn.
    repeat split.
    + intros [thread Hin]. apply elem_of_app in Hin as [Hin|Hin].
      * apply make_temp_dir_events in Hin. discriminate.
      * apply list_elem_of_singleton in Hin. discriminate.
    + unfold make_temp_dir. by destruct (os_path_exists env _).
  - intros Hh. by apply (compute_task_no_header env s _ _ _ _ _ tc d).
Qed.

Lemma compute_step_refuses_direct_witness :
  value_of (compute_step sample_env "s3" ctd_direct node_direct) = Returned tt
  ∧ direct_refused "s3" ctd_direct node_direct
      (compute_step sample_env "s3" ctd_direct node_direct).
Proof.
  apply (compute_step_refuses_direct sample_env "s3" ctd_direct node_direct
           eq_refl eq_refl eq_refl) with (h := sample_header).
  reflexivity.
Defined.

(** ** Sequencing *)

Lemma discard_state {A} (m : M A) (tc : TaskComputer) :
  state_of (discard m tc) = state_of (m tc).
Proof.
  unfold discard. step_m. by destruct (m tc) as [[[a|e] tc1] t1].
Qed.

Lemma discard_trace {A} (m : M A) (tc : TaskComputer) :
  trace_of (discard m tc) = trace_of (m tc).
Proof.
  unfold discard. step_m. destruct (m tc) as [[[a|e] tc1] t1]; cbn;
    [apply app_nil_r | reflexivity].
Qed.

Lemma lock_config_eq (on : bool) (tc : TaskComputer) :
  lock_config on tc
  = (Returned tt, tc, map (λ l, EvLockConfig l on) (listeners tc)).
Proof.
  unfold lock_config. unfold mbind, M_bind, m_bind, get_self.
  by rewrite (for_each_emit (λ l, EvLockConfig l on)).
Qed.

Lemma config_changed_eq (tc : TaskComputer) :
  config_changed tc
  = (Returned tt, tc, map (λ l, EvConfigChanged l) (listeners tc)).
Proof.
  unfold config_changed. unfold mbind, M_bind, m_bind, get_self.
  by rewrite (for_each_emit (λ l, EvConfigChanged l)).
Qed.

Lemma quit_eq (tc : TaskComputer) :
  quit tc
  = (Returned tt, tc,
     map (λ t, EvEndComp (tt_ref t)) (current_computations tc)).
Proof.
  unfold quit. unfold mbind, M_bind, m_bind, get_self.
  by rewrite (for_each_emit (λ t, EvEndComp (tt_ref t))).
Qed.

Lemma change_docker_config_eq (env : Env) (c : ConfigDesc) (rb bg : bool)
    (tc : TaskComputer) :
  change_docker_config env c rb bg tc
  = if negb (docker_machine env) && rb
    then (Returned tt, tc, [EvBuildConfig; EvRunAllBenchmarks])
    else if docker_machine env && use_docker_machine_manager tc
    then (Returned tt, set_runnable false tc,
          [EvBuildConfig]
          ++ map (λ l, EvLockConfig l true) (listeners tc)
          ++ [EvUpdateConfig bg])
    else (Returned tt, tc, [EvBuildConfig]).
Proof.
  unfold change_docker_config.
  unfold mbind, M_bind, m_bind, modify, emit, get_self, mret, M_ret, m_ret.
  cbn. destruct (negb (docker_machine env) && rb); cbn; [reflexivity|].
  destruct (docker_machine env && use_docker_machine_manager tc); cbn;
    [|reflexivity].
  rewrite lock_config_eq. cbn. reflexivity.
Qed.

Lemma no_thread_in_map {A} (f : A → event) (l : list A) (thread : TaskThread) :
  (∀ x, f x ≠ EvThreadCreated thread) → EvThreadCreated thread ∉ map f l.
Proof.
  intros Hf Hin. apply list_elem_of_In, in_map_iff in Hin as (x & Hx & _).
  by apply (Hf x).
Qed.

(** ** The callers of the compute step *)

Lemma task_resource_collected_unmapped (env : Env) (task : string) (u : bool)
    (tc : TaskComputer) :
  task_to_subtask_mapping tc !! task = None →
  task_resource_collected env task u tc = (Returned None, tc, []).
Proof.
  intros Hm. unfold task_resource_collected. step_m. by rewrite Hm.
Qed.

Lemma task_resource_collected_stale (env : Env) (task s : string) (u : bool)
    (tc : TaskComputer) :
  task_to_subtask_mapping tc !! task = Some s →
  assigned_subtasks tc !! s = None →
  task_resource_collected env task u tc = (Returned (Some false), tc, []).
Proof.
  intros Hm Ha. unfold task_resource_collected. step_m. rewrite Hm. cbn.
  by rewrite Ha.
Qed.

Lemma task_resource_collected_computes (env : Env) (task s : string)
    (u : bool) (tc : TaskComputer) (d : ComputeTaskDef) :
  task_to_subtask_mapping tc !! task = Some s →
  assigned_subtasks tc !! s = Some d →
  state_of (task_resource_collected env task u tc)
  = state_of (compute_step env s d (collected_pre env tc))
  ∧ trace_of (task_resource_collected env task u tc)
    = unpack_events env task u tc
      ++ trace_of (compute_step env s d (collected_pre env tc)).
Proof.
  intros Hm Ha.
  unfold task_resource_collected, unpack_events, collected_pre, compute_step.
  step_m. rewrite Hm. cbn. rewrite Ha. cbn.
  destruct u; cbn;
    by destruct (__compute_task env s (docker_images d) (src_code d)
                   (extra_data d) (short_description d) (deadline d) _)
      as [[[a|e] tc1] t1]; cbn; rewrite ?app_nil_r.
Qed.

Lemma resource_given_unmapped (env : Env) (task : string) (tc : TaskComputer) :
  task_to_subtask_mapping tc !! task = None →
  resource_given env task tc = (Returned None, tc, []).
Proof.
  intros Hm. unfold resource_given. step_m. by rewrite Hm.
Qed.

Lemma resource_given_stale (env : Env) (task s : string) (tc : TaskComputer) :
  task_to_subtask_mapping tc !! task = Some s →
  assigned_subtasks tc !! s = None →
  resource_given env task tc = (Returned (Some false), tc, []).
Proof.
  intros Hm Ha. unfold resource_given. step_m. rewrite Hm. cbn.
  by rewrite Ha.
Qed.

Lemma resource_given_computes (env : Env) (task s : string)
    (tc : TaskComputer) (d : ComputeTaskDef) :
  task_to_subtask_mapping tc !! task = Some s →
  assigned_subtasks tc !! s = Some d →
  state_of (resource_given env task tc)
  = match value_of (compute_step env s d tc) with
    | Returned _ =>
        set_waiting_for_task None (state_of (compute_step env s d tc))
    | Raised _ => state_of (compute_step env s d tc)
    end
  ∧ trace_of (resource_given env task tc)
    = trace_of (compute_step env s d tc).
Proof.
  intros Hm Ha. unfold resource_given, compute_step.
  step_m. rewrite Hm. cbn. rewrite Ha. cbn.
  by destruct (__compute_task env s (docker_images d) (src_code d)
                 (extra_data d) (short_description d) (deadline d) tc)
    as [[[a|e] tc1] t1]; cbn; rewrite ?app_nil_r.
Qed.

(** A thread object is only ever made by the spawning case of the
    compute step. *)
Lemma compute_task_creates (env : Env) (s : string) (images : list string)
    (src extra sd : string) (dl : Z) (tc : TaskComputer) (thread : TaskThread) :
  EvThreadCreated thread
    ∈ trace_of (__compute_task env s images src extra sd dl tc) →
  ∃ d h, assigned_subtasks tc !! s = Some d
         ∧ task_headers env !! task_id d = Some h
         ∧ (images ≠ [] ∨ support_direct_computation tc = true)
         ∧ thread = worker_for env s images d h src extra sd dl.
Proof.
  intros Hin.
  destruct (assigned_subtasks tc !! s) as [d|] eqn:Ha.
  2:{ rewrite compute_task_unassigned in Hin by done.
      by apply elem_of_nil in Hin. }
  destruct (task_headers env !! task_id d) as [h|] eqn:Hh.
  2:{ rewrite (compute_task_no_header _ _ _ _ _ _ _ _ d) in Hin by done.
      by apply elem_of_nil in Hin. }
  assert (Hcase : (images ≠ [] ∨ support_direct_computation tc = true)
                  ∨ (images = [] ∧ support_direct_computation tc = false)).
  { destruct images; [|left; left; done].
    destruct (support_direct_computation tc); [left|right]; auto. }
  destruct Hcase as [Hrun|[-> Hno]].
  - exists d, h. repeat split; try done.
    rewrite (compute_task_spawns _ _ _ _ _ _ _ _ d h Ha Hh Hrun) in Hin.
    cbn in Hin. apply elem_of_app in Hin as [Hin|Hin].
    + apply make_temp_dir_events in Hin. discriminate.
    + apply elem_of_cons in Hin as [Heq|Hin]; [congruence|].
      apply list_elem_of_singleton in Hin. discriminate.
  - rewrite (compute_task_refuses _ _ _ _ _ _ _ d h Ha Hh Hno) in Hin.
    cbn in Hin. apply elem_of_app in Hin as [Hin|Hin].
    + apply make_temp_dir_events in Hin. discriminate.
    + apply list_elem_of_singleton in Hin. discriminate.
Qed.

(** ** The tick *)

Lemma run_counting (env : Env) (tc : TaskComputer) :
  flag_truthy (counting_task tc) = true →
  run env tc
  = (Returned tt, tc,
     map (λ t, EvCheckTimeout (tt_ref t)) (current_computations tc)).
Proof.
  intros Hc. unfold run. unfold mbind, M_bind, m_bind, get_self.
  rewrite Hc. by rewrite (for_each_emit (λ t, EvCheckTimeout (tt_ref t))).
Qed.

Lemma run_gated (env : Env) (tc : TaskComputer) :
  flag_truthy (counting_task tc) = false →
  compute_tasks tc && runnable tc = false →
  run env tc = (Returned tt, tc, []).
Proof.
  intros Hc Hg. unfold run. unfold mbind, M_bind, m_bind, get_self.
  by rewrite Hc, Hg.
Qed.

Lemma run_waiting (env : Env) (tc : TaskComputer) :
  flag_truthy (counting_task tc) = false →
  compute_tasks tc && runnable tc = true →
  handle_truthy (waiting_for_task tc) = true →
  run env tc
  = (Returned tt,
     if use_waiting_ttl tc
     then if ttl_after env tc <? 0 then after_reset (ticked env tc)
          else ticked env tc
     else tc,
     []).
Proof.
  intros Hc Hg Hw. unfold run, after_reset, ticked, ttl_after.
  unfold mbind, M_bind, m_bind, get_self. rewrite Hc, Hg, Hw. cbn.
  destruct (use_waiting_ttl tc); [|reflexivity]. step_m. cbn.
  destruct (_ <? 0); reflexivity.
Qed.

Lemma request_task_trace (env : Env) (tc : TaskComputer) (e : event) :
  e ∈ trace_of (__request_task env tc) → e = EvRequestTask.
Proof.
  unfold __request_task. step_m. cbn.
  destruct (negb _ && negb _); cbn.
  - destruct (request_task_answer env); cbn; intros H;
      by apply list_elem_of_singleton in H.
  - intros H. by apply elem_of_nil in H.
Qed.

Lemma request_task_computations (env : Env) (tc : TaskComputer) :
  current_computations (state_of (__request_task env tc))
  = current_computations tc.
Proof.
  unfold __request_task. step_m. cbn.
  destruct (negb _ && negb _); cbn; [|reflexivity].
  destruct (request_task_answer env); reflexivity.
Qed.

Lemma run_idle (env : Env) (tc : TaskComputer) :
  flag_truthy (counting_task tc) = false →
  compute_tasks tc && runnable tc = true →
  handle_truthy (waiting_for_task tc) = false →
  run env tc
  = if task_request_frequency tc <? time_time env - last_task_request tc
    then if (length (current_computations tc) =? 0)%nat
         then __request_task env tc
         else (Returned tt, tc, [])
    else (Returned tt, tc, []).
Proof.
  intros Hc Hg Hw. unfold run.
  unfold mbind, M_bind, m_bind, get_self. rewrite Hc, Hg, Hw. cbn.
  destruct (_ <? _); [|reflexivity].
  destruct (_ =? _)%nat; [|reflexivity].
  by destruct (__request_task env tc) as [[[a|e] tc1] t1]; cbn.
Qed.

(** The tick makes no thread object and leaves the list of computations
    as it is. *)
Lemma run_spawns_nothing (env : Env) (tc : TaskComputer) :
  (∀ thread, EvThreadCreated thread ∉ trace_of (run env tc))
  ∧ current_computations (state_of (run env tc)) = current_computations tc.
Proof.
  destruct (flag_truthy (counting_task tc)) eqn:Hc.
  { rewrite run_counting by done. split; [|reflexivity].
    intros thread Hin. cbn in Hin.
    apply list_elem_of_In, in_map_iff in Hin as (x & Hx & _). discriminate. }
  destruct (compute_tasks tc && runnable tc) eqn:Hg.
  2:{ rewrite run_gated by done. split; [|reflexivity].
      intros thread Hin. by apply elem_of_nil in Hin. }
  destruct (handle_truthy (waiting_for_task tc)) eqn:Hw.
  - rewrite run_waiting by done. split.
    + intros thread Hin. by apply elem_of_nil in Hin.
    + unfold after_reset, ticked. step_m. cbn.
      destruct (use_waiting_ttl tc); [|reflexivity].
      destruct (_ <? 0); reflexivity.
  - rewrite run_idle by done.
    destruct (_ <? _); [destruct (_ =? _)%nat|].
    + split; [|apply request_task_computations].
      intros thread Hin. apply request_task_trace in Hin. discriminate.
    + split; [|reflexivity]. intros thread Hin. by apply elem_of_nil in Hin.
    + split; [|reflexivity]. intros thread Hin. by apply elem_of_nil in Hin.
Qed.

(** ** Which calls make a thread *)

Lemma remove_thread_length (ref : nat) (l : list TaskThread) :
  (length (remove_thread ref l) ≤ length l)%nat.
Proof.
  induction l as [|t l IH]; cbn; [lia|].
  destruct (bool_decide _); cbn; lia.
Qed.

Lemma task_computed_spawns_nothing (env : Env) (w : TaskThread)
    (tc : TaskComputer) :
  (∀ thread, EvThreadCreated thread ∉ trace_of (task_computed env w tc))
  ∧ (length (current_computations (state_of (task_computed env w tc)))
     ≤ length (current_computations tc))%nat.
Proof.
  destruct (assigned_subtasks tc !! tt_subtask_id w) as [d|] eqn:Ha.
  - destruct (task_headers env !! task_id d) as [h|] eqn:Hh.
    + rewrite (task_computed_dispatch env w tc d h Ha Hh). split.
      * intros thread Hin. destruct (verdict_of w); no_thread Hin.
      * cbn. apply remove_thread_length.
    + rewrite (task_computed_no_header env w tc d Ha Hh). split.
      * intros thread Hin. no_thread Hin.
      * cbn. apply remove_thread_length.
  - rewrite (task_computed_unregistered env w tc Ha). split.
    + intros thread Hin. no_thread Hin.
    + cbn. apply remove_thread_length.
Qed.

Lemma other_calls_spawn_nothing (env : Env) (o : op) (tc : TaskComputer) :
  calls_compute_step o = false →
  (∀ thread, EvThreadCreated thread ∉ trace_of (call env o tc))
  ∧ (length (current_computations (state_of (call env o tc)))
     ≤ length (current_computations tc))%nat.
Proof.
  intros Ho. destruct o; try discriminate; cbn [call].
  - (* task_given *)
    rewrite discard_state, discard_trace.
    unfold task_given. step_m.
    destruct (assigned_subtasks tc !! subtask_id ctd); cbn;
      (split; [intros thread Hin; no_thread Hin | lia]).
  - (* task_resource_failure *)
    unfold task_resource_failure. step_m.
    destruct (task_to_subtask_mapping tc !! task) as [s|]; cbn.
    2:{ split; [intros thread Hin; no_thread Hin | lia]. }
    destruct (assigned_subtasks tc !! s) as [d|] eqn:Ha; cbn.
    + rewrite Ha. cbn.
      destruct (flag_truthy (counting_task tc)); cbn;
        (split; [intros thread Hin; no_thread Hin | lia]).
    + destruct (flag_truthy (counting_task tc)); cbn;
        (split; [intros thread Hin; no_thread Hin | lia]).
  - (* wait_for_resources *)
    unfold wait_for_resources. step_m.
    destruct (task_to_subtask_mapping tc !! task) as [s|]; cbn.
    2:{ split; [intros thread Hin; no_thread Hin | lia]. }
    destruct (assigned_subtasks tc !! s) as [d|]; cbn;
      (split; [intros thread Hin; no_thread Hin | lia]).
  - (* task_request_rejected *)
    unfold task_request_rejected. step_m.
    split; [intros thread Hin; no_thread Hin | lia].
  - (* resource_request_rejected *)
    unfold resource_request_rejected. step_m. cbn.
    split; [intros thread Hin; no_thread Hin | lia].
  - (* task_computed *)
    apply task_computed_spawns_nothing.
  - (* run *)
    destruct (run_spawns_nothing env tc) as [H1 H2].
    split; [exact H1 | rewrite H2; lia].
  - (* reset *)
    step_m. cbn. split; [intros thread Hin; no_thread Hin | lia].
  - (* session_timeout *)
    step_m. destruct (negb _); cbn;
      (split; [intros thread Hin; no_thread Hin | lia]).
  - (* change_config *)
    unfold change_config, change_docker_config.
    unfold mbind, M_bind, m_bind, modify, emit, get_self, mret, M_ret, m_ret.
    cbn. destruct (negb (docker_machine env) && run_benchmarks); cbn.
    { split; [intros thread Hin; no_thread Hin | lia]. }
    destruct (docker_machine env && use_docker_machine_manager tc); cbn.
    2:{ split; [intros thread Hin; no_thread Hin | lia]. }
    rewrite lock_config_eq. cbn. split; [|lia].
    intros thread Hin. apply elem_of_cons in Hin as [Hin|Hin]; [discriminate|].
    apply elem_of_app in Hin as [Hin|Hin].
    + apply list_elem_of_In, in_map_iff in Hin as (x & Hx & _). discriminate.
    + no_thread Hin.
  - (* done_callback *)
    unfold done_callback.
    unfold mbind, M_bind, m_bind, modify, emit, get_self, mret, M_ret, m_ret,
      when.
    destruct run_benchmarks; cbn; rewrite lock_config_eq; cbn;
      (split; [|lia]); intros thread Hin;
      rewrite ?app_nil_r in Hin;
      repeat (apply elem_of_cons in Hin as [Hin|Hin]; [discriminate|]);
      apply list_elem_of_In, in_map_iff in Hin as (x & Hx & _); discriminate.
  - (* change_docker_config *)
    rewrite change_docker_config_eq.
    destruct (negb (docker_machine env) && run_benchmarks).
    { split; [intros thread Hin; no_thread Hin | cbn; lia]. }
    destruct (docker_machine env && use_docker_machine_manager tc).
    2:{ split; [intros thread Hin; no_thread Hin | cbn; lia]. }
    split; [|cbn; lia]. intros thread Hin. cbn in Hin.
    apply elem_of_cons in Hin as [Hin|Hin]; [discriminate|].
    apply elem_of_app in Hin as [Hin|Hin]; [|no_thread Hin].
    by apply no_thread_in_map in Hin.
  - (* register_listener *)
    unfold register_listener. step_m. cbn.
    split; [intros thread Hin; no_thread Hin | lia].
  - (* lock_config *)
    rewrite lock_config_eq. split; [|cbn; lia].
    intros thread Hin. by apply no_thread_in_map in Hin.
  - (* config_changed *)
    rewrite config_changed_eq. split; [|cbn; lia].
    intros thread Hin. by apply no_thread_in_map in Hin.
  - (* session_closed *)
    step_m. destruct (negb _); cbn;
      (split; [intros thread Hin; no_thread Hin | lia]).
  - (* wait *)
    step_m. destruct ttl; cbn;
      (split; [intros thread Hin; no_thread Hin | lia]).
  - (* quit *)
    rewrite quit_eq. split; [|cbn; lia].
    intros thread Hin. by apply no_thread_in_map in Hin.
Qed.

(** Where a call makes a thread object, it is the compute step that makes
    it, for an assigned subtask with a task header. *)
Lemma call_creates_thread (env : Env) (o : op) (tc : TaskComputer)
    (thread : TaskThread) :
  EvThreadCreated thread ∈ trace_of (call env o tc) →
  calls_compute_step o = true
  ∧ ∃ s d h, assigned_subtasks tc !! s = Some d
      ∧ task_headers env !! task_id d = Some h
      ∧ (docker_images d ≠ [] ∨ support_direct_computation tc = true)
      ∧ thread = worker_for env s (docker_images d) d h (src_code d)
                   (extra_data d) (short_description d) (deadline d).
Proof.
  intros Hin. destruct (calls_compute_step o) eqn:Ho.
  2:{ by destruct (other_calls_spawn_nothing env o tc Ho) as [Hno _];
      apply Hno in Hin. }
  split; [done|]. destruct o; try discriminate; cbn [call] in Hin;
    rewrite discard_trace in Hin.
  - (* resource_given *)
    destruct (task_to_subtask_mapping tc !! task) as [s|] eqn:Hm.
    2:{ rewrite resource_given_unmapped in Hin by done. no_thread Hin. }
    destruct (assigned_subtasks tc !! s) as [d|] eqn:Ha.
    2:{ rewrite (resource_given_stale env task s) in Hin by done.
        no_thread Hin. }
    destruct (resource_given_computes env task s tc d Hm Ha) as [_ Htr].
    rewrite Htr in Hin. unfold compute_step in Hin.
    apply compute_task_creates in Hin.
    destruct Hin as (d' & h & Ha' & Hh & Hrun & ->).
    assert (d' = d) as -> by congruence. by exists s, d, h.
  - (* task_resource_collected *)
    destruct (task_to_subtask_mapping tc !! task) as [s|] eqn:Hm.
    2:{ rewrite task_resource_collected_unmapped in Hin by done.
        no_thread Hin. }
    destruct (assigned_subtasks tc !! s) as [d|] eqn:Ha.
    2:{ rewrite (task_resource_collected_stale env task s) in Hin by done.
        no_thread Hin. }
    destruct (task_resource_collected_computes env task s unpack_delta tc d
                Hm Ha) as [_ Htr].
    rewrite Htr in Hin. apply elem_of_app in Hin as [Hin|Hin].
    { unfold unpack_events in Hin. destruct unpack_delta; no_thread Hin. }
    unfold compute_step in Hin. apply compute_task_creates in Hin.
    destruct Hin as (d' & h & Ha' & Hh & Hrun & ->).
    cbn in Ha', Hrun. assert (d' = d) as -> by congruence. by exists s, d, h.
Qed.

(** C10: the time-out of every worker that a call constructs is
    [deadline_to_timeout] of the minimum of the deadline in the task
    header and the subtask's deadline; with a subtask deadline not
    earlier than the task's it is [deadline_to_timeout] of the task's
    deadline. *)
Theorem worker_timeout_is_min_deadline (env : Env) (o : op)
    (tc : TaskComputer) (thread : TaskThread) :
  EvThreadCreated thread ∈ trace_of (call env o tc) →
  ∃ d h, assigned_subtasks tc !! tt_subtask_id thread = Some d
    ∧ task_headers env !! task_id d = Some h
    ∧ tt_timeout thread
      = deadline_to_timeout env (Z.min (th_deadline h) (deadline d))
    ∧ (th_deadline h ≤ deadline d →
       tt_timeout thread = deadline_to_timeout env (th_deadline h)).
Proof.
  intros Hin. apply call_creates_thread in Hin.
  destruct Hin as (_ & s & d & h & Ha & Hh & _ & ->).
  exists d, h. cbn. repeat split; try done.
  intros Hle. by rewrite Z.min_l.
Qed.

Lemma worker_timeout_is_min_deadline_witness :
  let thread := worker_for sample_env "s2" (docker_images ctd_s2) ctd_s2
                  sample_header (src_code ctd_s2) (extra_data ctd_s2)
                  (short_description ctd_s2) (deadline ctd_s2) in
  EvThreadCreated thread
    ∈ trace_of (call sample_env (OpTaskResourceCollected "t1" true)
                  node_given_late)
  ∧ ∃ d h, assigned_subtasks node_given_late !! tt_subtask_id thread = Some d
      ∧ task_headers sample_env !! task_id d = Some h
      ∧ tt_timeout thread
        = deadline_to_timeout sample_env (Z.min (th_deadline h) (deadline d))
      ∧ (th_deadline h ≤ deadline d →
         tt_timeout thread = deadline_to_timeout sample_env (th_deadline h)).
Proof.
  intros thread.
  assert (Hin : EvThreadCreated thread
            ∈ trace_of (call sample_env (OpTaskResourceCollected "t1" true)
                          node_given_late)).
  { vm_compute. do 2 apply list_elem_of_further. apply list_elem_of_here. }
  split; [exact Hin|].
  exact (worker_timeout_is_min_deadline sample_env _ node_given_late
           thread Hin).
Defined.

(** C7: a node whose configuration is locked ([runnable = False], the
    container manager has not called [done_callback] yet) was given
    [s1].  When the resources of [t1] are collected the compute step
    constructs the worker, appends it to [current_computations] and
    starts it, although [runnable] is false before and after: a worker
    starts while the configuration is locked. *)
Theorem locked_node_spawns_worker :
  let thread := worker_for sample_env "s1" (docker_images ctd_s1) ctd_s1
                  sample_header (src_code ctd_s1) (extra_data ctd_s1)
                  (short_description ctd_s1) (deadline ctd_s1) in
  let r := task_resource_collected sample_env "t1" true node_locked_given in
  reachable node_locked_given
  ∧ runnable node_locked_given = false
  ∧ current_computations node_locked_given = []
  ∧ value_of r = Returned (Some true)
  ∧ trace_of r
    = [EvUnpackDelta "res" None "t1"; EvMakeDirs "tmp/u";
       EvThreadCreated thread; EvThreadStart (tt_ref thread)]
  ∧ current_computations (state_of r) = [thread]
  ∧ runnable (state_of r) = false
  ∧ ¬ no_spawn_while_locked.
Proof.
  intros thread r.
  assert (Hreach : reachable node_locked_given).
  { exists sample_env, "node", sample_config, true, false,
      [(sample_env, OpTaskGiven ctd_s1)]. reflexivity. }
  assert (Htr : trace_of r
                = [EvUnpackDelta "res" None "t1"; EvMakeDirs "tmp/u";
                   EvThreadCreated thread; EvThreadStart (tt_ref thread)])
    by (vm_compute; reflexivity).
  split; [exact Hreach|]. split; [reflexivity|]. split; [reflexivity|].
  split; [vm_compute; reflexivity|]. split; [exact Htr|].
  split; [vm_compute; reflexivity|]. split; [vm_compute; reflexivity|].
  intros H.
  destruct (H node_locked_given Hreach eq_refl sample_env
              (OpTaskResourceCollected "t1" true)) as [Hno _].
  apply Hno. exists thread. cbn [call]. rewrite discard_trace.
  fold r. rewrite Htr.
  do 2 apply list_elem_of_further. apply list_elem_of_here.
Qed.

(** [runnable] is read by the tick only.  While it is false the tick
    requests no task, and no operation other than
    [task_resource_collected] and [resource_given] makes a worker or
    appends to [current_computations]; these two go through the compute
    step whatever [runnable] is: for an assigned subtask with a task
    header and with docker images (or with direct computation
    supported) they make the worker, append it and start it. *)
Theorem locked_node_spawns_on_compute_step_only (env : Env)
    (tc : TaskComputer) :
  runnable tc = false →
  (∀ o, calls_compute_step o = false → spawns_nothing env o tc)
  ∧ (EvRequestTask ∉ trace_of (run env tc))
  ∧ (∀ task s d h u,
       task_to_subtask_mapping tc !! task = Some s →
       assigned_subtasks tc !! s = Some d →
       task_headers env !! task_id d = Some h →
       docker_images d ≠ [] ∨ support_direct_computation tc = true →
       let thread := worker_for env s (docker_images d) d h (src_code d)
                       (extra_data d) (short_description d) (deadline d) in
       (EvThreadCreated thread
          ∈ trace_of (task_resource_collected env task u tc)
        ∧ EvThreadStart (tt_ref thread)
            ∈ trace_of (task_resource_collected env task u tc)
        ∧ current_computations
            (state_of (task_resource_collected env task u tc))
          = current_computations tc ++ [thread])
       ∧ (EvThreadCreated thread ∈ trace_of (resource_given env task tc)
          ∧ EvThreadStart (tt_ref thread)
              ∈ trace_of (resource_given env task tc)
          ∧ current_computations (state_of (resource_given env task tc))
            = current_computations tc ++ [thread])).
Proof.
  intros Hlock. split; [|split].
  - intros o Ho. destruct (other_calls_spawn_nothing env o tc Ho) as [H1 H2].
    split; [|exact H2]. intros [thread Hin]. by apply H1 in Hin.
  - destruct (flag_truthy (counting_task tc)) eqn:Hc.
    + rewrite run_counting by done. cbn. intros Hin.
      apply list_elem_of_In, in_map_iff in Hin as (x & Hx & _). discriminate.
    + rewrite run_gated; [|done|by rewrite Hlock, andb_false_r].
      apply not_elem_of_nil.
  - intros task s d h u Hm Ha Hh Hrun thread. split.
    + destruct (task_resource_collected_computes env task s u tc d Hm Ha)
        as [Hst Htr].
      rewrite Hst, Htr. unfold compute_step.
      rewrite (compute_task_spawns env s _ _ _ _ _ (collected_pre env tc)
                 d h Ha Hh Hrun).
      cbn. split; [|split; [|reflexivity]].
      * apply elem_of_app. right. apply elem_of_app. right.
        apply list_elem_of_here.
      * apply elem_of_app. right. apply elem_of_app. right.
        apply list_elem_of_further, list_elem_of_here.
    + destruct (resource_given_computes env task s tc d Hm Ha) as [Hst Htr].
      rewrite Hst, Htr. unfold compute_step.
      rewrite (compute_task_spawns env s _ _ _ _ _ tc d h Ha Hh Hrun).
      cbn. split; [|split; [|reflexivity]].
      * apply elem_of_app. right. apply list_elem_of_here.
      * apply elem_of_app. right.
        apply list_elem_of_further, list_elem_of_here.
Qed.

Lemma locked_node_spawns_on_compute_step_only_witness :
  runnable node_locked_given = false
  ∧ spawns_nothing sample_env OpRun node_locked_given
  ∧ (EvRequestTask ∉ trace_of (run sample_env node_locked_given))
  ∧ length (current_computations
              (state_of (task_resource_collected sample_env "t1" true
                           node_locked_given))) = 1%nat.
Proof.
  destruct (locked_node_spawns_on_compute_step_only sample_env
              node_locked_given eq_refl) as (Hother & Hrun & Hstep).
  split; [reflexivity|]. split; [by apply Hother|]. split; [exact Hrun|].
  destruct (Hstep "t1" "s1" ctd_s1 sample_header true eq_refl eq_refl eq_refl
              (or_introl (λ H : docker_images ctd_s1 = [],
                            eq_ind (docker_images ctd_s1)
                              (λ l, match l with [] => False | _ => True end)
                              I [] H)))
    as [(_ & _ & Hcc) _].
  rewrite Hcc. reflexivity.
Defined.

(** C8, as the claim has it, fails: a node whose configuration is locked
    ([runnable = False]) was given [s1] and waits for its resources with
    30 ticks to live; at time 100, 90 ticks after the last check, the
    tick leaves the counter and the wait as they are, the gate
    [compute_tasks and runnable] being closed. *)
Lemma tick_of_locked_node_keeps_ttl :
  flag_truthy (counting_task node_locked_given) = false
  ∧ handle_truthy (waiting_for_task node_locked_given) = true
  ∧ use_waiting_ttl node_locked_given = true
  ∧ ttl_after (at_time 100 sample_env) node_locked_given = -60
  ∧ run (at_time 100 sample_env) node_locked_given
    = (Returned tt, node_locked_given, [])
  ∧ ¬ ttl_tick (at_time 100 sample_env) node_locked_given.
Proof.
  assert (Hrun : run (at_time 100 sample_env) node_locked_given
                 = (Returned tt, node_locked_given, []))
    by (apply run_gated; reflexivity).
  repeat split; try reflexivity; try exact Hrun.
  intros H. destruct (H eq_refl eq_refl eq_refl) as [Hlast _].
  rewrite Hrun in Hlast. vm_compute in Hlast. discriminate.
Qed.

(** C8, amended: on a tick of [run()] in a state where [counting_task]
    is not set, [compute_tasks] and [runnable] are both true,
    [waiting_for_task] is set and [use_waiting_ttl] is true,
    [waiting_ttl] is decremented by the time elapsed since
    [last_checking], [last_checking] becomes the time of the tick, and
    if the decremented value is below zero [reset()] runs, clearing
    [waiting_for_task] and [waiting_ttl].  With [compute_tasks] or
    [runnable] false the tick changes nothing. *)
Theorem run_counts_ttl_down (env : Env) (tc : TaskComputer) :
  flag_truthy (counting_task tc) = false →
  handle_truthy (waiting_for_task tc) = true →
  use_waiting_ttl tc = true →
  (compute_tasks tc = true → runnable tc = true →
   run env tc
   = (Returned tt,
      if ttl_after env tc <? 0 then after_reset (ticked env tc)
      else ticked env tc,
      [])
   ∧ ttl_ticked env tc (state_of (run env tc)))
  ∧ (compute_tasks tc = false ∨ runnable tc = false →
     run env tc = (Returned tt, tc, [])).
Proof.
  intros Hc Hw Httl. split.
  - intros Hct Hr.
    assert (Hg : compute_tasks tc && runnable tc = true)
      by (by rewrite Hct, Hr).
    rewrite (run_waiting env tc Hc Hg Hw), Httl. split; [reflexivity|].
    unfold ttl_ticked, after_reset, ticked. step_m. cbn.
    destruct (ttl_after env tc <? 0); cbn; repeat split; reflexivity.
  - intros Hgate. apply run_gated; [done|].
    destruct Hgate as [-> | ->]; [reflexivity | apply andb_false_r].
Qed.

Lemma run_counts_ttl_down_witness :
  run (at_time 100 sample_env) node_given
  = (Returned tt,
     after_reset (ticked (at_time 100 sample_env) node_given), [])
  ∧ ttl_ticked (at_time 100 sample_env) node_given
      (state_of (run (at_time 100 sample_env) node_given)).
Proof.
  destruct (run_counts_ttl_down (at_time 100 sample_env) node_given
              eq_refl eq_refl eq_refl) as [Hopen _].
  exact (Hopen eq_refl eq_refl).
Defined.

(** ** The registry along sequences of calls *)

Lemma compute_task_registry (env : Env) (s : string) (images : list string)
    (src extra sd : string) (dl : Z) (tc : TaskComputer) :
  (assigned_subtasks (state_of (__compute_task env s images src extra sd dl tc))
   = assigned_subtasks tc
   ∨ assigned_subtasks
       (state_of (__compute_task env s images src extra sd dl tc))
     = delete s (assigned_subtasks tc))
  ∧ task_to_subtask_mapping
      (state_of (__compute_task env s images src extra sd dl tc))
    = task_to_subtask_mapping tc.
Proof.
  destruct (assigned_subtasks tc !! s) as [d|] eqn:Ha.
  2:{ rewrite compute_task_unassigned by done. by split; [left|]. }
  destruct (task_headers env !! task_id d) as [h|] eqn:Hh.
  2:{ rewrite (compute_task_no_header _ _ _ _ _ _ _ _ d) by done.
      by split; [left|]. }
  destruct images as [|i images].
  - destruct (support_direct_computation tc) eqn:Hs.
    + rewrite (compute_task_spawns _ _ _ _ _ _ _ _ d h Ha Hh (or_intror Hs)).
      by split; [left|].
    + rewrite (compute_task_refuses _ _ _ _ _ _ _ d h Ha Hh Hs).
      by split; [right|].
  - assert (Hne : i :: images ≠ []) by done.
    rewrite (compute_task_spawns _ _ _ _ _ _ _ _ d h Ha Hh (or_introl Hne)).
    by split; [left|].
Qed.

Lemma request_task_registry (env : Env) (tc : TaskComputer) :
  assigned_subtasks (state_of (__request_task env tc)) = assigned_subtasks tc
  ∧ task_to_subtask_mapping (state_of (__request_task env tc))
    = task_to_subtask_mapping tc.
Proof.
  unfold __request_task. step_m. cbn.
  destruct (negb _ && negb _); cbn; [|done].
  by destruct (request_task_answer env).
Qed.

Lemma run_registry (env : Env) (tc : TaskComputer) :
  assigned_subtasks (state_of (run env tc)) = assigned_subtasks tc
  ∧ task_to_subtask_mapping (state_of (run env tc))
    = task_to_subtask_mapping tc.
Proof.
  destruct (flag_truthy (counting_task tc)) eqn:Hc.
  { by rewrite run_counting. }
  destruct (compute_tasks tc && runnable tc) eqn:Hg.
  2:{ by rewrite run_gated. }
  destruct (handle_truthy (waiting_for_task tc)) eqn:Hw.
  - rewrite run_waiting by done. unfold after_reset, ticked. step_m. cbn.
    destruct (use_waiting_ttl tc); [|done]. by destruct (_ <? 0).
  - rewrite run_idle by done.
    destruct (_ <? _); [destruct (_ =? _)%nat|]; try done.
    apply request_task_registry.
Qed.

Lemma call_registry_effect (env : Env) (o : op) (tc : TaskComputer) :
  registry_effect o tc (state_of (call env o tc)).
Proof.
  destruct o; cbn [call].
  - (* task_given *)
    rewrite discard_state.
    destruct (assigned_subtasks tc !! subtask_id ctd) as [x|] eqn:Ha.
    + rewrite task_given_known by (by eexists). by apply RegistryKept.
    + destruct (task_given_new env ctd tc Ha) as (_ & H1 & H2).
      by apply (RegistryGiven _ _ _ ctd).
  - (* resource_given *)
    rewrite discard_state.
    destruct (task_to_subtask_mapping tc !! task) as [s|] eqn:Hm.
    2:{ rewrite resource_given_unmapped by done. by apply RegistryKept. }
    destruct (assigned_subtasks tc !! s) as [d|] eqn:Ha.
    2:{ rewrite (resource_given_stale env task s) by done.
        by apply RegistryKept. }
    destruct (resource_given_computes env task s tc d Hm Ha) as [Hst _].
    unfold compute_step in Hst.
    destruct (compute_task_registry env s (docker_images d) (src_code d)
                (extra_data d) (short_description d) (deadline d) tc)
      as [Hkeep Hmap].
    assert (Hsame :
      assigned_subtasks (state_of (resource_given env task tc))
      = assigned_subtasks (state_of (__compute_task env s (docker_images d)
          (src_code d) (extra_data d) (short_description d) (deadline d) tc))
      ∧ task_to_subtask_mapping (state_of (resource_given env task tc))
        = task_to_subtask_mapping (state_of (__compute_task env s
            (docker_images d) (src_code d) (extra_data d)
            (short_description d) (deadline d) tc))).
    { rewrite Hst. by destruct (value_of _). }
    destruct Hsame as [Hs1 Hs2]. rewrite <- Hs1, <- Hs2 in *.
    destruct Hkeep; [by apply RegistryKept | by apply (RegistryPopped _ _ _ s)].
  - (* task_resource_collected *)
    rewrite discard_state.
    destruct (task_to_subtask_mapping tc !! task) as [s|] eqn:Hm.
    2:{ rewrite task_resource_collected_unmapped by done.
        by apply RegistryKept. }
    destruct (assigned_subtasks tc !! s) as [d|] eqn:Ha.
    2:{ rewrite (task_resource_collected_stale env task s) by done.
        by apply RegistryKept. }
    destruct (task_resource_collected_computes env task s unpack_delta tc d
                Hm Ha) as [Hst _].
    rewrite Hst. unfold compute_step.
    destruct (compute_task_registry env s (docker_images d) (src_code d)
                (extra_data d) (short_description d) (deadline d)
                (collected_pre env tc)) as [Hkeep Hmap].
    cbn in Hkeep, Hmap.
    destruct Hkeep; [by apply RegistryKept | by apply (RegistryPopped _ _ _ s)].
  - (* task_resource_failure *)
    unfold task_resource_failure. step_m.
    destruct (task_to_subtask_mapping tc !! task) as [s|] eqn:Hm; cbn.
    2:{ by apply RegistryKept. }
    destruct (assigned_subtasks tc !! s) as [d|] eqn:Ha; cbn.
    + rewrite Ha. cbn. apply (RegistryFailed _ _ _ task s); [done|..];
        by destruct (flag_truthy (counting_task tc)).
    + apply (RegistryFailed _ _ _ task s); [done|..];
        destruct (flag_truthy (counting_task tc)); cbn;
        try done; symmetry; by apply delete_id.
  - (* wait_for_resources *)
    unfold wait_for_resources. step_m.
    destruct (task_to_subtask_mapping tc !! task) as [s|]; cbn.
    2:{ by apply RegistryKept. }
    by destruct (assigned_subtasks tc !! s); apply RegistryKept.
  - (* task_request_rejected *)
    by apply RegistryKept.
  - (* resource_request_rejected *)
    by apply (RegistryPopped _ _ _ subtask).
  - (* task_computed *)
    destruct (assigned_subtasks tc !! tt_subtask_id task_thread) as [d|]
      eqn:Ha.
    + destruct (task_headers env !! task_id d) as [h|] eqn:Hh.
      * rewrite (task_computed_dispatch env task_thread tc d h Ha Hh).
        by apply (RegistryPopped _ _ _ (tt_subtask_id task_thread)).
      * rewrite (task_computed_no_header env task_thread tc d Ha Hh).
        by apply (RegistryPopped _ _ _ (tt_subtask_id task_thread)).
    + rewrite (task_computed_unregistered env task_thread tc Ha).
      by apply RegistryKept.
  - (* run *)
    destruct (run_registry env tc). by apply RegistryKept.
  - (* reset *)
    by apply RegistryKept.
  - (* session_timeout *)
    step_m. by destruct (negb _); apply RegistryKept.
  - (* change_config *)
    unfold change_config, change_docker_config.
    unfold mbind, M_bind, m_bind, modify, emit, get_self, mret, M_ret, m_ret.
    cbn. destruct (negb (docker_machine env) && run_benchmarks); cbn.
    { by apply RegistryKept. }
    destruct (docker_machine env && use_docker_machine_manager tc); cbn.
    2:{ by apply RegistryKept. }
    rewrite lock_config_eq. cbn. by apply RegistryKept.
  - (* done_callback *)
    unfold done_callback.
    unfold mbind, M_bind, m_bind, modify, emit, get_self, mret, M_ret, m_ret,
      when.
    by destruct run_benchmarks; cbn; rewrite lock_config_eq; cbn;
      apply RegistryKept.
  - (* change_docker_config *)
    rewrite change_docker_config_eq.
    destruct (negb (docker_machine env) && run_benchmarks);
      [by apply RegistryKept|].
    by destruct (docker_machine env && use_docker_machine_manager tc);
      apply RegistryKept.
  - (* register_listener *)
    by apply RegistryKept.
  - (* lock_config *)
    rewrite lock_config_eq. by apply RegistryKept.
  - (* config_changed *)
    rewrite config_changed_eq. by apply RegistryKept.
  - (* session_closed *)
    step_m. by destruct (negb _); apply RegistryKept.
  - (* wait *)
    step_m. by destruct ttl; apply RegistryKept.
  - (* quit *)
    rewrite quit_eq. by apply RegistryKept.
Qed.

Lemma keys_preserved (o : op) (tc tc' : TaskComputer) :
  registry_effect o tc tc' →
  keys_are_subtask_ids tc → keys_are_subtask_ids tc'.
Proof.
  unfold keys_are_subtask_ids.
  intros [Ha Hm | s Ha Hm | d Ho Hnew Ha Hm | t s Hts Ha Hm] Hk s' d' Hl;
    rewrite Ha in Hl.
  - eauto.
  - apply lookup_delete_Some in Hl as [_ Hl]. eauto.
  - apply lookup_insert_Some in Hl as [[<- <-] | [_ Hl]]; eauto.
  - apply lookup_delete_Some in Hl as [_ Hl]. eauto.
Qed.

Lemma mapped_preserved (o : op) (tc tc' : TaskComputer) :
  registry_effect o tc tc' →
  match o with
  | OpTaskGiven ctd =>
      ∀ s d, assigned_subtasks tc !! s = Some d →
             task_id d = task_id ctd → s = subtask_id ctd
  | _ => True
  end →
  assigned_is_mapped tc → assigned_is_mapped tc'.
Proof.
  unfold assigned_is_mapped.
  intros [Ha Hm | s Ha Hm | d Ho Hnew Ha Hm | t s Hts Ha Hm] Hone Hk s' d' Hl;
    rewrite Ha in Hl; rewrite Hm.
  - eauto.
  - apply lookup_delete_Some in Hl as [_ Hl]. eauto.
  - subst o. apply lookup_insert_Some in Hl as [[<- <-] | [Hne Hl]].
    + apply lookup_insert_eq.
    + destruct (decide (task_id d = task_id d')) as [Heq|Hneq].
      * exfalso. apply Hne. symmetry. by apply (Hone s' d').
      * rewrite lookup_insert_ne by done. eauto.
  - apply lookup_delete_Some in Hl as [Hne Hl].
    rewrite lookup_delete_ne; [eauto|].
    intros Heq. apply Hk in Hl. congruence.
Qed.

Lemma exec_keys (ops : list (Env * op)) (tc : TaskComputer) :
  keys_are_subtask_ids tc → keys_are_subtask_ids (exec ops tc).
Proof.
  revert tc. induction ops as [|[env o] ops IH]; intros tc Hk; [done|].
  cbn [exec]. apply IH.
  by apply (keys_preserved o tc), Hk; apply call_registry_effect.
Qed.

Lemma exec_mapped (ops : list (Env * op)) (tc : TaskComputer) :
  one_subtask_per_task ops tc →
  assigned_is_mapped tc → assigned_is_mapped (exec ops tc).
Proof.
  revert tc. induction ops as [|[env o] ops IH]; intros tc Hone Hk; [done|].
  cbn [exec]. destruct Hone as [Ho Hone]. apply IH; [done|].
  apply (mapped_preserved o tc); [apply call_registry_effect| |done].
  by destruct o.
Qed.

Lemma init_registry_empty (env : Env) (name : string) (c : ConfigDesc)
    (use_dmm bn : bool) :
  assigned_subtasks (TaskComputer_init env name c use_dmm bn) = ∅.
Proof.
  unfold TaskComputer_init.
  match goal with
  | |- assigned_subtasks (state_of (change_config ?e ?c ?b ?r ?tc)) = _ =>
      destruct (call_registry_effect e (OpChangeConfig c b r) tc)
        as [Ha _ | s Ha _ | d Ho _ _ _ | t s Hts _ _]
  end.
  - cbn [call] in Ha. by rewrite Ha.
  - cbn [call] in Ha. rewrite Ha. cbn. apply delete_empty.
  - discriminate.
  - cbn in Hts. by rewrite lookup_empty in Hts.
Qed.

(** C1, as the claim has it, fails: after [task_given] of [s1] and
    [resource_request_rejected] of [s1], the task id [t1] is still a key
    of [task_to_subtask_mapping] while [s1] is no key of
    [assigned_subtasks]. *)
Lemma rejected_subtask_stays_mapped :
  task_to_subtask_mapping node_rejected !! "t1" = Some "s1"
  ∧ assigned_subtasks node_rejected !! "s1" = None
  ∧ ¬ registry_lockstep node_rejected.
Proof.
  split; [reflexivity|]. split; [reflexivity|].
  intros [_ Hback]. destruct (Hback "t1" "s1" eq_refl) as (d & Hd & _).
  vm_compute in Hd. discriminate.
Qed.

(** C1, amended: after every sequence of public operations each key of
    [assigned_subtasks] is the subtask id of its descriptor; and if no
    [task_given] of the sequence brings a second subtask of a task that
    has a subtask assigned at that moment, then every subtask id in
    [assigned_subtasks] has its task id as a key of
    [task_to_subtask_mapping], mapped to that subtask id.  The converse
    is not kept: [resource_request_rejected], [task_computed] and the
    refusal in the compute step pop [assigned_subtasks] only. *)
Theorem registry_forward_agreement (env : Env) (name : string)
    (c : ConfigDesc) (use_dmm bn : bool) (ops : list (Env * op)) :
  keys_are_subtask_ids (exec ops (TaskComputer_init env name c use_dmm bn))
  ∧ (one_subtask_per_task ops (TaskComputer_init env name c use_dmm bn) →
     assigned_is_mapped (exec ops (TaskComputer_init env name c use_dmm bn))).
Proof.
  split.
  - apply exec_keys. intros s d Hl.
    rewrite init_registry_empty in Hl. by rewrite lookup_empty in Hl.
  - intros Hone. apply exec_mapped; [done|]. intros s d Hl.
    rewrite init_registry_empty in Hl. by rewrite lookup_empty in Hl.
Qed.

Lemma registry_forward_agreement_witness :
  one_subtask_per_task two_subtasks node_fresh
  ∧ keys_are_subtask_ids (exec two_subtasks node_fresh)
  ∧ assigned_is_mapped (exec two_subtasks node_fresh)
  ∧ assigned_subtasks (exec two_subtasks node_fresh) !! "s2" = Some ctd_s2.
Proof.
  assert (Hone : one_subtask_per_task two_subtasks node_fresh).
  { cbn [two_subtasks life_of_s1 app one_subtask_per_task].
    repeat split; intros s d Hl; exfalso; revert Hl.
    - assert (E : assigned_subtasks node_fresh = ∅) by reflexivity.
      rewrite E, lookup_empty. discriminate.
    - match goal with
      | |- assigned_subtasks ?tc !! _ = _ → _ =>
          assert (E : assigned_subtasks tc = ∅) by (vm_compute; reflexivity);
          rewrite E, lookup_empty; discriminate
      end. }
  destruct (registry_forward_agreement sample_env "node" sample_config
              false false two_subtasks) as [Hkeys Hmapped].
  split; [exact Hone|]. split; [exact Hkeys|].
  split; [exact (Hmapped Hone) | reflexivity].
Defined.

(** * Further properties of the methods *)

(** ** The tick and the task request *)

Lemma request_task_guarded (env : Env) (tc : TaskComputer) :
  handle_truthy (waiting_for_task tc) = true
  ∨ flag_truthy (counting_task tc) = true →
  __request_task env tc = (Returned tt, tc, []).
Proof.
  intros H. unfold __request_task. step_m.
  destruct H as [-> | ->]; cbn; [reflexivity|].
  by rewrite andb_false_r.
Qed.

Lemma request_task_performs (env : Env) (tc : TaskComputer) :
  handle_truthy (waiting_for_task tc) = false →
  flag_truthy (counting_task tc) = false →
  trace_of (__request_task env tc) = [EvRequestTask]
  ∧ value_of (__request_task env tc) = Returned tt.
Proof.
  intros Hw Hc. unfold __request_task. step_m. rewrite Hw, Hc. cbn.
  by destruct (request_task_answer env).
Qed.

(** X1: the tick calls [request_task] on the task server exactly when no task
    is counted, [compute_tasks] and [runnable] hold, no request is in
    flight, more than [task_request_frequency] has passed since the last
    request and no computation is listed. *)
Theorem run_requests_exactly_when_idle (env : Env) (tc : TaskComputer) :
  EvRequestTask ∈ trace_of (run env tc) ↔ tick_requests env tc.
Proof.
  unfold tick_requests. split.
  - intros Hin.
    destruct (flag_truthy (counting_task tc)) eqn:Hc.
    { rewrite run_counting in Hin by done. cbn in Hin.
      apply list_elem_of_In, in_map_iff in Hin as (x & Hx & _).
      discriminate. }
    destruct (compute_tasks tc && runnable tc) eqn:Hg.
    2:{ rewrite run_gated in Hin by done. by apply elem_of_nil in Hin. }
    apply andb_true_iff in Hg as [Hct Hr].
    destruct (handle_truthy (waiting_for_task tc)) eqn:Hw.
    { rewrite run_waiting in Hin; [|done|by rewrite Hct, Hr|done].
      by apply elem_of_nil in Hin. }
    rewrite run_idle in Hin; [|done|by rewrite Hct, Hr|done].
    destruct (_ <? _) eqn:Hf.
    2:{ by apply elem_of_nil in Hin. }
    destruct (_ =? _)%nat eqn:Hl.
    2:{ by apply elem_of_nil in Hin. }
    repeat split; try done.
    + by apply Z.ltb_lt.
    + apply Nat.eqb_eq in Hl. by destruct (current_computations tc).
  - intros (Hc & Hct & Hr & Hw & Hf & Hl).
    rewrite run_idle; [|done|by rewrite Hct, Hr|done].
    apply Z.ltb_lt in Hf. rewrite Hf, Hl. cbn.
    destruct (request_task_performs env tc Hw Hc) as [-> _].
    apply list_elem_of_here.
Qed.

(** X2: a tick that requests a task stores the answer in [waiting_for_task],
    arms the time-to-live with the session time-out, stamps both clocks
    with the time of the request and counts the request in
    [tasks_requested] unless the answer is [None]; each of the other
    three counters, the registry, the list of computations and
    [counting_task] stay as they are. *)
Theorem run_request_bookkeeping (env : Env) (tc : TaskComputer) :
  tick_requests env tc →
  let tc' := state_of (run env tc) in
  trace_of (run env tc) = [EvRequestTask]
  ∧ waiting_for_task tc' = request_task_answer env
  ∧ use_waiting_ttl tc' = true
  ∧ waiting_ttl tc' = waiting_for_task_session_timeout tc
  ∧ last_checking tc' = time_time2 env
  ∧ last_task_request tc' = time_time2 env
  ∧ tasks_requested (stats tc')
    = match request_task_answer env with
      | Some _ => tasks_requested (stats tc) + 1
      | None => tasks_requested (stats tc)
      end
  ∧ computed_tasks (stats tc') = computed_tasks (stats tc)
  ∧ tasks_with_timeout (stats tc') = tasks_with_timeout (stats tc)
  ∧ tasks_with_errors (stats tc') = tasks_with_errors (stats tc)
  ∧ assigned_subtasks tc' = assigned_subtasks tc
  ∧ task_to_subtask_mapping tc' = task_to_subtask_mapping tc
  ∧ current_computations tc' = current_computations tc
  ∧ counting_task tc' = counting_task tc.
Proof.
  intros (Hc & Hct & Hr & Hw & Hf & Hl) tc'. subst tc'.
  rewrite run_idle; [|done|by rewrite Hct, Hr|done].
  apply Z.ltb_lt in Hf. rewrite Hf, Hl. cbn [length Nat.eqb].
  unfold __request_task. step_m. rewrite Hw, Hc. cbn.
  destruct (request_task_answer env); cbn; rewrite ?Hl; repeat split;
    reflexivity.
Qed.

Lemma run_request_bookkeeping_witness :
  tick_requests (at_time 100 sample_env) node_fresh
  ∧ trace_of (run (at_time 100 sample_env) node_fresh) = [EvRequestTask]
  ∧ waiting_for_task (state_of (run (at_time 100 sample_env) node_fresh))
    = Some "h1"
  ∧ tasks_requested
      (stats (state_of (run (at_time 100 sample_env) node_fresh))) = 1.
Proof.
  assert (H : tick_requests (at_time 100 sample_env) node_fresh)
    by (repeat split; reflexivity).
  split; [exact H|].
  destruct (run_request_bookkeeping (at_time 100 sample_env) node_fresh H)
    as (Htr & Hw & _ & _ & _ & _ & Hn & _).
  split; [exact Htr|]. split; [exact Hw | exact Hn].
Defined.

(** ** Completions that come late or twice *)

Lemma task_computed_unassigns (env : Env) (w : TaskThread) (tc : TaskComputer) :
  assigned_subtasks (state_of (task_computed env w tc)) !! tt_subtask_id w
  = None.
Proof.
  destruct (assigned_subtasks tc !! tt_subtask_id w) as [d|] eqn:Ha.
  - destruct (task_headers env !! task_id d) as [h|] eqn:Hh.
    + rewrite (task_computed_dispatch env w tc d h Ha Hh). cbn.
      apply lookup_delete_eq.
    + rewrite (task_computed_no_header env w tc d Ha Hh). cbn.
      apply lookup_delete_eq.
  - by rewrite (task_computed_unregistered env w tc Ha).
Qed.

(** X3: a completion for a subtask id that is not assigned makes no call,
    counts nothing and leaves registry, wait state and [counting_task]
    alone; it only takes the worker off [current_computations]. *)
Theorem task_computed_stale_completion (env : Env) (w : TaskThread)
    (tc : TaskComputer) :
  assigned_subtasks tc !! tt_subtask_id w = None →
  task_computed env w tc
  = (Returned tt,
     set_current_computations
       (remove_thread (tt_ref w) (current_computations tc)) tc,
     []).
Proof.
  intros Ha. by rewrite (task_computed_unregistered env w tc Ha).
Qed.

Lemma task_computed_stale_completion_witness :
  task_computed sample_env worker_done node_fresh
  = (Returned tt,
     set_current_computations
       (remove_thread (tt_ref worker_done) (current_computations node_fresh))
       node_fresh,
     []).
Proof.
  apply (task_computed_stale_completion sample_env worker_done node_fresh).
  reflexivity.
Defined.

(** X4: no outcome is reported twice: once [task_computed] ran for a
    worker, a second completion for the same subtask id, from any
    worker object in any world, calls nothing, counts nothing and does
    not touch [counting_task]. *)
Theorem task_computed_reports_once (env env' : Env) (w w' : TaskThread)
    (tc : TaskComputer) :
  tt_subtask_id w' = tt_subtask_id w →
  let tc1 := state_of (task_computed env w tc) in
  trace_of (task_computed env' w' tc1) = []
  ∧ stats (state_of (task_computed env' w' tc1)) = stats tc1
  ∧ counting_task (state_of (task_computed env' w' tc1)) = counting_task tc1
  ∧ assigned_subtasks (state_of (task_computed env' w' tc1))
    = assigned_subtasks tc1.
Proof.
  intros Hsame tc1.
  assert (Ha : assigned_subtasks tc1 !! tt_subtask_id w' = None).
  { rewrite Hsame. apply task_computed_unassigns. }
  by rewrite (task_computed_unregistered env' w' tc1 Ha).
Qed.

Lemma task_computed_reports_once_witness :
  let tc1 := state_of (task_computed sample_env worker_done node_computing) in
  trace_of (task_computed sample_env worker_timed_out tc1) = []
  ∧ stats (state_of (task_computed sample_env worker_timed_out tc1))
    = stats tc1
  ∧ counting_task (state_of (task_computed sample_env worker_timed_out tc1))
    = counting_task tc1
  ∧ assigned_subtasks (state_of (task_computed sample_env worker_timed_out tc1))
    = assigned_subtasks tc1.
Proof.
  apply (task_computed_reports_once sample_env sample_env worker_done
           worker_timed_out node_computing).
  reflexivity.
Defined.

(** ** What the resource callbacks answer *)

Lemma compute_task_value (env : Env) (s : string) (images : list string)
    (src extra sd : string) (dl : Z) (tc : TaskComputer) (d : ComputeTaskDef) :
  assigned_subtasks tc !! s = Some d →
  value_of (__compute_task env s images src extra sd dl tc)
  = match task_headers env !! task_id d with
    | Some _ => Returned tt
    | None => Raised KeyError
    end.
Proof.
  intros Ha. destruct (task_headers env !! task_id d) as [h|] eqn:Hh.
  2:{ by rewrite (compute_task_no_header _ _ _ _ _ _ _ _ d). }
  destruct images as [|i images].
  - destruct (support_direct_computation tc) eqn:Hs.
    + by rewrite (compute_task_spawns _ _ _ _ _ _ _ _ d h Ha Hh
                    (or_intror Hs)).
    + by rewrite (compute_task_refuses _ _ _ _ _ _ _ d h Ha Hh Hs).
  - assert (Hne : i :: images ≠ []) by done.
    by rewrite (compute_task_spawns _ _ _ _ _ _ _ _ d h Ha Hh (or_introl Hne)).
Qed.

Lemma task_resource_collected_value (env : Env) (task s : string) (u : bool)
    (tc : TaskComputer) (d : ComputeTaskDef) :
  task_to_subtask_mapping tc !! task = Some s →
  assigned_subtasks tc !! s = Some d →
  value_of (task_resource_collected env task u tc)
  = match value_of (compute_step env s d (collected_pre env tc)) with
    | Returned _ => Returned (Some true)
    | Raised e => Raised e
    end.
Proof.
  intros Hm Ha.
  unfold task_resource_collected, collected_pre, compute_step.
  step_m. rewrite Hm. cbn. rewrite Ha. cbn.
  destruct u; cbn;
    by destruct (__compute_task env s (docker_images d) (src_code d)
                   (extra_data d) (short_description d) (deadline d) _)
      as [[[a|e] tc1] t1].
Qed.

Lemma resource_given_value (env : Env) (task s : string)
    (tc : TaskComputer) (d : ComputeTaskDef) :
  task_to_subtask_mapping tc !! task = Some s →
  assigned_subtasks tc !! s = Some d →
  value_of (resource_given env task tc)
  = match value_of (compute_step env s d tc) with
    | Returned _ => Returned (Some true)
    | Raised e => Raised e
    end.
Proof.
  intros Hm Ha. unfold resource_given, compute_step.
  step_m. rewrite Hm. cbn. rewrite Ha. cbn.
  by destruct (__compute_task env s (docker_images d) (src_code d)
                 (extra_data d) (short_description d) (deadline d) tc)
    as [[[a|e] tc1] t1].
Qed.

(** X5: [task_resource_collected] and [resource_given] answer alike:
    [None] for a task id that is not mapped, [False] when the mapped
    subtask is no longer assigned, [True] when the compute step ran; and
    they raise [KeyError] when the subtask is assigned but the task
    keeper has no header of its task. *)
Theorem resource_callbacks_answer (env : Env) (task : string) (u : bool)
    (tc : TaskComputer) :
  value_of (task_resource_collected env task u tc)
  = callback_answer env task tc
  ∧ value_of (resource_given env task tc) = callback_answer env task tc.
Proof.
  unfold callback_answer.
  destruct (task_to_subtask_mapping tc !! task) as [s|] eqn:Hm.
  2:{ by rewrite task_resource_collected_unmapped, resource_given_unmapped. }
  destruct (assigned_subtasks tc !! s) as [d|] eqn:Ha.
  2:{ by rewrite (task_resource_collected_stale env task s),
               (resource_given_stale env task s). }
  rewrite (task_resource_collected_value env task s u tc d Hm Ha).
  rewrite (resource_given_value env task s tc d Hm Ha).
  unfold compute_step.
  rewrite (compute_task_value env s _ _ _ _ _ (collected_pre env tc) d Ha).
  rewrite (compute_task_value env s _ _ _ _ _ tc d Ha).
  by destruct (task_headers env !! task_id d).
Qed.

(** X6: when the header is missing, [task_resource_collected] has
    already unpacked and dropped the delta and stamped
    [last_task_timeout_checking] when it raises, and nothing else
    changed; [resource_given] raises with the state untouched. *)
Theorem resource_callbacks_raise_midway (env : Env) (task s : string)
    (u : bool) (tc : TaskComputer) (d : ComputeTaskDef) :
  task_to_subtask_mapping tc !! task = Some s →
  assigned_subtasks tc !! s = Some d →
  task_headers env !! task_id d = None →
  task_resource_collected env task u tc
  = (Raised KeyError,
     set_last_task_timeout_checking (Some (time_time env))
       (set_delta None tc),
     if u then [EvUnpackDelta (get_task_resource_dir env task) (delta tc) task]
     else [])
  ∧ resource_given env task tc = (Raised KeyError, tc, []).
Proof.
  intros Hm Ha Hh. split.
  - unfold task_resource_collected. step_m. rewrite Hm. cbn. rewrite Ha. cbn.
    destruct u; cbn;
      rewrite (compute_task_no_header env s _ _ _ _ _ _ d) by done;
      reflexivity.
  - unfold resource_given. step_m. rewrite Hm. cbn. rewrite Ha. cbn.
    rewrite (compute_task_no_header env s _ _ _ _ _ _ d) by done.
    reflexivity.
Qed.

Lemma resource_callbacks_raise_midway_witness :
  task_resource_collected env_no_header "t1" true node_given
  = (Raised KeyError,
     set_last_task_timeout_checking (Some 20) (set_delta None node_given),
     [EvUnpackDelta "res" (delta node_given) "t1"])
  ∧ resource_given env_no_header "t1" node_given
    = (Raised KeyError, node_given, []).
Proof.
  apply (resource_callbacks_raise_midway env_no_header "t1" "s1" true
           node_given ctd_s1); reflexivity.
Defined.

(** ** From waiting for resources to computing *)

Lemma compute_task_keeps_delta (env : Env) (s : string) (images : list string)
    (src extra sd : string) (dl : Z) (tc : TaskComputer) :
  delta (state_of (__compute_task env s images src extra sd dl tc)) = delta tc.
Proof.
  destruct (assigned_subtasks tc !! s) as [d|] eqn:Ha.
  2:{ by rewrite compute_task_unassigned. }
  destruct (task_headers env !! task_id d) as [h|] eqn:Hh.
  2:{ by rewrite (compute_task_no_header _ _ _ _ _ _ _ _ d). }
  destruct images as [|i images].
  - destruct (support_direct_computation tc) eqn:Hs.
    + by rewrite (compute_task_spawns _ _ _ _ _ _ _ _ d h Ha Hh
                    (or_intror Hs)).
    + by rewrite (compute_task_refuses _ _ _ _ _ _ _ d h Ha Hh Hs).
  - assert (Hne : i :: images ≠ []) by done.
    by rewrite (compute_task_spawns _ _ _ _ _ _ _ _ d h Ha Hh (or_introl Hne)).
Qed.

Lemma compute_task_frame (env : Env) (s : string) (images : list string)
    (src extra sd : string) (dl : Z) (tc : TaskComputer) :
  same_constants tc (state_of (__compute_task env s images src extra sd dl tc))
  ∧ same_configuration tc
      (state_of (__compute_task env s images src extra sd dl tc))
  ∧ listeners (state_of (__compute_task env s images src extra sd dl tc))
    = listeners tc.
Proof.
  unfold same_constants, same_configuration.
  destruct (assigned_subtasks tc !! s) as [d|] eqn:Ha.
  2:{ by rewrite compute_task_unassigned. }
  destruct (task_headers env !! task_id d) as [h|] eqn:Hh.
  2:{ by rewrite (compute_task_no_header _ _ _ _ _ _ _ _ d). }
  destruct images as [|i images].
  - assert (Hcase : support_direct_computation tc = true
                    ∨ support_direct_computation tc = false)
      by (destruct (support_direct_computation tc); auto).
    destruct Hcase as [Hs|Hs].
    + by rewrite (compute_task_spawns _ _ _ _ _ _ _ _ d h Ha Hh
                    (or_intror Hs)).
    + by rewrite (compute_task_refuses _ _ _ _ _ _ _ d h Ha Hh Hs).
  - assert (Hne : i :: images ≠ []) by done.
    by rewrite (compute_task_spawns _ _ _ _ _ _ _ _ d h Ha Hh (or_introl Hne)).
Qed.

Lemma compute_step_outcome (env : Env) (s : string) (d : ComputeTaskDef)
    (h : TaskHeader) (tc : TaskComputer) :
  assigned_subtasks tc !! s = Some d →
  task_headers env !! task_id d = Some h →
  let tc' := state_of (compute_step env s d tc) in
  waiting_for_task tc' = None ∧ waiting_ttl tc' = 0
  ∧ use_waiting_ttl tc' = false ∧ task_requested tc' = false
  ∧ counting_task tc'
    = (if can_spawn d tc then PyStr (task_id d) else PyNone)
  ∧ current_computations tc'
    = (if can_spawn d tc
       then current_computations tc
            ++ [worker_for env s (docker_images d) d h (src_code d)
                  (extra_data d) (short_description d) (deadline d)]
       else current_computations tc)
  ∧ assigned_subtasks tc'
    = (if can_spawn d tc then assigned_subtasks tc
       else delete s (assigned_subtasks tc)).
Proof.
  intros Ha Hh tc'. subst tc'. unfold compute_step, can_spawn.
  destruct (docker_images d) as [|i images] eqn:Himg.
  - destruct (support_direct_computation tc) eqn:Hs.
    + by rewrite (compute_task_spawns _ _ _ _ _ _ _ _ d h Ha Hh
                    (or_intror Hs)).
    + by rewrite (compute_task_refuses _ _ _ _ _ _ _ d h Ha Hh Hs).
  - assert (Hne : i :: images ≠ []) by done.
    by rewrite (compute_task_spawns _ _ _ _ _ _ _ _ d h Ha Hh (or_introl Hne)).
Qed.

(** X7: when [task_resource_collected] or [resource_given] runs the
    compute step for an assigned subtask whose task has a header, the
    wait state is cleared ([waiting_for_task] is [None], the
    time-to-live is 0 and switched off), and [counting_task] is the
    task id of the descriptor if a worker was started and [None] if the
    subtask was refused. *)
Theorem compute_step_ends_the_wait (env : Env) (task s : string) (u : bool)
    (tc : TaskComputer) (d : ComputeTaskDef) (h : TaskHeader) :
  task_to_subtask_mapping tc !! task = Some s →
  assigned_subtasks tc !! s = Some d →
  task_headers env !! task_id d = Some h →
  (wait_cleared (state_of (task_resource_collected env task u tc))
   ∧ counting_task (state_of (task_resource_collected env task u tc))
     = if can_spawn d tc then PyStr (task_id d) else PyNone)
  ∧ (wait_cleared (state_of (resource_given env task tc))
     ∧ counting_task (state_of (resource_given env task tc))
       = if can_spawn d tc then PyStr (task_id d) else PyNone).
Proof.
  intros Hm Ha Hh. unfold wait_cleared. split.
  - destruct (task_resource_collected_computes env task s u tc d Hm Ha)
      as [-> _].
    destruct (compute_step_outcome env s d h (collected_pre env tc) Ha Hh)
      as (H1 & H2 & H3 & H4 & H5 & _).
    by rewrite H1, H2, H3, H4, H5.
  - destruct (resource_given_computes env task s tc d Hm Ha) as [-> _].
    unfold compute_step.
    rewrite (compute_task_value env s _ _ _ _ _ tc d Ha), Hh.
    destruct (compute_step_outcome env s d h tc Ha Hh)
      as (H1 & H2 & H3 & H4 & H5 & _).
    unfold compute_step in *. cbn. by rewrite H2, H3, H4, H5.
Qed.

Lemma compute_step_ends_the_wait_witness :
  wait_cleared (state_of (task_resource_collected sample_env "t1" true
                            node_given))
  ∧ counting_task (state_of (task_resource_collected sample_env "t1" true
                               node_given)) = PyStr "t1".
Proof.
  destruct (compute_step_ends_the_wait sample_env "t1" "s1" true node_given
              ctd_s1 sample_header eq_refl eq_refl eq_refl) as [H _].
  exact H.
Defined.

(** X8: the delta recorded by [wait_for_resources] for an assigned
    subtask is the one [task_resource_collected] hands to
    [unpack_delta], as the first thing it does, and it is dropped
    afterwards whether the compute step succeeds or raises. *)
Theorem recorded_delta_is_unpacked (env : Env) (task s dl : string)
    (tc : TaskComputer) (d : ComputeTaskDef) :
  task_to_subtask_mapping tc !! task = Some s →
  assigned_subtasks tc !! s = Some d →
  let tc1 := state_of (wait_for_resources task dl tc) in
  delta tc1 = Some dl
  ∧ head (trace_of (task_resource_collected env task true tc1))
    = Some (EvUnpackDelta (get_task_resource_dir env task) (Some dl) task)
  ∧ delta (state_of (task_resource_collected env task true tc1)) = None.
Proof.
  intros Hm Ha tc1.
  assert (Htc1 : tc1 = set_delta (Some dl) tc).
  { subst tc1. unfold wait_for_resources. step_m. rewrite Hm. cbn.
    by rewrite Ha. }
  rewrite Htc1. split; [reflexivity|].
  destruct (task_resource_collected_computes env task s true
              (set_delta (Some dl) tc) d Hm Ha) as [-> ->].
  split; [reflexivity|].
  unfold compute_step. by rewrite compute_task_keeps_delta.
Qed.

Lemma recorded_delta_is_unpacked_witness :
  let tc1 := state_of (wait_for_resources "t1" "D" node_given) in
  delta tc1 = Some "D"
  ∧ head (trace_of (task_resource_collected sample_env "t1" true tc1))
    = Some (EvUnpackDelta "res" (Some "D") "t1")
  ∧ delta (state_of (task_resource_collected sample_env "t1" true tc1))
    = None.
Proof.
  apply (recorded_delta_is_unpacked sample_env "t1" "s1" "D" node_given
           ctd_s1); reflexivity.
Defined.

(** X9: nothing stops a second [task_resource_collected] for the same
    task: the subtask stays assigned while its worker runs, so each call
    makes and starts another worker, and [current_computations] grows
    by one per call. *)
Theorem task_resource_collected_spawns_again (env env' : Env)
    (task s : string) (u u' : bool) (tc : TaskComputer)
    (d : ComputeTaskDef) (h h' : TaskHeader) :
  task_to_subtask_mapping tc !! task = Some s →
  assigned_subtasks tc !! s = Some d →
  task_headers env !! task_id d = Some h →
  task_headers env' !! task_id d = Some h' →
  can_spawn d tc = true →
  let tc1 := state_of (task_resource_collected env task u tc) in
  let tc2 := state_of (task_resource_collected env' task u' tc1) in
  assigned_subtasks tc2 !! s = Some d
  ∧ current_computations tc2
    = current_computations tc
      ++ [worker_for env s (docker_images d) d h (src_code d)
            (extra_data d) (short_description d) (deadline d);
          worker_for env' s (docker_images d) d h' (src_code d)
            (extra_data d) (short_description d) (deadline d)].
Proof.
  intros Hm Ha Hh Hh' Hcan tc1 tc2.
  destruct (task_resource_collected_computes env task s u tc d Hm Ha)
    as [Hst1 _].
  destruct (compute_step_outcome env s d h (collected_pre env tc) Ha Hh)
    as (_ & _ & _ & _ & _ & Hcc1 & Has1).
  unfold can_spawn in Hcc1, Has1, Hcan. cbn in Hcc1, Has1.
  rewrite Hcan in Hcc1, Has1.
  assert (Hm1 : task_to_subtask_mapping tc1 !! task = Some s).
  { subst tc1. rewrite Hst1. unfold compute_step.
    destruct (compute_task_registry env s (docker_images d) (src_code d)
                (extra_data d) (short_description d) (deadline d)
                (collected_pre env tc)) as [_ ->].
    exact Hm. }
  assert (Ha1 : assigned_subtasks tc1 !! s = Some d).
  { subst tc1. by rewrite Hst1, Has1. }
  destruct (task_resource_collected_computes env' task s u' tc1 d Hm1 Ha1)
    as [Hst2 _].
  destruct (compute_step_outcome env' s d h' (collected_pre env' tc1) Ha1 Hh')
    as (_ & _ & _ & _ & _ & Hcc2 & Has2).
  unfold can_spawn in Hcc2, Has2. cbn in Hcc2, Has2.
  assert (Hs1 : can_spawn d tc1 = can_spawn d tc).
  { unfold can_spawn. subst tc1. rewrite Hst1. unfold compute_step.
    by destruct (compute_task_frame env s (docker_images d) (src_code d)
                   (extra_data d) (short_description d) (deadline d)
                   (collected_pre env tc)) as [(_ & -> & _) _]. }
  unfold can_spawn in Hs1. cbn in Hs1. rewrite Hs1, Hcan in Hcc2, Has2.
  subst tc2. rewrite Hst2, Hcc2, Has2. split; [exact Ha1|].
  subst tc1. rewrite Hst1, Hcc1. by rewrite <- app_assoc.
Qed.

Lemma task_resource_collected_spawns_again_witness :
  let tc1 := state_of (task_resource_collected sample_env "t1" true
                         node_given) in
  let tc2 := state_of (task_resource_collected (at_time 12 sample_env) "t1"
                         true tc1) in
  assigned_subtasks tc2 !! "s1" = Some ctd_s1
  ∧ length (current_computations tc2) = 2%nat.
Proof.
  destruct (task_resource_collected_spawns_again sample_env
              (at_time 12 sample_env) "t1" "s1" true true node_given ctd_s1
              sample_header sample_header eq_refl eq_refl eq_refl eq_refl
              eq_refl) as [Ha Hcc].
  split; [exact Ha|]. rewrite Hcc. reflexivity.
Defined.

(** ** Failures and rejections *)

(** X10: [task_resource_failure] for a mapped task id takes the task id
    out of [task_to_subtask_mapping] and the subtask out of
    [assigned_subtasks]; if the subtask was assigned it sends exactly
    one [send_task_failed], to the reply address of that descriptor,
    with the reason prefixed by "Error downloading resources: "; it
    counts nothing, and it resets the wait state unless a task is being
    counted. *)
Theorem task_resource_failure_reports (task reason s : string)
    (tc : TaskComputer) :
  task_to_subtask_mapping tc !! task = Some s →
  let r := task_resource_failure task reason tc in
  value_of r = Returned tt
  ∧ task_to_subtask_mapping (state_of r)
    = delete task (task_to_subtask_mapping tc)
  ∧ assigned_subtasks (state_of r) = delete s (assigned_subtasks tc)
  ∧ trace_of r
    = match assigned_subtasks tc !! s with
      | Some d =>
          [EvSendTaskFailed s (task_id d)
             ("Error downloading resources: " +:+ reason)
             (return_address d) (return_port d) (key_id d) (task_owner d)
             (node_name tc)]
      | None => []
      end
  ∧ stats (state_of r) = stats tc
  ∧ (if flag_truthy (counting_task tc)
     then counting_task (state_of r) = counting_task tc
          ∧ waiting_for_task (state_of r) = waiting_for_task tc
          ∧ waiting_ttl (state_of r) = waiting_ttl tc
     else counting_task (state_of r) = PyFalse
          ∧ waiting_for_task (state_of r) = None
          ∧ waiting_ttl (state_of r) = 0).
Proof.
  intros Hm r. subst r. unfold task_resource_failure. step_m.
  rewrite Hm. cbn.
  destruct (assigned_subtasks tc !! s) as [d|] eqn:Ha; cbn.
  - rewrite Ha. cbn.
    destruct (flag_truthy (counting_task tc)); cbn; repeat split; reflexivity.
  - destruct (flag_truthy (counting_task tc)); cbn; repeat split;
      try reflexivity; symmetry; by apply delete_id.
Qed.

Lemma task_resource_failure_reports_witness :
  trace_of (task_resource_failure "t1" "peer gone" node_given)
  = [EvSendTaskFailed "s1" "t1" "Error downloading resources: peer gone"
       "10.0.0.1" 40102 "key" "owner" "node"]
  ∧ assigned_subtasks (state_of (task_resource_failure "t1" "peer gone"
                                   node_given))
    = delete "s1" (assigned_subtasks node_given).
Proof.
  destruct (task_resource_failure_reports "t1" "peer gone" "s1" node_given
              eq_refl) as (_ & _ & Ha & Htr & _).
  split; [exact Htr | exact Ha].
Defined.

(** X11: [resource_request_rejected] is idempotent; it never calls the
    task server, it leaves [task_to_subtask_mapping] and the counters
    alone, and it resets unconditionally: [counting_task] is [False]
    afterwards even if a task was being counted. *)
Theorem resource_request_rejected_idempotent (subtask reason reason' : string)
    (tc : TaskComputer) :
  let r := resource_request_rejected subtask reason tc in
  state_of (resource_request_rejected subtask reason' (state_of r))
  = state_of r
  ∧ trace_of r = []
  ∧ counting_task (state_of r) = PyFalse
  ∧ assigned_subtasks (state_of r) = delete subtask (assigned_subtasks tc)
  ∧ task_to_subtask_mapping (state_of r) = task_to_subtask_mapping tc
  ∧ stats (state_of r) = stats tc
  ∧ current_computations (state_of r) = current_computations tc.
Proof.
  intros r. subst r. unfold resource_request_rejected. step_m. cbn.
  rewrite delete_delete_eq. repeat split; reflexivity.
Qed.

(** ** Waiting for resources with a time-to-live *)

Lemma task_given_accepts (env : Env) (d : ComputeTaskDef) (tc : TaskComputer) :
  assigned_subtasks tc !! subtask_id d = None →
  task_given env d tc
  = (Returned true, accepted env d tc,
     [EvRequestResource (task_id d) (get_resource_header env (task_id d))
        (return_address d) (return_port d) (key_id d) (task_owner d)]).
Proof.
  intros Ha. unfold task_given, accepted. step_m. rewrite Ha. cbn.
  reflexivity.
Qed.

(** X12: a subtask accepted by [task_given] at time [t0] on a node that
    counts no task and has [compute_tasks] and [runnable] set waits
    with [waiting_for_task_timeout] to live.  A tick at time [t1] with
    [t1 - t0] above the time-out resets the wait state, calls nothing,
    and leaves the subtask in both registry maps; a tick within the
    time-out keeps the wait, with the elapsed time taken off the
    time-to-live. *)
Theorem accepted_subtask_outlives_its_wait (env env' : Env)
    (d : ComputeTaskDef) (tc : TaskComputer) :
  assigned_subtasks tc !! subtask_id d = None →
  flag_truthy (counting_task tc) = false →
  compute_tasks tc = true → runnable tc = true →
  handle_truthy (request_resource_answer env) = true →
  let tc1 := state_of (task_given env d tc) in
  let left := waiting_for_task_timeout tc - (time_time env' - time_time env) in
  let tc2 := state_of (run env' tc1) in
  trace_of (run env' tc1) = []
  ∧ assigned_subtasks tc2 !! subtask_id d = Some d
  ∧ task_to_subtask_mapping tc2 !! task_id d = Some (subtask_id d)
  ∧ (if left <? 0
     then waiting_for_task tc2 = None ∧ waiting_ttl tc2 = 0
          ∧ use_waiting_ttl tc2 = false
     else waiting_for_task tc2 = request_resource_answer env
          ∧ waiting_ttl tc2 = left ∧ use_waiting_ttl tc2 = true).
Proof.
  intros Ha Hc Hct Hr Hans tc1 left tc2. subst tc1 tc2 left.
  rewrite (task_given_accepts env d tc Ha). cbn [state_of fst snd].
  rewrite (run_waiting env' (accepted env d tc)); cycle 1.
  { exact Hc. } { cbn. by rewrite Hct, Hr. } { exact Hans. }
  unfold accepted, after_reset, ticked, ttl_after. step_m. cbn.
  split; [reflexivity|].
  destruct (_ <? 0); cbn; rewrite !lookup_insert_eq; repeat split; reflexivity.
Qed.

Lemma accepted_subtask_outlives_its_wait_witness :
  let tc1 := state_of (task_given sample_env ctd_s1 node_fresh) in
  let tc2 := state_of (run (at_time 100 sample_env) tc1) in
  trace_of (run (at_time 100 sample_env) tc1) = []
  ∧ assigned_subtasks tc2 !! "s1" = Some ctd_s1
  ∧ task_to_subtask_mapping tc2 !! "t1" = Some "s1"
  ∧ waiting_for_task tc2 = None ∧ waiting_ttl tc2 = 0
  ∧ use_waiting_ttl tc2 = false.
Proof.
  exact (accepted_subtask_outlives_its_wait sample_env (at_time 100 sample_env)
           ctd_s1 node_fresh eq_refl eq_refl eq_refl eq_refl eq_refl).
Defined.

(** ** What every call leaves alone *)

Lemma count_events_app (p : event → bool) (t1 t2 : list event) :
  count_events p (t1 ++ t2) = (count_events p t1 + count_events p t2)%nat.
Proof. unfold count_events. by rewrite filter_app, length_app. Qed.

Lemma count_events_map_none {A} (p : event → bool) (f : A → event)
    (l : list A) :
  (∀ x, p (f x) = false) → count_events p (map f l) = 0%nat.
Proof.
  intros Hf. unfold count_events. induction l as [|x l IH]; [done|].
  cbn [map]. rewrite filter_cons_False; [exact IH|].
  rewrite Hf. discriminate.
Qed.

Lemma make_temp_dir_counts (p : event → bool) (env : Env) (task : string) :
  (∀ path, p (EvMakeDirs path) = false) →
  count_events p (make_temp_dir env task) = 0%nat.
Proof.
  intros Hp. unfold make_temp_dir, count_events.
  destruct (os_path_exists env _); [done|].
  rewrite filter_cons_False; [done|]. rewrite Hp. discriminate.
Qed.

Lemma count_events_nil (p : event → bool) : count_events p [] = 0%nat.
Proof. reflexivity. Qed.

Lemma count_events_cons (p : event → bool) (e : event) (tr : list event) :
  count_events p (e :: tr)
  = if p e then S (count_events p tr) else count_events p tr.
Proof.
  unfold count_events. destruct (p e) eqn:Hp.
  - by rewrite filter_cons_True.
  - rewrite filter_cons_False; [done|]. by rewrite Hp.
Qed.

Ltac framed :=
  unfold call_framed, same_constants, same_configuration, stats_accounted,
    stats_le, outcome_total;
  cbn [state_of trace_of value_of fst snd];
  rewrite ?count_events_cons, ?count_events_nil;
  cbn; repeat split;
  repeat (case_decide; try discriminate); cbn;
  try reflexivity; try lia;
  try (intros Hcfg;
       first [discriminate Hcfg | clear Hcfg; repeat split; reflexivity]).

Lemma compute_task_accounted (env : Env) (s : string) (images : list string)
    (src extra sd : string) (dl : Z) (tc : TaskComputer) :
  stats (state_of (__compute_task env s images src extra sd dl tc)) = stats tc
  ∧ count_events is_monitor
      (trace_of (__compute_task env s images src extra sd dl tc)) = 0%nat
  ∧ count_events is_send_results
      (trace_of (__compute_task env s images src extra sd dl tc)) = 0%nat.
Proof.
  destruct (assigned_subtasks tc !! s) as [d|] eqn:Ha.
  2:{ by rewrite compute_task_unassigned. }
  destruct (task_headers env !! task_id d) as [h|] eqn:Hh.
  2:{ by rewrite (compute_task_no_header _ _ _ _ _ _ _ _ d). }
  assert (Hcase : (images ≠ [] ∨ support_direct_computation tc = true)
                  ∨ (images = [] ∧ support_direct_computation tc = false)).
  { destruct images; [|left; left; done].
    destruct (support_direct_computation tc); [left|right]; auto. }
  destruct Hcase as [Hrun|[-> Hno]].
  - rewrite (compute_task_spawns _ _ _ _ _ _ _ _ d h Ha Hh Hrun).
    cbn [state_of trace_of fst snd]. rewrite !count_events_app.
    rewrite !make_temp_dir_counts by done. by split.
  - rewrite (compute_task_refuses _ _ _ _ _ _ _ d h Ha Hh Hno).
    cbn [state_of trace_of fst snd]. rewrite !count_events_app.
    rewrite !make_temp_dir_counts by done. by split.
Qed.

Lemma request_task_framed (env : Env) (tc : TaskComputer) :
  call_framed OpRun tc (state_of (__request_task env tc))
    (trace_of (__request_task env tc)).
Proof.
  unfold __request_task. step_m. cbn.
  destruct (negb _ && negb _); cbn; [|framed].
  destruct (request_task_answer env); framed.
Qed.

Lemma call_frame (env : Env) (o : op) (tc : TaskComputer) :
  call_framed o tc (state_of (call env o tc)) (trace_of (call env o tc)).
Proof.
  destruct o; cbn [call].
  - (* task_given *)
    rewrite discard_state, discard_trace.
    destruct (assigned_subtasks tc !! subtask_id ctd) as [x|] eqn:Ha.
    + rewrite task_given_known by (by eexists). framed.
    + rewrite task_given_accepts by done. framed.
  - (* resource_given *)
    rewrite discard_state, discard_trace.
    destruct (task_to_subtask_mapping tc !! task) as [s|] eqn:Hm.
    2:{ rewrite resource_given_unmapped by done. framed. }
    destruct (assigned_subtasks tc !! s) as [d|] eqn:Ha.
    2:{ rewrite (resource_given_stale env task s) by done. framed. }
    destruct (resource_given_computes env task s tc d Hm Ha) as [-> ->].
    unfold compute_step.
    destruct (compute_task_frame env s (docker_images d) (src_code d)
                (extra_data d) (short_description d) (deadline d) tc)
      as (Hk & Hc & Hl).
    destruct (compute_task_accounted env s (docker_images d) (src_code d)
                (extra_data d) (short_description d) (deadline d) tc)
      as (Hs & Hmon & Hres).
    unfold call_framed, stats_accounted. rewrite Hmon, Hres.
    destruct (value_of _); cbn; rewrite Hs;
      (split; [exact Hk|]); (split; [intros _; exact Hc|]);
      (split; [intros _; exact Hl|]);
      unfold stats_le; repeat split; lia.
  - (* task_resource_collected *)
    rewrite discard_state, discard_trace.
    destruct (task_to_subtask_mapping tc !! task) as [s|] eqn:Hm.
    2:{ rewrite task_resource_collected_unmapped by done. framed. }
    destruct (assigned_subtasks tc !! s) as [d|] eqn:Ha.
    2:{ rewrite (task_resource_collected_stale env task s) by done. framed. }
    destruct (task_resource_collected_computes env task s unpack_delta tc d
                Hm Ha) as [-> ->].
    unfold compute_step.
    destruct (compute_task_frame env s (docker_images d) (src_code d)
                (extra_data d) (short_description d) (deadline d)
                (collected_pre env tc)) as (Hk & Hc & Hl).
    destruct (compute_task_accounted env s (docker_images d) (src_code d)
                (extra_data d) (short_description d) (deadline d)
                (collected_pre env tc)) as (Hs & Hmon & Hres).
    unfold call_framed, stats_accounted.
    rewrite !count_events_app, Hmon, Hres, Hs.
    split; [exact Hk|]. split; [intros _; exact Hc|].
    split; [intros _; exact Hl|].
    unfold unpack_events, stats_le, collected_pre.
    destruct unpack_delta; rewrite ?count_events_cons, ?count_events_nil;
      cbn; repeat split; lia.
  - (* task_resource_failure *)
    unfold task_resource_failure. step_m.
    destruct (task_to_subtask_mapping tc !! task) as [s|]; cbn; [|framed].
    destruct (assigned_subtasks tc !! s) as [d|] eqn:Ha; cbn.
    + rewrite Ha. cbn. destruct (flag_truthy (counting_task tc)); framed.
    + destruct (flag_truthy (counting_task tc)); framed.
  - (* wait_for_resources *)
    unfold wait_for_resources. step_m.
    destruct (task_to_subtask_mapping tc !! task) as [s|]; cbn; [|framed].
    destruct (assigned_subtasks tc !! s); framed.
  - (* task_request_rejected *)
    unfold task_request_rejected. step_m. framed.
  - (* resource_request_rejected *)
    unfold resource_request_rejected. step_m. framed.
  - (* task_computed *)
    destruct (assigned_subtasks tc !! tt_subtask_id task_thread) as [d|]
      eqn:Ha.
    + destruct (task_headers env !! task_id d) as [h|] eqn:Hh.
      * rewrite (task_computed_dispatch env task_thread tc d h Ha Hh).
        destruct (verdict_of task_thread); framed.
      * rewrite (task_computed_no_header env task_thread tc d Ha Hh). framed.
    + rewrite (task_computed_unregistered env task_thread tc Ha). framed.
  - (* run *)
    destruct (flag_truthy (counting_task tc)) eqn:Hc.
    { rewrite run_counting by done.
      unfold call_framed, stats_accounted. cbn [state_of trace_of fst snd].
      rewrite !count_events_map_none by done. framed. }
    destruct (compute_tasks tc && runnable tc) eqn:Hg.
    2:{ rewrite run_gated by done. framed. }
    destruct (handle_truthy (waiting_for_task tc)) eqn:Hw.
    + rewrite run_waiting by done. unfold after_reset, ticked. step_m.
      destruct (use_waiting_ttl tc); [|framed].
      destruct (_ <? 0); framed.
    + rewrite run_idle by done.
      destruct (_ <? _); [destruct (_ =? _)%nat|].
      * apply request_task_framed.
      * framed.
      * framed.
  - (* reset *)
    step_m. framed.
  - (* session_timeout *)
    step_m. destruct (negb _); framed.
  - (* change_config *)
    unfold change_config, change_docker_config.
    unfold mbind, M_bind, m_bind, modify, emit, get_self, mret, M_ret, m_ret.
    cbn. destruct (negb (docker_machine env) && run_benchmarks); cbn.
    { framed. }
    destruct (docker_machine env && use_docker_machine_manager tc); cbn.
    2:{ framed. }
    rewrite lock_config_eq. cbn.
    unfold call_framed, stats_accounted.
    change (EvBuildConfig
            :: map (λ l, EvLockConfig l true) (listeners tc)
               ++ [EvUpdateConfig in_background])
      with ([EvBuildConfig]
            ++ map (λ l, EvLockConfig l true) (listeners tc)
               ++ [EvUpdateConfig in_background]).
    rewrite !count_events_app, !count_events_map_none by done.
    framed.
  - (* done_callback *)
    unfold done_callback.
    unfold mbind, M_bind, m_bind, modify, emit, get_self, mret, M_ret, m_ret,
      when.
    destruct run_benchmarks; cbn; rewrite lock_config_eq; cbn;
      unfold call_framed, stats_accounted;
      rewrite ?app_nil_r;
      try change (EvRunAllBenchmarks
                  :: map (λ l, EvLockConfig l false) (listeners tc))
        with ([EvRunAllBenchmarks]
              ++ map (λ l, EvLockConfig l false) (listeners tc));
      rewrite ?count_events_app, !count_events_map_none by done;
      framed.
  - (* change_docker_config *)
    rewrite change_docker_config_eq.
    destruct (negb (docker_machine env) && run_benchmarks); [framed|].
    destruct (docker_machine env && use_docker_machine_manager tc);
      [|framed].
    unfold call_framed, stats_accounted. cbn [state_of trace_of fst snd].
    rewrite !count_events_app, !count_events_map_none by done.
    framed.
  - (* register_listener *)
    unfold register_listener. step_m. framed.
  - (* lock_config *)
    rewrite lock_config_eq.
    unfold call_framed, stats_accounted. cbn [state_of trace_of fst snd].
    rewrite !count_events_map_none by done. framed.
  - (* config_changed *)
    rewrite config_changed_eq.
    unfold call_framed, stats_accounted. cbn [state_of trace_of fst snd].
    rewrite !count_events_map_none by done. framed.
  - (* session_closed *)
    step_m. destruct (negb _); framed.
  - (* wait *)
    step_m. destruct ttl; framed.
  - (* quit *)
    rewrite quit_eq.
    unfold call_framed, stats_accounted. cbn [state_of trace_of fst snd].
    rewrite !count_events_map_none by done. framed.
Qed.

(** ** Along sequences of calls *)

Lemma exec_accounted (ops : list (Env * op)) (tc : TaskComputer) :
  stats_accounted (stats tc) (stats (exec ops tc)) (exec_trace ops tc).
Proof.
  revert tc. induction ops as [|[env o] ops IH]; intros tc.
  - unfold stats_accounted, stats_le. cbn. repeat split; lia.
  - cbn [exec exec_trace].
    destruct (call_frame env o tc)
      as (_ & _ & _ & H1 & H2 & H3a & H3b & H3c & H3d).
    destruct (IH (state_of (call env o tc)))
      as (I1 & I2 & I3a & I3b & I3c & I3d).
    unfold stats_accounted, stats_le. rewrite !count_events_app.
    repeat split; lia.
Qed.

(** X13: along any sequence of calls no counter of the statistics ever
    goes down. *)
Theorem stats_never_decrease (ops : list (Env * op)) (tc : TaskComputer) :
  stats_le (stats tc) (stats (exec ops tc)).
Proof. by destruct (exec_accounted ops tc) as (_ & _ & H). Qed.

(** X14: the counters agree with what was sent: along any sequence of
    calls [computed_tasks] grows by the number of [send_results] calls,
    and [computed_tasks], [tasks_with_timeout] and [tasks_with_errors]
    together grow by the number of monitor events. *)
Theorem outcomes_are_counted (ops : list (Env * op)) (tc : TaskComputer) :
  computed_tasks (stats (exec ops tc))
  = computed_tasks (stats tc)
    + Z.of_nat (count_events is_send_results (exec_trace ops tc))
  ∧ outcome_total (stats (exec ops tc))
    = outcome_total (stats tc)
      + Z.of_nat (count_events is_monitor (exec_trace ops tc)).
Proof. by destruct (exec_accounted ops tc) as (H1 & H2 & _). Qed.

Lemma exec_same_constants (ops : list (Env * op)) (tc : TaskComputer) :
  same_constants tc (exec ops tc).
Proof.
  revert tc. induction ops as [|[env o] ops IH]; intros tc; [done|].
  cbn [exec].
  destruct (call_frame env o tc) as ((H1 & H2 & H3 & H4) & _).
  destruct (IH (state_of (call env o tc))) as (I1 & I2 & I3 & I4).
  unfold same_constants. repeat split; congruence.
Qed.

Lemma init_constants (env : Env) (name : string) (c : ConfigDesc)
    (use_dmm bn : bool) :
  support_direct_computation (TaskComputer_init env name c use_dmm bn) = false
  ∧ max_assigned_tasks (TaskComputer_init env name c use_dmm bn) = 1%nat
  ∧ node_name (TaskComputer_init env name c use_dmm bn) = name.
Proof.
  unfold TaskComputer_init.
  match goal with
  | |- context [state_of (change_config ?e ?c ?b ?r ?tc)] =>
      destruct (call_frame e (OpChangeConfig c b r) tc)
        as ((H1 & H2 & H3 & _) & _)
  end.
  cbn [call] in *. by rewrite H1, H2, H3.
Qed.

(** X15: in every state reachable from [__init__],
    [support_direct_computation] is [False] and [max_assigned_tasks] is
    1: no method assigns them. *)
Theorem reachable_never_direct (tc : TaskComputer) :
  reachable tc →
  support_direct_computation tc = false ∧ max_assigned_tasks tc = 1%nat.
Proof.
  intros (env & name & c & use_dmm & bn & ops & ->).
  destruct (exec_same_constants ops (TaskComputer_init env name c use_dmm bn))
    as (_ & H2 & H3 & _).
  destruct (init_constants env name c use_dmm bn) as (I1 & I2 & _).
  split; congruence.
Qed.

Lemma reachable_never_direct_witness :
  support_direct_computation node_computing = false
  ∧ max_assigned_tasks node_computing = 1%nat.
Proof.
  apply reachable_never_direct.
  exists sample_env, "node", sample_config, false, false,
    [(sample_env, OpTaskGiven ctd_s1);
     (sample_env, OpTaskResourceCollected "t1" true)].
  reflexivity.
Defined.

Lemma only_docker_threads_from (ops : list (Env * op)) (tc : TaskComputer)
    (thread : TaskThread) :
  support_direct_computation tc = false →
  EvThreadCreated thread ∈ exec_trace ops tc →
  tt_kind thread = DockerTaskThread ∧ tt_docker_images thread ≠ [].
Proof.
  revert tc. induction ops as [|[env o] ops IH]; intros tc Hs Hin.
  { by apply elem_of_nil in Hin. }
  cbn [exec_trace] in Hin. apply elem_of_app in Hin as [Hin|Hin].
  - apply call_creates_thread in Hin.
    destruct Hin as (_ & s & d & h & _ & _ & Hrun & ->).
    destruct Hrun as [Hne|Hyes]; [|congruence].
    cbn. split; [|exact Hne]. by destruct (docker_images d).
  - apply (IH (state_of (call env o tc))); [|exact Hin].
    destruct (call_frame env o tc) as ((_ & H2 & _) & _). congruence.
Qed.

(** X16: a node built by [__init__] never constructs a [PyTaskThread]:
    every thread object made along any sequence of calls is a
    [DockerTaskThread] with a non-empty list of images. *)
Theorem only_docker_threads (env : Env) (name : string) (c : ConfigDesc)
    (use_dmm bn : bool) (ops : list (Env * op)) (thread : TaskThread) :
  EvThreadCreated thread
    ∈ exec_trace ops (TaskComputer_init env name c use_dmm bn) →
  tt_kind thread = DockerTaskThread ∧ tt_docker_images thread ≠ [].
Proof.
  apply only_docker_threads_from.
  by destruct (init_constants env name c use_dmm bn) as (-> & _).
Qed.

Lemma only_docker_threads_witness :
  let thread := worker_for sample_env "s1" (docker_images ctd_s1) ctd_s1
                  sample_header (src_code ctd_s1) (extra_data ctd_s1)
                  (short_description ctd_s1) (deadline ctd_s1) in
  EvThreadCreated thread ∈ exec_trace life_of_s1 node_fresh
  ∧ tt_kind thread = DockerTaskThread ∧ tt_docker_images thread ≠ [].
Proof.
  intros thread.
  assert (Hin : EvThreadCreated thread ∈ exec_trace life_of_s1 node_fresh).
  { vm_compute. do 3 apply list_elem_of_further. apply list_elem_of_here. }
  split; [exact Hin|].
  exact (only_docker_threads sample_env "node" sample_config false false
           life_of_s1 thread Hin).
Defined.

(** X17: [runnable], [compute_tasks], [task_request_frequency] and the
    two time-outs are assigned by [change_config],
    [change_docker_config] and [done_callback] only: along any sequence
    of the other public operations they keep their values, so a locked
    node stays locked.  The listeners are assigned by
    [register_listener] only. *)
Theorem configuration_is_stable (ops : list (Env * op)) (tc : TaskComputer) :
  (no_config_ops ops → same_configuration tc (exec ops tc))
  ∧ (no_register_ops ops → listeners (exec ops tc) = listeners tc).
Proof.
  split.
  - revert tc. induction ops as [|[env o] ops IH]; intros tc Hno.
    { by unfold same_configuration. }
    apply Forall_cons in Hno as [Ho Hno]. cbn [exec]. cbn in Ho.
    destruct (call_frame env o tc) as (_ & Hc & _).
    destruct (Hc Ho) as (H1 & H2 & H3 & H4 & H5).
    destruct (IH (state_of (call env o tc)) Hno) as (I1 & I2 & I3 & I4 & I5).
    unfold same_configuration. repeat split; congruence.
  - revert tc. induction ops as [|[env o] ops IH]; intros tc Hno; [done|].
    apply Forall_cons in Hno as [Ho Hno]. cbn [exec]. cbn in Ho.
    destruct (call_frame env o tc) as (_ & _ & Hl & _).
    rewrite (IH (state_of (call env o tc)) Hno). by apply Hl.
Qed.

Lemma configuration_is_stable_witness :
  no_config_ops (life_of_s1 ++ [(sample_env, OpRegisterListener 3%nat)])
  ∧ runnable (exec (life_of_s1 ++ [(sample_env, OpRegisterListener 3%nat)])
                node_locked) = false
  ∧ no_register_ops life_of_s1
  ∧ listeners (exec life_of_s1 node_locked) = listeners node_locked.
Proof.
  assert (Hno : no_config_ops
                  (life_of_s1 ++ [(sample_env, OpRegisterListener 3%nat)])).
  { unfold no_config_ops, life_of_s1. repeat constructor. }
  assert (Hreg : no_register_ops life_of_s1).
  { unfold no_register_ops, life_of_s1. repeat constructor. }
  split; [exact Hno|].
  destruct (configuration_is_stable
              (life_of_s1 ++ [(sample_env, OpRegisterListener 3%nat)])
              node_locked) as [Hcfg _].
  destruct (Hcfg Hno) as [Hr _].
  split; [rewrite Hr; reflexivity|]. split; [exact Hreg|].
  destruct (configuration_is_stable life_of_s1 node_locked) as [_ Hlst].
  exact (Hlst Hreg).
Defined.

(** ** Locking the configuration *)

Lemma change_docker_config_locks (env : Env) (c : ConfigDesc) (rb bg : bool)
    (tc : TaskComputer) :
  docker_machine env = true →
  use_docker_machine_manager tc = true →
  change_docker_config env c rb bg tc
  = (Returned tt, set_runnable false tc,
     EvBuildConfig
     :: map (λ l, EvLockConfig l true) (listeners tc)
        ++ [EvUpdateConfig bg]).
Proof.
  intros Hd Hu. unfold change_docker_config.
  unfold mbind, M_bind, m_bind, modify, emit, get_self, mret, M_ret, m_ret.
  cbn. rewrite Hd, Hu. cbn. rewrite lock_config_eq. cbn. reflexivity.
Qed.

Lemma done_callback_unlocks (rb : bool) (tc : TaskComputer) :
  done_callback rb tc
  = (Returned tt, set_runnable true tc,
     (if rb then [EvRunAllBenchmarks] else [])
     ++ map (λ l, EvLockConfig l false) (listeners tc)).
Proof.
  unfold done_callback.
  unfold mbind, M_bind, m_bind, modify, emit, get_self, mret, M_ret, m_ret,
    when.
  destruct rb; cbn; rewrite lock_config_eq; cbn; by rewrite app_nil_r.
Qed.

(** X18: with a docker machine under manager control,
    [change_docker_config] tells every listener [lock_config(True)], in
    the order of registration, before it asks the manager to update,
    and leaves [runnable] false; [done_callback] runs the benchmarks if
    they were asked for, tells the same listeners [lock_config(False)],
    and the node is as before the change with [runnable] true. *)
Theorem config_lock_round_trip (env : Env) (c : ConfigDesc) (rb bg : bool)
    (tc : TaskComputer) :
  docker_machine env = true →
  use_docker_machine_manager tc = true →
  let r1 := change_docker_config env c rb bg tc in
  let r2 := done_callback rb (state_of r1) in
  trace_of r1
  = EvBuildConfig
    :: map (λ l, EvLockConfig l true) (listeners tc) ++ [EvUpdateConfig bg]
  ∧ runnable (state_of r1) = false
  ∧ trace_of r2
    = (if rb then [EvRunAllBenchmarks] else [])
      ++ map (λ l, EvLockConfig l false) (listeners tc)
  ∧ state_of r2 = set_runnable true tc.
Proof.
  intros Hd Hu r1 r2. subst r1 r2.
  rewrite (change_docker_config_locks env c rb bg tc Hd Hu).
  cbn [state_of trace_of fst snd]. rewrite done_callback_unlocks.
  cbn. repeat split; reflexivity.
Qed.

Lemma config_lock_round_trip_witness :
  let tc := state_of (register_listener 4%nat
                        (state_of (register_listener 3%nat node_locked))) in
  let r1 := change_docker_config sample_env sample_config true true tc in
  let r2 := done_callback true (state_of r1) in
  trace_of r1
  = [EvBuildConfig; EvLockConfig 3%nat true; EvLockConfig 4%nat true;
     EvUpdateConfig true]
  ∧ runnable (state_of r1) = false
  ∧ trace_of r2
    = [EvRunAllBenchmarks; EvLockConfig 3%nat false; EvLockConfig 4%nat false]
  ∧ state_of r2 = set_runnable true tc.
Proof.
  exact (config_lock_round_trip sample_env sample_config true true
           (state_of (register_listener 4%nat
                        (state_of (register_listener 3%nat node_locked))))
           eq_refl eq_refl).
Defined.

(** X19: [change_docker_config] runs the benchmarks itself exactly when
    they are asked for and there is no docker machine, and it locks the
    node ([runnable] false) exactly when there is a docker machine under
    manager control.  So with a docker machine that is not under manager
    control the benchmarks asked for are not run and nothing is locked. *)
Theorem change_docker_config_cases (env : Env) (c : ConfigDesc) (rb bg : bool)
    (tc : TaskComputer) :
  let r := change_docker_config env c rb bg tc in
  (EvRunAllBenchmarks ∈ trace_of r ↔ rb = true ∧ docker_machine env = false)
  ∧ runnable (state_of r)
    = (if docker_machine env && use_docker_machine_manager tc
       then false else runnable tc)
  ∧ (docker_machine env = true → use_docker_machine_manager tc = false →
     r = (Returned tt, tc, [EvBuildConfig])).
Proof.
  intros r. subst r. unfold change_docker_config.
  unfold mbind, M_bind, m_bind, modify, emit, get_self, mret, M_ret, m_ret.
  cbn. destruct (docker_machine env) eqn:Hd; cbn.
  - destruct (use_docker_machine_manager tc) eqn:Hu; cbn.
    + rewrite lock_config_eq. cbn. split; [|by split].
      split; [|by intros [_ ?]]. intros Hin.
      apply elem_of_cons in Hin as [Hin|Hin]; [discriminate|].
      apply elem_of_app in Hin as [Hin|Hin].
      * apply list_elem_of_In, in_map_iff in Hin as (x & Hx & _).
        discriminate.
      * apply list_elem_of_singleton in Hin. discriminate.
    + split; [|by split]. split; [|by intros [_ ?]]. intros Hin.
      apply list_elem_of_singleton in Hin. discriminate.
  - destruct rb; cbn.
    + split; [|by split]. split; [done|]. intros _.
      apply list_elem_of_further, list_elem_of_here.
    + split; [|by split]. split; [|by intros [? _]]. intros Hin.
      apply list_elem_of_singleton in Hin. discriminate.
Qed.

(** ** Progress report *)

Section ProgressFacts.
Context {F : Type} (zero : F) (get_progress : TaskThread → F).

Lemma get_progresses_snoc (tc : TaskComputer) (l : list TaskThread)
    (c : TaskThread) :
  get_progresses zero get_progress (set_current_computations (l ++ [c]) tc)
  = <[tt_subtask_id c := snapshot_of zero get_progress c]>
      (get_progresses zero get_progress (set_current_computations l tc)).
Proof. unfold get_progresses. cbn. by rewrite foldl_snoc. Qed.

Lemma get_progresses_lookup_list (tc : TaskComputer) (l : list TaskThread)
    (s : string) :
  get_progresses zero get_progress (set_current_computations l tc) !! s
  = snapshot_of zero get_progress
      <$> last (filter (λ c, tt_subtask_id c = s) l).
Proof.
  induction l as [|c l IH] using rev_ind; [done|].
  rewrite get_progresses_snoc, filter_app.
  destruct (decide (tt_subtask_id c = s)) as [<-|Hne].
  - rewrite lookup_insert_eq, filter_cons_True by done.
    by rewrite filter_nil, last_snoc.
  - rewrite lookup_insert_ne by done.
    rewrite filter_cons_False by done. by rewrite filter_nil, app_nil_r.
Qed.

(** X20: [get_progresses()] has an entry for a subtask id exactly when
    a listed computation has that subtask id, and the entry is the
    snapshot of the last such computation in the list: its progress,
    its short description, and zero for the two estimates. *)
Theorem get_progresses_reports_last (tc : TaskComputer) (s : string) :
  get_progresses zero get_progress tc !! s
  = snapshot_of zero get_progress
      <$> last (filter (λ c, tt_subtask_id c = s) (current_computations tc))
  ∧ (is_Some (get_progresses zero get_progress tc !! s)
     ↔ ∃ c, c ∈ current_computations tc ∧ tt_subtask_id c = s).
Proof.
  assert (Hl : get_progresses zero get_progress tc !! s
               = snapshot_of zero get_progress
                   <$> last (filter (λ c, tt_subtask_id c = s)
                               (current_computations tc))).
  { rewrite <- (get_progresses_lookup_list tc (current_computations tc) s).
    reflexivity. }
  split; [exact Hl|]. rewrite Hl, fmap_is_Some. split.
  - intros [c Hc]. exists c. apply last_Some in Hc as [l' Hc].
    assert (Hin : c ∈ filter (λ c, tt_subtask_id c = s)
                      (current_computations tc)).
    { rewrite Hc. apply elem_of_app. right. apply list_elem_of_here. }
    by apply list_elem_of_filter in Hin as [? ?].
  - intros (c & Hin & Hs).
    assert (Hf : c ∈ filter (λ c, tt_subtask_id c = s)
                     (current_computations tc))
      by (by apply list_elem_of_filter).
    destruct (filter _ (current_computations tc)) as [|x l] using rev_ind.
    + by apply elem_of_nil in Hf.
    + rewrite last_snoc. by eexists.
Qed.
End ProgressFacts.
